(** * AutoGetURLTableForTKU: adaptive extraction and incremental discovery

    A shallow embedding of the Python sources [detector.py], [paginator.py],
    [smart_parser.py], [excel_manager.py] and [main.py], and the properties
    of the specification checked against it.

    Modelling conventions.
    - A Python [str] is the [string] of the bytes of its UTF-8 encoding.
      [str.strip], [len] and slices follow its characters, with the
      whitespace of Unicode.  The digits of [str.isdigit], [int] and [\d],
      the spaces of [\s] and the letters of [str.lower] are the ASCII ones,
      and [int] is taken on runs of digits it accepts: the properties that
      depend on them are stated for texts that have no other digit or
      space and are short enough.
    - A Python value stored in a record is a [pyval]; a record ([Dict]) is a
      [gmap string pyval], read with [dict.get].
    - A Python [set] is a [gset]; only membership is ever observed.
    - Code that may raise returns a [result]; [try ... except Exception]
      is a match on it.
    - The collaborators outside the repository are variables of a section:
      the CSS selector engine of BeautifulSoup, [urlparse], [urljoin], the
      crawler (a function from addresses to pages, the source being the
      same at every fetch), dateutil, the clock, and the date conversion and
      the sort of pandas.  Logging, printing and sleeping are left out. *)

From Stdlib Require Import ZArith Ascii String List DecimalString.
From stdpp Require Import gmap strings list fin_maps sorting.

Local Open Scope string_scope.
Local Open Scope Z_scope.

(** ** Python values and records *)

Module Py.

Inductive pyval : Type :=
  | PNone
  | PStr (s : string)
  | PInt (z : Z).

#[global] Instance pyval_eq_dec : EqDecision pyval.
Proof. solve_decision. Defined.

Definition pyval_enc (v : pyval) : unit + (string + Z) :=
  match v with
  | PNone => inl tt
  | PStr s => inr (inl s)
  | PInt z => inr (inr z)
  end.

Definition pyval_dec (x : unit + (string + Z)) : pyval :=
  match x with
  | inl _ => PNone
  | inr (inl s) => PStr s
  | inr (inr z) => PInt z
  end.

#[global] Instance pyval_countable : Countable pyval.
Proof.
  refine (inj_countable' pyval_enc pyval_dec _).
  intros []; reflexivity.
Defined.

(** [bool(v)]: [None], the empty string and [0] are falsy. *)
Definition truthy (v : pyval) : bool :=
  match v with
  | PNone => false
  | PStr s => negb (String.eqb s "")
  | PInt z => negb (z =? 0)
  end.

(** [d.get(k)]: the value, or [None] when the key is absent. *)
Definition get (d : gmap string pyval) (k : string) : pyval :=
  default PNone (d !! k).

(** [d.get(k, dflt)]: the default replaces an absent key only, never a
    stored [None]. *)
Definition get_or (d : gmap string pyval) (k : string) (dflt : pyval) : pyval :=
  default dflt (d !! k).

(** [any(d.values())]. *)
Definition any_values (d : gmap string pyval) : bool :=
  existsb truthy (snd <$> map_to_list d).

(** [a or b] on values. *)
Definition por (a b : pyval) : pyval := if truthy a then a else b.

End Py.

Import Py.

(** ** detector.py *)

Module Detector.

(** The key a persisted record contributes to [existing_keys]. *)
Definition store_key (item : gmap string pyval) : pyval * pyval :=
  (get_or item "活動名稱" (PStr ""), get_or item "起日" (PStr "")).

(** The key under which a freshly extracted record is looked up. *)
Definition fresh_key (item : gmap string pyval) : pyval * pyval :=
  (get_or item "title" (PStr ""), get_or item "date" (PStr "")).

(** The guard of the set comprehension:
    [if item.get('活動名稱') and item.get('起日')]. *)
Definition store_guard (item : gmap string pyval) : bool :=
  truthy (get item "活動名稱") && truthy (get item "起日").

Definition existing_keys (existing_data : list (gmap string pyval))
  : gset (pyval * pyval) :=
  list_to_set (store_key <$> filter (λ item, store_guard item = true) existing_data).

(** [DataDetector.detect_new_data]. *)
Definition detect_new_data (new_data existing_data : list (gmap string pyval))
  : list (gmap string pyval) :=
  match new_data with
  | [] => []
  | _ =>
      let keys := existing_keys existing_data in
      filter (λ item, fresh_key item ∉ keys) new_data
  end.

End Detector.

(** ** Text: the [str] methods the sources use *)

Module Text.

Definition code (c : ascii) : nat := nat_of_ascii c.

Definition between (lo hi : nat) (c : ascii) : bool :=
  ((lo <=? code c) && (code c <=? hi))%nat.

(** A text is the sequence of the bytes of its UTF-8 encoding.

    [str.isspace] on one ASCII character: TAB..CR, FS..US and the space. *)
Definition is_space (c : ascii) : bool := between 9 13 c || between 28 32 c.

(** [str.isspace] on the characters of two bytes, U+0085 and U+00A0. *)
Definition is_space2 (c d : ascii) : bool :=
  (code c =? 194)%nat && ((code d =? 133) || (code d =? 160))%nat.

(** [str.isspace] on the characters of three bytes: U+1680, U+2000 to
    U+200A, U+2028, U+2029, U+202F, U+205F and U+3000. *)
Definition is_space3 (c d e : ascii) : bool :=
  ((code c =? 225) && (code d =? 154) && (code e =? 128))%nat
  || ((code c =? 226)%nat && (code d =? 128)%nat
      && (between 128 138 e || between 168 169 e || (code e =? 175)%nat))
  || ((code c =? 226) && (code d =? 129) && (code e =? 159))%nat
  || ((code c =? 227) && (code d =? 128) && (code e =? 128))%nat.

(** A byte that continues a character. *)
Definition is_cont (c : ascii) : bool := between 128 191 c.

(** [\d] and [str.isdigit] on one ASCII character; the digits beyond
    ASCII are not followed. *)
Definition is_digit (c : ascii) : bool := between 48 57 c.

(** The class [[A-F0-9]]. *)
Definition is_upper_hex (c : ascii) : bool := between 65 70 c || is_digit c.

Definition is_upper (c : ascii) : bool := between 65 90 c.
Definition is_lower (c : ascii) : bool := between 97 122 c.
Definition is_alpha (c : ascii) : bool := is_upper c || is_lower c.

Definition lower_char (c : ascii) : ascii :=
  if is_upper c then ascii_of_nat (code c + 32) else c.

(** [s.lower()]. *)
Fixpoint lower (s : string) : string :=
  match s with
  | EmptyString => EmptyString
  | String c s' => String (lower_char c) (lower s')
  end.

(** [s.lstrip()]: the whitespace characters at the start are passed
    over, whether of one, two or three bytes. *)
Fixpoint lstrip (s : string) : string :=
  match s with
  | EmptyString => s
  | String c s1 =>
      if is_space c then lstrip s1
      else
        match s1 with
        | EmptyString => s
        | String d s2 =>
            if is_space2 c d then lstrip s2
            else
              match s2 with
              | EmptyString => s
              | String e s3 => if is_space3 c d e then lstrip s3 else s
              end
        end
  end.

(** [s.rstrip()]: the text up to its last character that is no
    whitespace; what follows a position is dropped when it is whitespace
    only. *)
Fixpoint rstrip (s : string) : string :=
  match s with
  | EmptyString => EmptyString
  | String c s' =>
      if String.eqb (lstrip s) EmptyString then EmptyString
      else String c (rstrip s')
  end.

(** [s.strip()]. *)
Definition strip (s : string) : string := rstrip (lstrip s).

(** [s[:n]]. *)
Fixpoint str_take (n : nat) (s : string) : string :=
  match n, s with
  | O, _ => EmptyString
  | S n', String c s' => String c (str_take n' s')
  | S _, EmptyString => EmptyString
  end.

(** [s[n:]]. *)
Fixpoint str_drop (n : nat) (s : string) : string :=
  match n, s with
  | O, _ => s
  | S n', String _ s' => str_drop n' s'
  | S _, EmptyString => EmptyString
  end.

(** [s[-n:]] for [n > 0]. *)
Definition take_last (n : nat) (s : string) : string :=
  str_drop (String.length s - n) s.

(** [len(s)]: the number of characters, one per byte that continues
    none. *)
Fixpoint char_length (s : string) : nat :=
  match s with
  | EmptyString => O
  | String c s' => if is_cont c then char_length s' else S (char_length s')
  end.

(** [s[:n]] in characters: the bytes up to the start of character
    [n + 1]. *)
Fixpoint take_chars (n : nat) (s : string) : string :=
  match s with
  | EmptyString => EmptyString
  | String c s' =>
      if is_cont c then String c (take_chars n s')
      else
        match n with
        | O => EmptyString
        | S n' => String c (take_chars n' s')
        end
  end.

(** [s.startswith(p)]. *)
Fixpoint startswith (p s : string) : bool :=
  match p, s with
  | EmptyString, _ => true
  | String a p', String b s' => Ascii.eqb a b && startswith p' s'
  | String _ _, EmptyString => false
  end.

(** [p in s]. *)
Fixpoint contains (p s : string) : bool :=
  startswith p s ||
  match s with
  | EmptyString => false
  | String _ s' => contains p s'
  end.

(** [c in s] for one character. *)
Fixpoint has_char (c : ascii) (s : string) : bool :=
  match s with
  | EmptyString => false
  | String a s' => Ascii.eqb a c || has_char c s'
  end.

Fixpoint forallb_str (p : ascii → bool) (s : string) : bool :=
  match s with
  | EmptyString => true
  | String c s' => p c && forallb_str p s'
  end.

(** [s.isdigit()]: non-empty and all digits. *)
Definition isdigit (s : string) : bool :=
  negb (String.eqb s "") && forallb_str is_digit s.

(** [int(s)] on a string of ASCII digits, most significant first, where
    [int] returns: on more than 4300 digits it raises [ValueError]. *)
Fixpoint int_acc (acc : Z) (s : string) : Z :=
  match s with
  | EmptyString => acc
  | String c s' => int_acc (10 * acc + (Z.of_nat (code c) - 48)) s'
  end.

Definition int_of_digits (s : string) : Z := int_acc 0 s.

(** [str(n)] for an integer. *)
Definition str_of_Z (z : Z) : string := NilZero.string_of_int (Z.to_int z).

(** [s.split(sep, 1)] read as [s.partition(sep)] on a one-character
    separator: the part before the first [sep], and the part after it when
    there is one. *)
Fixpoint partition (sep : ascii) (s : string) : string * option string :=
  match s with
  | EmptyString => (EmptyString, None)
  | String c s' =>
      if Ascii.eqb c sep then (EmptyString, Some s')
      else let '(a, b) := partition sep s' in (String c a, b)
  end.

(** [s.split(sep)] on a one-character separator. *)
Fixpoint split (sep : ascii) (s : string) : list string :=
  match s with
  | EmptyString => [EmptyString]
  | String c s' =>
      if Ascii.eqb c sep then EmptyString :: split sep s'
      else
        match split sep s' with
        | [] => [String c EmptyString]
        | w :: ws => String c w :: ws
        end
  end.

(** [s.split()]: the whitespace-separated words. *)
Fixpoint words_acc (cur : string) (s : string) : list string :=
  let flush := if String.eqb cur "" then [] else [cur] in
  match s with
  | EmptyString => flush
  | String c s' =>
      if is_space c then flush ++ words_acc EmptyString s'
      else words_acc (cur ++ String c EmptyString) s'
  end.

Definition words (s : string) : list string := words_acc EmptyString s.

(** [sep.join(l)] with the empty separator. *)
Definition join (l : list string) : string := fold_right String.append EmptyString l.

(** [s.replace(c, '')] for one character. *)
Fixpoint remove_char (c : ascii) (s : string) : string :=
  match s with
  | EmptyString => EmptyString
  | String a s' => if Ascii.eqb a c then remove_char c s' else String a (remove_char c s')
  end.

End Text.

(** ** Regular expressions

    The fragment of Python's [re] the sources use, with its backtracking
    semantics: alternatives are tried left to right, a repetition is greedy
    and gives characters back one at a time, and a search returns the
    leftmost match. *)

Module Re.

Import Text.

Inductive regex : Type :=
  | Lit (s : string)                               (* literal text *)
  | Rep (p : ascii → bool) (lo : nat) (hi : option nat)  (* class{lo,hi}, greedy *)
  | Seq (a b : regex)
  | Alt (a b : regex)
  | Opt (a : regex)                                (* a? *)
  | Grp (i : nat) (a : regex)                      (* i-th capturing group *)
  | Eos.                         (* $: at the end, or before a final newline *)

Definition caps := list (nat * string).

(** The characters consumed between [s] and its suffix [rest]. *)
Definition consumed (s rest : string) : string :=
  str_take (String.length s - String.length rest) s.

Section Matcher.
Context {A : Type}.

(** Greedy repetition of a character class: the longest run first, then
    shorter ones, never fewer than [lo] nor more than [hi]. *)
Fixpoint rep (p : ascii → bool) (lo : nat) (hi : option nat)
         (s : string) (k : string → option A) : option A :=
  let stop := match lo with O => k s | S _ => None end in
  let more := match hi with Some O => false | _ => true end in
  match s with
  | String c s' =>
      if p c && more then
        match rep p (Nat.pred lo) (Nat.pred <$> hi) s' k with
        | Some r => Some r
        | None => stop
        end
      else stop
  | EmptyString => stop
  end.

Fixpoint run (r : regex) (s : string) (cs : caps)
         (k : string → caps → option A) : option A :=
  match r with
  | Lit l => if startswith l s then k (str_drop (String.length l) s) cs else None
  | Rep p lo hi => rep p lo hi s (λ rest, k rest cs)
  | Seq a b => run a s cs (λ rest cs', run b rest cs' k)
  | Alt a b =>
      match run a s cs k with
      | Some x => Some x
      | None => run b s cs k
      end
  | Opt a =>
      match run a s cs k with
      | Some x => Some x
      | None => k s cs
      end
  | Grp i a => run a s cs (λ rest cs', k rest ((i, consumed s rest) :: cs'))
  | Eos =>
      match s with
      | EmptyString => k s cs
      | String c EmptyString => if Ascii.eqb c "010" then k s cs else None
      | _ => None
      end
  end.
End Matcher.

(** A successful match: the whole matched text, the captures and the rest. *)
Record mtch := Mtch { whole : string; groups : caps; after : string }.

(** [m.group(i)] for [i ≥ 1]: [None] when the group took no part. *)
Definition group (m : mtch) (i : nat) : option string :=
  snd <$> List.find (λ e, Nat.eqb (fst e) i) (groups m).

(** [re.match(r, s)]: a match anchored at the start. *)
Definition match_at (r : regex) (s : string) : option mtch :=
  run r s [] (λ rest cs, Some (Mtch (consumed s rest) cs rest)).

(** [re.search(r, s)]: the leftmost match. *)
Fixpoint search (r : regex) (s : string) : option mtch :=
  match match_at r s with
  | Some m => Some m
  | None =>
      match s with
      | EmptyString => None
      | String _ s' => search r s'
      end
  end.

(** [re.finditer(r, s)]: the successive non-overlapping matches; [skip]
    counts the characters of the previous match still to pass over. *)
Fixpoint finditer_from (r : regex) (skip : nat) (s : string) : list mtch :=
  match skip with
  | S n =>
      match s with
      | EmptyString => []
      | String _ s' => finditer_from r n s'
      end
  | O =>
      match match_at r s with
      | Some m =>
          m :: match s with
               | EmptyString => []
               | String _ s' => finditer_from r (Nat.pred (String.length (whole m))) s'
               end
      | None =>
          match s with
          | EmptyString => []
          | String _ s' => finditer_from r 0 s'
          end
      end
  end.

(** [re.findall(r, s)] for a pattern with [n] groups: per match the texts
    of groups [1..n], the empty string for a group that took no part. *)
Definition findall (n : nat) (r : regex) (s : string) : list (list string) :=
  (λ m, (λ i, default EmptyString (group m i)) <$> seq 1 n) <$> finditer_from r 0 s.

Definition digits (lo : nat) (hi : option nat) : regex := Rep is_digit lo hi.
Definition spaces (lo : nat) : regex := Rep is_space lo None.
Definition one_of (cs : string) : regex := Rep (λ c, has_char c cs) 1 (Some 1%nat).

Fixpoint seqs (l : list regex) : regex :=
  match l with
  | [] => Lit EmptyString
  | [r] => r
  | r :: l' => Seq r (seqs l')
  end.

Fixpoint alts (l : list regex) : regex :=
  match l with
  | [] => Rep (λ _, false) 1 None
  | [r] => r
  | r :: l' => Alt r (alts l')
  end.

(** A literal under [re.IGNORECASE], letter by letter. *)
Fixpoint lit_i (s : string) : regex :=
  match s with
  | EmptyString => Lit EmptyString
  | String c s' =>
      Seq (Rep (λ x, Ascii.eqb (lower_char x) (lower_char c)) 1 (Some 1%nat)) (lit_i s')
  end.

(** [re.sub(r, '', s)]: the text with every match cut out; [skip] counts
    the characters of the current match still to cut. *)
Fixpoint cut_from (r : regex) (skip : nat) (s : string) : string :=
  match s with
  | EmptyString => EmptyString
  | String c s' =>
      match skip with
      | S n => cut_from r n s'
      | O =>
          match match_at r s with
          | Some m =>
              match String.length (whole m) with
              | S n => cut_from r n s'
              | O => String c (cut_from r 0 s')
              end
          | None => String c (cut_from r 0 s')
          end
      end
  end.

Definition cut (r : regex) (s : string) : string := cut_from r 0 s.

End Re.

(** ** Exceptions *)

Module Exc.

Inductive exn : Type :=
  | SelectorSyntaxError   (* soupsieve rejects the selector *)
  | TypeError
  | ValueError
  | AttributeError
  | KeyError
  | ParserError           (* dateutil cannot read a date *)
  | OtherError.

Inductive result (A : Type) : Type :=
  | Ok (a : A)
  | Raise (e : exn).

Arguments Ok {A} a.
Arguments Raise {A} e.

Definition bind {A B : Type} (m : result A) (f : A → result B) : result B :=
  match m with
  | Ok a => f a
  | Raise e => Raise e
  end.

Definition returns {A : Type} (m : result A) : Prop := ∃ a, m = Ok a.

(** The value returned, or a default when an exception was raised. *)
Definition value_or {A : Type} (d : A) (m : result A) : A :=
  match m with
  | Ok a => a
  | Raise _ => d
  end.

(** The error monad, under stdpp's notation [x ← m; k]. *)
#[global] Instance result_ret : MRet result := @Ok.
#[global] Instance result_bind : MBind result := λ A B f m, bind m f.

End Exc.

Import Exc.

(** ** The document tree of BeautifulSoup *)

Module Bs4.

Import Text Re.

(** A page element: a text node or a tag with its attributes and contents.
    Comments, processing instructions and the text of scripts and styles
    carry no text for [get_text] and are left out. *)
#[warnings="-register-all"]
Inductive node : Type :=
  | NavigableString (s : string)
  | Tag (name : string) (attrs : list (string * string)) (contents : list node).

Definition is_tag (n : node) : bool :=
  match n with Tag _ _ _ => true | NavigableString _ => false end.

(** [tag.name]. *)
Definition name (n : node) : option string :=
  match n with Tag nm _ _ => Some nm | NavigableString _ => None end.

Definition named (nm : string) (n : node) : bool :=
  match n with Tag nm' _ _ => String.eqb nm' nm | NavigableString _ => false end.

(** [tag.get(k)]: the attribute, [None] when absent. *)
Definition attr (n : node) (k : string) : option string :=
  match n with
  | Tag _ attrs _ => snd <$> List.find (λ kv, String.eqb (fst kv) k) attrs
  | NavigableString _ => None
  end.

(** [tag.descendants]: everything below the tag, in document order. *)
Fixpoint descendants (n : node) : list node :=
  match n with
  | NavigableString _ => []
  | Tag _ _ cs =>
      (fix go (l : list node) : list node :=
         match l with
         | [] => []
         | c :: l' => c :: descendants c ++ go l'
         end) cs
  end.

(** The text nodes of an element, in document order. *)
Definition strings (n : node) : list string :=
  match n with
  | NavigableString s => [s]
  | Tag _ _ _ =>
      omap (λ d, match d with NavigableString s => Some s | Tag _ _ _ => None end)
           (descendants n)
  end.

(** [tag.get_text()]. *)
Definition get_text (n : node) : string := join (strings n).

(** [tag.get_text(strip=True)]: every text node stripped, the empty ones
    dropped, the rest concatenated. *)
Definition get_text_strip (n : node) : string :=
  join (List.filter (λ s, negb (String.eqb s "")) (strip <$> strings n)).

(** [tag.string]: the text of a tag with a single text node inside,
    possibly through a chain of only children. *)
Fixpoint string_of (n : node) : option string :=
  match n with
  | NavigableString s => Some s
  | Tag _ _ [c] => string_of c
  | Tag _ _ _ => None
  end.

(** [tag.find_all(...)] with a filter on tags. *)
Definition find_all (p : node → bool) (n : node) : list node :=
  List.filter (λ d, is_tag d && p d) (descendants n).

(** [tag.find(...)]: the first tag [find_all] would give. *)
Definition find (p : node → bool) (n : node) : option node :=
  head (find_all p n).

(** The filter [href=True]: the attribute is present. *)
Definition has_attr (k : string) (n : node) : bool :=
  match attr n k with Some _ => true | None => false end.

(** The filter [{k: v}] on a single-valued attribute. *)
Definition attr_is (k v : string) (n : node) : bool :=
  match attr n k with Some x => String.eqb x v | None => false end.

(** The filter [{k: v}] on a multi-valued attribute ([class], [rel]): one
    of its whitespace-separated values is [v]. *)
Definition attr_has_token (k v : string) (n : node) : bool :=
  match attr n k with
  | Some x => existsb (String.eqb v) (words x) || String.eqb x v
  | None => false
  end.

(** The filter [class_=re.compile(r)]: one class, or the whole attribute,
    contains a match. *)
Definition class_matches (r : regex) (n : node) : bool :=
  match attr n "class" with
  | Some x => existsb (λ w, bool_decide (is_Some (search r w))) (words x)
              || bool_decide (is_Some (search r x))
  | None => false
  end.

(** The filter [string=re.compile(r)]: [tag.string] contains a match. *)
Definition string_matches (r : regex) (n : node) : bool :=
  match string_of n with
  | Some s => bool_decide (is_Some (search r s))
  | None => false
  end.

End Bs4.

(** ** smart_parser.py *)

Module SmartParser.

Import Text Re Bs4.

(** *** The regular expressions of the parser *)

(** [\d{4}-\d{2}-\d{2}] *)
Definition date_re : regex :=
  seqs [digits 4 (Some 4%nat); Lit "-"; digits 2 (Some 2%nat); Lit "-"; digits 2 (Some 2%nat)].

(** [nid=([A-F0-9]+)] *)
Definition nid_re : regex := Seq (Lit "nid=") (Grp 1 (Rep is_upper_hex 1 None)).

(** [id|nid=([A-F0-9]+)] *)
Definition id_re : regex := Alt (Lit "id") nid_re.

(** [hidden] *)
Definition hidden_re : regex := Lit "hidden".

(** [\d{4}[/-]\d{1,2}[/-]\d{1,2}|\d{1,2}[/-]\d{1,2}[/-]\d{4}] *)
Definition loose_date_re : regex :=
  Alt (seqs [digits 4 (Some 4%nat); one_of "/-"; digits 1 (Some 2%nat); one_of "/-";
             digits 1 (Some 2%nat)])
      (seqs [digits 1 (Some 2%nat); one_of "/-"; digits 1 (Some 2%nat); one_of "/-";
             digits 4 (Some 4%nat)]).

(** [(?:pg=|page=)(\d+)] *)
Definition page_re : regex :=
  Seq (Alt (Lit "pg=") (Lit "page=")) (Grp 1 (digits 1 None)).

(** [共?(\d+)\s*頁|(\d+)\s*/\s*(\d+)\s*頁|total\s+(\d+)] *)
Definition total_re : regex :=
  alts [ seqs [Opt (Lit "共"); Grp 1 (digits 1 None); spaces 0; Lit "頁"];
         seqs [Grp 2 (digits 1 None); spaces 0; Lit "/"; spaces 0;
               Grp 3 (digits 1 None); spaces 0; Lit "頁"];
         seqs [Lit "total"; spaces 1; Grp 4 (digits 1 None)] ].

(** [最後|last|尾頁|more|\d+$] *)
Definition last_re : regex :=
  alts [Lit "最後"; Lit "last"; Lit "尾頁"; Lit "more"; Seq (digits 1 None) Eos].

(** [下一頁|next] *)
Definition next_re : regex := Alt (Lit "下一頁") (Lit "next").

(** *** Table mode *)

(** [SmartParser._is_table_mode]. *)
Definition _is_table_mode (selector : string) : bool :=
  existsb (λ indicator, contains indicator (lower selector))
          ["tbody"; "table"; "tr"; "td"; "th"].

(** [SmartParser._extract_table_row]. *)
Definition _extract_table_row (row : node) : option (gmap string pyval) :=
  let cells := find_all (λ n, named "td" n || named "th" n) row in
  match cells with
  | [] => None
  | title_cell :: rest =>
      let row_data : gmap string pyval := ∅ in
      (* first column: title and link *)
      let row_data :=
        match find (named "a") title_cell with
        | Some title_link =>
            let link := default "" (attr title_link "href") in
            let row_data := <["title" := PStr (get_text_strip title_link)]> row_data in
            let row_data := <["link" := PStr link]> row_data in
            match search nid_re link with
            | Some nid_match =>
                <["nid" := from_option PStr PNone (group nid_match 1)]> row_data
            | None => row_data
            end
        | None => row_data
        end in
      (* the date from the hidden span of the first column *)
      let row_data :=
        match find (λ n, named "span" n && class_matches hidden_re n) title_cell with
        | Some date_span =>
            let date_text := remove_char "," (get_text_strip date_span) in
            match search date_re date_text with
            | Some date_match => <["date" := PStr (whole date_match)]> row_data
            | None => row_data
            end
        | None => row_data
        end in
      (* second column: the main date *)
      let row_data :=
        match rest with
        | cell1 :: _ =>
            let date_cell := strip (get_text_strip cell1) in
            if negb (String.eqb date_cell "") && bool_decide (is_Some (match_at date_re date_cell))
            then <["date" := PStr date_cell]> row_data
            else row_data
        | [] => row_data
        end in
      if truthy (get row_data "title") then Some row_data else None
  end.

(** The body of the loop of [_parse_table_mode] for one container, over a
    row extractor that may raise: [except Exception: continue]. *)
Definition table_step (extract : node → result (option (gmap string pyval)))
    (row : node) : list (gmap string pyval) :=
  if negb (named "tr" row) then []
  else
    match extract row with
    | Ok (Some table_data) => if any_values table_data then [table_data] else []
    | Ok None => []
    | Raise _ => []
    end.

Definition _parse_table_mode_with
    (extract : node → result (option (gmap string pyval)))
    (containers : list node) : list (gmap string pyval) :=
  concat (table_step extract <$> containers).

(** [SmartParser._parse_table_mode]. *)
Definition _parse_table_mode (containers : list node) : list (gmap string pyval) :=
  _parse_table_mode_with (λ row, Ok (_extract_table_row row)) containers.

(** [SmartParser.validate_data]. *)
Definition validate_data (data_list : list (gmap string pyval))
  : list (gmap string pyval) :=
  List.filter
    (λ item,
       let cleaned : gmap string pyval := filter (λ kv, truthy kv.2 = true) item in
       truthy (get cleaned "title"))
    data_list.

(** [l[:n]] for a Python integer [n]: a negative [n] counts from the end. *)
Definition slice_to {A : Type} (n : Z) (l : list A) : list A :=
  if 0 <=? n then take (Z.to_nat n) l
  else take (length l - Z.to_nat (- n)) l.

(** *** General mode and the entry point, over the CSS selector engine

    [select] stands for [Tag.select] of BeautifulSoup (soupsieve): the tags
    below an element that match a CSS selector, in document order, or the
    exception raised when the text is not a selector. *)

Section Engine.

Variable select : node → string → result (list node).

(** [tag.select_one(selector)]. *)
Definition select_one (n : node) (selector : string) : result (option node) :=
  elements ← select n selector; Ok (head elements).

(** A double quote, for the attribute selectors. *)
Definition dq : string := String "034"%char EmptyString.

(** The selector [[a*="v"]]. *)
Definition attr_contains (a v : string) : string :=
  "[" ++ a ++ "*=" ++ dq ++ v ++ dq ++ "]".

(** One entry of [_get_field_patterns]: the selector groups and the
    validating lambda. *)
Record field_pattern := FieldPattern {
  fp_name : string;
  fp_groups : list (list string);
  fp_validator : node → bool
}.

(** [SmartParser._get_field_patterns], in the order of the dictionary. *)
Definition field_patterns : list field_pattern :=
  [ FieldPattern "title"
      [ ["h1"; "h2"; "h3"; "h4"; "h5"];
        [".title"; ".headline"; ".name"; attr_contains "class" "title";
         attr_contains "class" "head"; attr_contains "class" "news"];
        ["a"; "strong"; attr_contains "id" "title"; attr_contains "id" "news"] ]
      (λ elem, (5 <? char_length (get_text_strip elem))%nat);
    FieldPattern "link"
      [ ["a[href]"; "a"; "[href]"] ]
      (λ elem, named "a" elem
               && negb (String.eqb (default "" (attr elem "href")) ""));
    FieldPattern "date"
      [ ["time"; ".date"; ".published"; ".time"; attr_contains "class" "date";
         attr_contains "class" "time"; attr_contains "class" "publish"] ]
      (λ elem, bool_decide (is_Some (search loose_date_re (get_text_strip elem)))) ].

(** [SmartParser._validate_element] with its single validator. *)
Definition _validate_element (element : node) (validator : node → bool) : bool :=
  let text := get_text_strip element in
  if String.eqb text "" || (char_length text <? 2)%nat then false
  else validator element.

(** The loop over the selectors of one group; [cur] is the entry of the
    field in [detected] so far.  The loop is left as soon as the field is in
    [detected], whether or not this selector put it there. *)
Fixpoint scan_group (sample : node) (validator : node → bool)
    (cur : option string) (pattern : list string) : result (option string) :=
  match pattern with
  | [] => Ok cur
  | selector :: rest =>
      elements ← select sample selector;
      let cur' :=
        if existsb (λ elem, _validate_element elem validator) elements
        then Some selector else cur in
      match cur' with
      | Some _ => Ok cur'
      | None => scan_group sample validator cur' rest
      end
  end.

(** The loop over the groups of one field. *)
Fixpoint scan_groups (sample : node) (validator : node → bool)
    (cur : option string) (groups : list (list string)) : result (option string) :=
  match groups with
  | [] => Ok cur
  | pattern :: rest =>
      cur' ← scan_group sample validator cur pattern;
      scan_groups sample validator cur' rest
  end.

Fixpoint detect_fields (sample : node) (fps : list field_pattern)
  : result (list (string * string)) :=
  match fps with
  | [] => Ok []
  | fp :: rest =>
      found ← scan_groups sample (fp_validator fp) None (fp_groups fp);
      others ← detect_fields sample rest;
      Ok (match found with
          | Some selector => (fp_name fp, selector) :: others
          | None => others
          end)
  end.

(** [SmartParser._auto_detect_fields]: the detected selector of each field,
    in the order of detection. *)
Definition _auto_detect_fields (sample_container : node)
  : result (list (string * string)) :=
  detected ← detect_fields sample_container field_patterns;
  Ok (match detected with
      | [] => [("title", "*")]
      | _ => detected
      end).

(** One turn of the loop of [_extract_general_row]; an exception leaves
    the row as it was ([except Exception: continue]). *)
Definition general_field (container : node) (row : gmap string pyval)
    (field : string * string) : gmap string pyval :=
  let '(field_name, selector) := field in
  if String.eqb selector "*" then
    <[field_name := PStr (take_chars 100 (get_text_strip container))]> row
  else
    match select container selector with
    | Raise _ => row
    | Ok [] => row
    | Ok (element :: _) =>
        if String.eqb field_name "link" then
          let href := default "" (attr element "href") in
          let row := <[field_name := PStr href]> row in
          match search id_re href with
          | Some id_match => <["nid" := from_option PStr PNone (group id_match 1)]> row
          | None => row
          end
        else if String.eqb field_name "date" then
          let date_text := strip (get_text_strip element) in
          match search date_re date_text with
          | Some date_match => <[field_name := PStr (whole date_match)]> row
          | None => row
          end
        else <[field_name := PStr (get_text_strip element)]> row
    end.

(** [SmartParser._extract_general_row]. *)
Definition _extract_general_row (container : node)
    (detected_fields : list (string * string)) : option (gmap string pyval) :=
  let row := fold_left (general_field container) detected_fields ∅ in
  let row :=
    if any_values row then row
    else
      let content := get_text_strip container in
      if String.eqb content "" then row
      else <["title" := PStr (take_chars 100 content)]> row in
  if truthy (get row "title") then Some row else None.

(** The body of the loop of [_parse_general_mode] for one container, over
    a row extractor that may raise. *)
Definition general_step (extract : node → result (option (gmap string pyval)))
    (container : node) : list (gmap string pyval) :=
  match extract container with
  | Ok (Some row) => if any_values row then [row] else []
  | Ok None => []
  | Raise _ => []
  end.

Definition _parse_general_mode_with
    (extract : list (string * string) → node → result (option (gmap string pyval)))
    (containers : list node) : result (list (gmap string pyval)) :=
  detected_fields ←
    match containers with
    | sample_container :: _ => _auto_detect_fields sample_container
    | [] => Ok []
    end;
  Ok (concat (general_step (extract detected_fields) <$> containers)).

(** [SmartParser._parse_general_mode]. *)
Definition _parse_general_mode (containers : list node)
  : result (list (gmap string pyval)) :=
  _parse_general_mode_with (λ detected row, Ok (_extract_general_row row detected))
                           containers.

(** [SmartParser.parse], over row extractors that may raise.  [soup] is
    [None] when the caller has no page. *)
Definition parse_with
    (extract_table : node → result (option (gmap string pyval)))
    (extract_general : list (string * string) → node → result (option (gmap string pyval)))
    (max_items : Z) (soup : option node) (container_selector : string)
    (table_mode : option bool) : result (list (gmap string pyval)) :=
  match soup with
  | None => Ok []
  | Some soup =>
      let auto_table_mode :=
        default false table_mode || _is_table_mode container_selector in
      containers ← select soup container_selector;
      match containers with
      | [] => Ok []
      | _ =>
          data_list ←
            (if auto_table_mode
             then Ok (_parse_table_mode_with extract_table containers)
             else _parse_general_mode_with extract_general containers);
          let valid_data := validate_data data_list in
          Ok (slice_to max_items valid_data)
      end
  end.

(** [SmartParser.parse]. *)
Definition parse (max_items : Z) (soup : option node) (container_selector : string)
    (table_mode : option bool) : result (list (gmap string pyval)) :=
  parse_with (λ row, Ok (_extract_table_row row))
             (λ detected row, Ok (_extract_general_row row detected))
             max_items soup container_selector table_mode.

(** *** Pagination detection *)

(** [max_page = max(max_page, int(num))] over a list of digit strings. *)
Definition fold_pages (max_page : Z) (nums : list string) : Z :=
  fold_left (λ mp num, Z.max mp (int_of_digits num)) nums max_page.

(** [SmartParser._extract_total_pages_from_pagination]. *)
Definition _extract_total_pages_from_pagination (soup : node)
    (pagination : option node) : Z :=
  let max_page := 1 in
  (* from the links *)
  let links := find_all (λ n, named "a" n && has_attr "href" n) soup in
  let max_page :=
    fold_left
      (λ mp link,
         let href := default "" (attr link "href") in
         let page_matches := concat (findall 1 page_re href) in
         fold_pages mp page_matches)
      links max_page in
  (* from the text of the pagination container *)
  let max_page :=
    match pagination with
    | Some pagination =>
        let text := get_text pagination in
        let matches := findall 4 total_re text in
        fold_left
          (λ mp mtch,
             fold_pages mp (List.filter (λ num, negb (String.eqb num "")) mtch))
          matches max_page
    | None => max_page
    end in
  (* from the links to the last page *)
  let last_links := find_all (λ n, named "a" n && string_matches last_re n) soup in
  let max_page :=
    fold_left
      (λ mp link,
         let page_text := strip (get_text link) in
         if isdigit page_text then Z.max mp (int_of_digits page_text) else mp)
      last_links max_page in
  (* is there a next page *)
  let next_page := find (λ n, named "a" n && string_matches next_re n) soup in
  let max_page :=
    if bool_decide (is_Some next_page) && (max_page =? 1) then 2 else max_page in
  Z.max 1 max_page.

(** The loop over [current_indicators] of [_extract_current_page]. *)
Fixpoint current_from_indicators (soup : node) (indicators : list string)
  : result Z :=
  match indicators with
  | [] => Ok 1
  | selector :: rest =>
      current_elem ← select_one soup selector;
      match current_elem with
      | Some current_elem =>
          let page_text := strip (get_text current_elem) in
          if isdigit page_text then Ok (int_of_digits page_text)
          else current_from_indicators soup rest
      | None => current_from_indicators soup rest
      end
  end.

(** [SmartParser._extract_current_page].  The address is read from the
    [content] attribute; when the element found has none, [re.search] is
    handed [None] and raises [TypeError]. *)
Definition _extract_current_page (soup : node) : result Z :=
  let current_url_elem :=
    match find (λ n, named "meta" n && attr_is "property" "og:url" n) soup with
    | Some e => Some e
    | None => find (λ n, named "link" n && attr_has_token "rel" "canonical" n) soup
    end in
  current_url ←
    match current_url_elem with
    | Some e =>
        match attr e "content" with
        | Some u => Ok u
        | None => Raise TypeError
        end
    | None => Ok ""
    end;
  match search page_re current_url with
  | Some page_match => Ok (int_of_digits (default "" (group page_match 1)))
  | None =>
      current_from_indicators soup
        [".active"; ".current"; "[aria-current=" ++ dq ++ "page" ++ dq ++ "]"; ".on"]
  end.

(** [SmartParser._get_base_url]. *)
Definition _get_base_url (soup : node) : string :=
  let canonical := find (λ n, named "link" n && attr_has_token "rel" "canonical" n) soup in
  let canonical_href := canonical ≫= (λ e, attr e "href") in
  if negb (String.eqb (default "" canonical_href) "") then default "" canonical_href
  else
    let og_url := find (λ n, named "meta" n && attr_is "property" "og:url" n) soup in
    let og_content := og_url ≫= (λ e, attr e "content") in
    if negb (String.eqb (default "" og_content) "") then default "" og_content
    else
      match find_all (λ n, named "a" n && has_attr "href" n) soup with
      | link :: _ => default "" (attr link "href")
      | [] => ""
      end.

(** The default [common_selectors] of [detect_pagination]. *)
Definition common_selectors_default : list string :=
  [ ".pagination"; ".pager"; attr_contains "class" "page";
    attr_contains "class" "pagination"; "ul.pagination"; ".page-numbers";
    "#pagination"; "nav.pagination"; ".paging"; "div.pager"; ".pagination-info";
    attr_contains "id" "page"; ".pager li"; "ul.page"; ".pages";
    attr_contains "class" "nav" ].

(** The search for the pagination container: the first selector that
    matches something, with what it matched. *)
Fixpoint find_pagination (soup : node) (selectors : list string)
  : result (option (string * node)) :=
  match selectors with
  | [] => Ok None
  | selector :: rest =>
      pagination ← select_one soup selector;
      match pagination with
      | Some pagination => Ok (Some (selector, pagination))
      | None => find_pagination soup rest
      end
  end.

(** [SmartParser.detect_pagination]; [common_selectors = None] stands for
    the default list. *)
Definition detect_pagination (soup : node) (common_selectors : option (list string))
  : result (gmap string pyval) :=
  let common_selectors := default common_selectors_default common_selectors in
  let pagination_info : gmap string pyval :=
    {[ "total_pages" := PInt 1;
       "current_page" := PInt 1;
       "page_pattern" := PStr "pg={page}";
       "base_url" := PNone;
       "pagination_selector" := PNone ]} in
  found ← find_pagination soup common_selectors;
  let pagination_info :=
    match found with
    | Some (selector, _) => <["pagination_selector" := PStr selector]> pagination_info
    | None => pagination_info
    end in
  let pagination_container := snd <$> found in
  let total_pages := _extract_total_pages_from_pagination soup pagination_container in
  let pagination_info :=
    if 1 <? total_pages then <["total_pages" := PInt total_pages]> pagination_info
    else pagination_info in
  current_page ← _extract_current_page soup;
  let pagination_info :=
    if truthy (PInt current_page)
    then <["current_page" := PInt current_page]> pagination_info
    else pagination_info in
  let base_url := _get_base_url soup in
  let pagination_info :=
    if truthy (PStr base_url)
    then <["page_pattern" := PStr "pg={page}"]>
           (<["base_url" := PStr base_url]> pagination_info)
    else pagination_info in
  Ok pagination_info.

End Engine.

End SmartParser.

(** ** urllib.parse *)

Module Urllib.

Import Text.

(** The six components [urlparse] returns. *)
Record ParseResult := {
  scheme : string;
  netloc : string;
  path : string;
  params : string;
  query : string;
  fragment : string
}.

Definition hex_val (c : ascii) : option nat :=
  if is_digit c then Some (code c - 48)%nat
  else if between 65 70 c then Some (code c - 55)%nat
  else if between 97 102 c then Some (code c - 87)%nat
  else None.

Definition hex_char (n : nat) : ascii :=
  if (n <? 10)%nat then ascii_of_nat (48 + n) else ascii_of_nat (55 + n).

(** [unquote(s.replace('+', ' '))] on the bytes of [s]: [%XX] becomes the
    byte [XX], a [%] not followed by two hexadecimal digits stays.  This is
    what [unquote] gives when the bytes decoded are the UTF-8 of a text;
    other bytes it replaces by U+FFFD, which is not followed here. *)
Fixpoint unquote_plus (s : string) : string :=
  match s with
  | EmptyString => EmptyString
  | String c s' =>
      if Ascii.eqb c "+" then String " " (unquote_plus s')
      else if Ascii.eqb c "%" then
        match s' with
        | String h (String l s'') =>
            match hex_val h, hex_val l with
            | Some a, Some b => String (ascii_of_nat (16 * a + b)) (unquote_plus s'')
            | _, _ => String c (unquote_plus s')
            end
        | _ => String c (unquote_plus s')
        end
      else String c (unquote_plus s')
  end.

(** The characters [quote] never escapes. *)
Definition always_safe (c : ascii) : bool :=
  is_alpha c || is_digit c || has_char c "_.-~".

(** [quote_plus(s)]: a space becomes [+], an unsafe byte [%XX]. *)
Fixpoint quote_plus (s : string) : string :=
  match s with
  | EmptyString => EmptyString
  | String c s' =>
      if always_safe c then String c (quote_plus s')
      else if Ascii.eqb c " " then String "+" (quote_plus s')
      else String "%" (String (hex_char (code c / 16))
                         (String (hex_char (code c mod 16)) (quote_plus s')))
  end.

(** [parse_qsl(qs)]: the [name=value] fields between [&], those without
    [=] or with an empty value left out. *)
Definition parse_qsl (qs : string) : list (string * string) :=
  omap (λ name_value,
          match partition "=" name_value with
          | (nm, Some v) =>
              if String.eqb v "" then None
              else Some (unquote_plus nm, unquote_plus v)
          | (_, None) => None
          end)
       (split "&" qs).

(** [parse_qs(qs)]: each name with the list of its values, in order. *)
Definition parse_qs (qs : string) : gmap string (list string) :=
  fold_left (λ (d : gmap string (list string)) nv,
               <[nv.1 := (default [] (d !! nv.1) ++ [nv.2])%list]> d)
            (parse_qsl qs) ∅.

Fixpoint join_with (sep : string) (l : list string) : string :=
  match l with
  | [] => EmptyString
  | [x] => x
  | x :: l' => x ++ sep ++ join_with sep l'
  end.

(** [urlencode(query, doseq=True)] on a dictionary of strings, given as
    its items in insertion order. *)
Definition urlencode (items : list (string * string)) : string :=
  join_with "&" ((λ kv, quote_plus kv.1 ++ "=" ++ quote_plus kv.2) <$> items).

(** *** A reading of [urlparse] on plain addresses *)

Definition scheme_char (c : ascii) : bool :=
  is_alpha c || is_digit c || has_char c "+-.".

(** The text before the first character of [stops], and the rest from
    that character on. *)
Fixpoint span_until (stops : string) (s : string) : string * string :=
  match s with
  | EmptyString => (EmptyString, EmptyString)
  | String c s' =>
      if has_char c stops then (EmptyString, s)
      else let '(a, b) := span_until stops s' in (String c a, b)
  end.

(** [_splitparams]: the parameters start at the first [;] of the last
    path segment. *)
Fixpoint split_params (p : string) : string * string :=
  match p with
  | EmptyString => (EmptyString, EmptyString)
  | String c p' =>
      if Ascii.eqb c ";" && negb (has_char "/" p') then (EmptyString, p')
      else let '(a, b) := split_params p' in (String c a, b)
  end.

(** [url.lstrip(...)] of the C0 control characters and the space. *)
Fixpoint lstrip_c0 (s : string) : string :=
  match s with
  | EmptyString => EmptyString
  | String c s' => if between 0 32 c then lstrip_c0 s' else s
  end.

(** [urlparse(url)] for an address whose host is not bracketed and is
    ASCII, where [urlsplit] cannot raise. *)
Definition urlparse_plain (url : string) : ParseResult :=
  let url := lstrip_c0 url in
  let url := remove_char "009" (remove_char "013" (remove_char "010" url)) in
  let '(sch, url) :=
    match partition ":" url with
    | (pre, Some rest) =>
        match pre with
        | String c _ =>
            if is_alpha c && forallb_str scheme_char pre then (lower pre, rest)
            else (EmptyString, url)
        | EmptyString => (EmptyString, url)
        end
    | (_, None) => (EmptyString, url)
    end in
  let '(loc, url) :=
    if startswith "//" url then span_until "/?#" (str_drop 2 url)
    else (EmptyString, url) in
  let '(url, frag) :=
    match partition "#" url with (a, b) => (a, default EmptyString b) end in
  let '(url, qry) :=
    match partition "?" url with (a, b) => (a, default EmptyString b) end in
  let '(pth, prm) :=
    if has_char ";" url then split_params url else (url, EmptyString) in
  {| scheme := sch; netloc := loc; path := pth; params := prm;
     query := qry; fragment := frag |}.

End Urllib.

(** ** paginator.py *)

Module Paginator.

Import Text Bs4 Urllib.

(** *** Deduplication *)

(** The state of the loop of [_deduplicate_data]. *)
Record dedup_state := DedupState {
  seen_nids : gset pyval;
  seen_hashes : gset pyval;
  unique_data : list (gmap string pyval)
}.

(** [item.get('nid') or item.get('hash')]. *)
Definition identifier (item : gmap string pyval) : pyval :=
  por (get item "nid") (get item "hash").

(** One turn of the loop. *)
Definition dedup_step (st : dedup_state) (item : gmap string pyval) : dedup_state :=
  let identifier := identifier item in
  if truthy identifier
     && bool_decide (identifier ∉ seen_nids st)
     && bool_decide (identifier ∉ seen_hashes st)
  then
    DedupState ({[get item "nid"]} ∪ seen_nids st)
               ({[get item "hash"]} ∪ seen_hashes st)
               (unique_data st ++ [item])%list
  else st.

(** [Paginator._deduplicate_data]. *)
Definition _deduplicate_data (data_list : list (gmap string pyval))
  : list (gmap string pyval) :=
  unique_data (fold_left dedup_step data_list (DedupState ∅ ∅ [])).

(** *** Page addresses *)

(** [range(1, n + 1)]. *)
Definition range_from_1 (n : Z) : list Z := Z.of_nat <$> seq 1 (Z.to_nat n).

(** [bool(d)] for an optional dictionary: [None] and [{}] are falsy. *)
Definition dict_truthy (d : option (gmap string pyval)) : bool :=
  match d with
  | Some d => negb (bool_decide (d = ∅))
  | None => false
  end.

Section Urlparse.

(** [urllib.parse.urlparse], which raises [ValueError] on some addresses. *)
Variable urlparse : string → result ParseResult.

(** [Paginator._generate_page_urls]. *)
Definition _generate_page_urls (base_url : string) (total_pages : Z)
    (pagination_info : gmap string pyval)
    (pagination_config : option (gmap string pyval)) : result (list string) :=
  parsed_url ← urlparse base_url;
  let base_path := scheme parsed_url ++ "://" ++ netloc parsed_url ++ path parsed_url in
  let query_params := parse_qs (query parsed_url) in
  (* the spid *)
  let spid : option string := query_params !! "spid" ≫= head in
  (* the page parameter of the configuration, or the default one *)
  let page_param :=
    if dict_truthy pagination_config
    then get_or (default ∅ pagination_config) "page_param" (PStr "pg")
    else get_or pagination_info "page_param" (PStr "pg") in
  let spid_truthy := negb (String.eqb (default "" spid) "") in
  Ok ((λ page,
         let page_query :=
           if (page =? 1) && spid_truthy then [("spid", default "" spid)]
           else
             ([("pg", str_of_Z page)]
              ++ (if spid_truthy then [("spid", default "" spid)] else []))%list in
         base_path ++ "?" ++ urlencode page_query)
      <$> range_from_1 total_pages).

End Urlparse.

(** *** The page loop *)

Section Crawl.

Variable select : node → string → result (list node).
Variable urlparse : string → result ParseResult.

(** [WebCrawler.fetch]: the parsed page, or [None] when fetching failed. *)
Variable fetch : string → option node.

(** The integer stored under a key of [pagination_info]. *)
Definition int_of (v : pyval) : result Z :=
  match v with
  | PInt z => Ok z
  | _ => Raise TypeError
  end.

(** The loop over [page_urls]: a page that cannot be fetched is passed
    over, the records of the others are appended to [all_data]. *)
Fixpoint fetch_pages (max_items : Z) (container_selector : string)
    (table_mode : bool) (page_urls : list string)
    (all_data : list (gmap string pyval)) : result (list (gmap string pyval)) :=
  match page_urls with
  | [] => Ok all_data
  | page_url :: rest =>
      match fetch page_url with
      | None => fetch_pages max_items container_selector table_mode rest all_data
      | Some page_soup =>
          page_data ← SmartParser.parse select max_items (Some page_soup)
                        container_selector (Some table_mode);
          fetch_pages max_items container_selector table_mode rest
                      (all_data ++ page_data)%list
      end
  end.

(** [Paginator.auto_fetch_all_pages]; [max_items] is the limit of the
    parser the paginator was built with. *)
Definition auto_fetch_all_pages (max_items : Z) (base_url container_selector : string)
    (max_pages : option Z) (table_mode : bool)
    (pagination_config : option (gmap string pyval))
  : result (list (gmap string pyval)) :=
  match fetch base_url with
  | None => Ok []
  | Some first_page_soup =>
      pagination_info ← SmartParser.detect_pagination select first_page_soup None;
      detected_pages ← int_of (get pagination_info "total_pages");
      let limit :=
        match max_pages with
        | Some m => if m =? 0 then 10 else m
        | None => 10
        end in
      let total_pages := Z.min detected_pages limit in
      if total_pages =? 1 then
        SmartParser.parse select max_items (Some first_page_soup)
                          container_selector (Some table_mode)
      else
        page_urls ← _generate_page_urls urlparse base_url total_pages
                      pagination_info pagination_config;
        all_data ← fetch_pages max_items container_selector table_mode page_urls [];
        Ok (_deduplicate_data all_data)
  end.

End Crawl.

End Paginator.

(** ** excel_manager.py

    The workbook is the list of its rows, as [load_data] returns them; a
    missing workbook has no rows.  A cell without a value is [PNone], for
    the [None] of a new record and for the NaN pandas reads back: neither
    equals the text of a record of the list. *)

Module ExcelManager.

Section Pandas.

(** [pd.to_datetime(v, errors='coerce')] followed by
    [.dt.strftime('%Y-%m-%d')] on one cell. *)
Variable normalize_date : pyval → pyval.

(** [sort_values(by='起日', ascending=True, na_position='last')]. *)
Variable sort_by_date : list (gmap string pyval) → list (gmap string pyval).

(** [ExcelManager.load_data]. *)
Definition load_data (store : list (gmap string pyval)) : list (gmap string pyval) :=
  store.

(** The columns of a frame built from records. *)
Definition frame_columns (rows : list (gmap string pyval)) : gset string :=
  ⋃ (dom <$> rows).

(** A record laid out on the columns of a frame: a missing value is
    empty. *)
Definition on_columns (cols : list string) (row : gmap string pyval)
  : gmap string pyval :=
  list_to_map ((λ c, (c, get row c)) <$> cols).

(** The subset of [drop_duplicates]. *)
Definition dup_key (row : gmap string pyval) : pyval * pyval :=
  (get row "活動名稱", get row "起日").

(** [drop_duplicates(subset=[...], keep='last')]. *)
Fixpoint drop_duplicates_last (rows : list (gmap string pyval))
  : list (gmap string pyval) :=
  match rows with
  | [] => []
  | r :: rest =>
      if existsb (λ r', bool_decide (dup_key r' = dup_key r)) rest
      then drop_duplicates_last rest
      else r :: drop_duplicates_last rest
  end.

(** [ExcelManager.save_data]: the rows of the workbook afterwards.  An
    exception inside is logged and leaves the workbook as it was. *)
Definition save_data (store : list (gmap string pyval))
    (data_list : list (gmap string pyval)) (columns : list string)
  : list (gmap string pyval) :=
  match data_list with
  | [] => store
  | _ =>
      let df_cols :=
        match columns with
        | [] => elements (frame_columns data_list)
        | _ => columns
        end in
      let existing_data := load_data store in
      let all_cols :=
        match existing_data with
        | [] => df_cols
        | _ => (elements (frame_columns existing_data) ++ df_cols)%list
        end in
      if bool_decide ("活動名稱" ∈ all_cols) && bool_decide ("起日" ∈ all_cols) then
        let combined := on_columns all_cols <$> (existing_data ++ data_list)%list in
        let combined := drop_duplicates_last combined in
        let combined :=
          (λ row, <["起日" := normalize_date (get row "起日")]> row) <$> combined in
        sort_by_date combined
      else store
  end.

End Pandas.

End ExcelManager.

(** ** main.py *)

Module Main.

Import Text Re Bs4 Urllib.

(** [^時\s*間\s*：] *)
Definition time_label_re : regex :=
  seqs [Lit "時"; spaces 0; Lit "間"; spaces 0; Lit "："].

(** [^地\s*點\s*：] *)
Definition location_label_re : regex :=
  seqs [Lit "地"; spaces 0; Lit "點"; spaces 0; Lit "："].

(** [^主辦單位\s*：] *)
Definition organizer_label_re : regex :=
  seqs [Lit "主辦單位"; spaces 0; Lit "："].

(** [\d{4}[/-]\d{1,2}[/-]\d{1,2}] *)
Definition ymd_re : regex :=
  seqs [digits 4 (Some 4%nat); one_of "/-"; digits 1 (Some 2%nat); one_of "/-";
        digits 1 (Some 2%nat)].

(** [(ymd)\s*[-~至]\s*(ymd)] *)
Definition range_re : regex :=
  seqs [Grp 1 ymd_re; spaces 0; Alt (one_of "-~") (Lit "至"); spaces 0; Grp 2 ymd_re].

(** [地\s*點\s*：?|Location\s*:|Venue\s*:] under [re.IGNORECASE] *)
Definition location_cut_re : regex :=
  alts [ seqs [Lit "地"; spaces 0; Lit "點"; spaces 0; Opt (Lit "：")];
         seqs [lit_i "Location"; spaces 0; Lit ":"];
         seqs [lit_i "Venue"; spaces 0; Lit ":"] ].

(** [主辦單位\s*：?|Organizer\s*:] under [re.IGNORECASE] *)
Definition organizer_cut_re : regex :=
  alts [ seqs [Lit "主辦單位"; spaces 0; Opt (Lit "：")];
         seqs [lit_i "Organizer"; spaces 0; Lit ":"] ].

(** The filter [string=re.compile('^...')]: [tag.string] starts with a
    match. *)
Definition string_starts (r : regex) (n : node) : bool :=
  match string_of n with
  | Some s => bool_decide (is_Some (match_at r s))
  | None => false
  end.

(** What the orchestrator reads of one entry of [config.json], defaults
    applied. *)
Record site_config := SiteConfig {
  sc_name : string;
  sc_url : string;
  sc_container_selector : string;
  sc_table_mode : bool;
  sc_auto_pagination : bool;
  sc_max_pages : Z;
  sc_max_items : Z;
  sc_pagination : gmap string pyval
}.

(** The columns [monitor_site] saves. *)
Definition columns : list string :=
  ["活動名稱"; "主辦單位"; "地點"; "起日"; "迄日"; "抓取時間"].

(** [filter_data_by_organizer]. *)
Definition filter_data_by_organizer (data : list (gmap string pyval))
    (cfg : site_config) : list (gmap string pyval) :=
  let target_url :=
    "https://sprout.tku.edu.tw/DeepNews.aspx?spid=76E2C6DA-A2BA-410D-8BA0-CBFB22C84AEA" in
  if negb (String.eqb (sc_url cfg) target_url) then data
  else
    List.filter
      (λ item,
         negb (bool_decide (item = ∅))
         && bool_decide (get_or item "主辦單位" (PStr "")
                           ∈ [PStr "教師教學發展中心"; PStr "教發中心"]))
      data.

Section World.

Variable select : node → string → result (list node).
Variable urlparse : string → result ParseResult.
Variable fetch : string → option node.

(** [urllib.parse.urljoin]. *)
Variable urljoin : string → string → string.

(** [dateutil.parser.parse(text, fuzzy=...)] followed by
    [.strftime('%Y-%m-%d')]. *)
Variable date_parse : bool → string → result string.

(** [datetime.now().strftime(...)]. *)
Variable now : string.

Variable normalize_date : pyval → pyval.
Variable sort_by_date : list (gmap string pyval) → list (gmap string pyval).

(** The dates read from the time paragraph; [except (ParserError,
    TypeError)] keeps the dates of the list page, any other exception
    leaves the attempt. *)
Definition detail_dates (time_text : string) (detail_data : gmap string pyval)
  : result (gmap string pyval) :=
  let parsed :=
    match search range_re time_text with
    | Some range_match =>
        start_date ← date_parse false (default "" (group range_match 1));
        end_date ← date_parse false (default "" (group range_match 2));
        Ok (<["迄日" := PStr end_date]> (<["起日" := PStr start_date]> detail_data))
    | None =>
        date_str ← date_parse true time_text;
        Ok (<["迄日" := PStr date_str]> (<["起日" := PStr date_str]> detail_data))
    end in
  match parsed with
  | Ok d => Ok d
  | Raise ParserError | Raise TypeError => Ok detail_data
  | Raise e => Raise e
  end.

(** The body of one attempt of [fetch_detail_page] once the page is
    there: the record, or [None] for an item without a name. *)
Definition parse_detail (soup : node) (item : gmap string pyval)
  : result (option (gmap string pyval)) :=
  title ←
    match get_or item "title" (PStr "") with
    | PStr s => Ok (strip s)
    | _ => Raise AttributeError
    end;
  let detail_data : gmap string pyval :=
    {[ "活動名稱" := PStr title;
       "抓取時間" := PStr now;
       "主辦單位" := PNone;
       "地點" := PNone;
       "起日" := get item "date";
       "迄日" := get item "date" ]} in
  found ← SmartParser.select_one select soup
             ("div.clsDtlDes, " ++ SmartParser.attr_contains "class" "DtlDes");
  let detail_container := default soup found in
  (* the time *)
  time_elem ←
    match find (λ n, named "p" n && string_starts time_label_re n) detail_container with
    | Some e => Ok (Some e)
    | None => SmartParser.select_one select soup "p#DtlDt"
    end;
  detail_data ←
    match time_elem with
    | Some time_elem =>
        let time_text :=
          strip (cut (Lit "Time:") (cut (Lit "時間：") (get_text_strip time_elem))) in
        detail_dates time_text detail_data
    | None => Ok detail_data
    end;
  (* the place *)
  let detail_data :=
    match find (λ n, named "p" n && string_starts location_label_re n) detail_container with
    | Some location_elem =>
        <["地點" := PStr (strip (cut location_cut_re (get_text_strip location_elem)))]>
          detail_data
    | None => detail_data
    end in
  (* the organizer *)
  let detail_data :=
    match find (λ n, named "p" n && string_starts organizer_label_re n) detail_container with
    | Some organizer_elem =>
        <["主辦單位" := PStr (strip (cut organizer_cut_re (get_text_strip organizer_elem)))]>
          detail_data
    | None => detail_data
    end in
  if truthy (get detail_data "活動名稱") then Ok (Some detail_data) else Ok None.

(** The retry loop of [fetch_detail_page]: a failed fetch or an exception
    goes to the next attempt. *)
Fixpoint detail_attempts (attempts : nat) (detail_url : string)
    (item : gmap string pyval) : option (gmap string pyval) :=
  match attempts with
  | O => None
  | S rest =>
      match fetch detail_url with
      | None => detail_attempts rest detail_url item
      | Some soup =>
          match parse_detail soup item with
          | Ok r => r
          | Raise _ => detail_attempts rest detail_url item
          end
      end
  end.

(** [fetch_detail_page].  A link that is neither empty nor text makes
    [urljoin] raise, outside the retry loop. *)
Definition fetch_detail_page (base_url : string) (item : gmap string pyval)
    (max_retries : nat) : result (option (gmap string pyval)) :=
  let detail_url := get_or item "link" (PStr "") in
  if negb (truthy detail_url) then Ok None
  else
    match detail_url with
    | PStr link => Ok (detail_attempts max_retries (urljoin base_url link) item)
    | _ => Raise TypeError
    end.

(** The loop of [monitor_site] over the new items. *)
Fixpoint fetch_details (base_url : string) (new_items : list (gmap string pyval))
  : result (list (gmap string pyval)) :=
  match new_items with
  | [] => Ok []
  | item :: rest =>
      detail ← fetch_detail_page base_url item 3;
      others ← fetch_details base_url rest;
      Ok (match detail with
          | Some d => d :: others
          | None => others
          end)
  end.

(** What one run of [monitor_site] leaves behind. *)
Record run := Run {
  run_new_items : list (gmap string pyval);   (* classified as new *)
  run_result : list (gmap string pyval);      (* returned to [main] *)
  run_store : list (gmap string pyval)        (* the workbook afterwards *)
}.

(** The list page records of a site. *)
Definition list_records (cfg : site_config) : result (list (gmap string pyval)) :=
  if sc_auto_pagination cfg then
    Paginator.auto_fetch_all_pages select urlparse fetch (sc_max_items cfg)
      (sc_url cfg) (sc_container_selector cfg) (Some (sc_max_pages cfg))
      (sc_table_mode cfg) (Some (sc_pagination cfg))
  else
    match fetch (sc_url cfg) with
    | None => Ok []
    | Some soup =>
        SmartParser.parse select (sc_max_items cfg) (Some soup)
          (sc_container_selector cfg) (Some (sc_table_mode cfg))
    end.

(** [monitor_site], from the fetching of the list on, for an enabled site
    that passed the robots.txt and path checks; [store] holds the rows of
    the workbook before the run. *)
Definition monitor_site (cfg : site_config) (store : list (gmap string pyval)) : run :=
  match list_records cfg with
  | Raise _ => Run [] [] store
  | Ok [] => Run [] [] store
  | Ok list_data =>
      let existing_data := ExcelManager.load_data store in
      let new_items := Detector.detect_new_data list_data existing_data in
      match new_items with
      | [] => Run [] [] store
      | _ =>
          match fetch_details (sc_url cfg) new_items with
          | Raise _ => Run new_items [] store
          | Ok detailed_data =>
              let filtered_data := filter_data_by_organizer detailed_data cfg in
              match filtered_data with
              | [] => Run new_items [] store
              | _ =>
                  Run new_items filtered_data
                      (ExcelManager.save_data normalize_date sort_by_date store
                         filtered_data columns)
              end
          end
      end
  end.

End World.

End Main.

(** The decimal printing of integers, for the page numbers. *)
From Stdlib Require DecimalPos DecimalZ.

(** ** detector.py: the quick check and the summary *)

Module Changes.

(** [item['hash']]: the subscript raises [KeyError] on a missing key. *)
Definition subscript (item : gmap string pyval) (k : string) : result pyval :=
  match item !! k with
  | Some v => Ok v
  | None => Raise KeyError
  end.

(** The set comprehension [{item['hash'] for item in existing_data}]. *)
Fixpoint hashes_of (existing_data : list (gmap string pyval)) : result (gset pyval) :=
  match existing_data with
  | [] => Ok (∅ : gset pyval)
  | item :: rest =>
      h ← subscript item "hash";
      hs ← hashes_of rest;
      Ok ({[h]} ∪ hs)
  end.

(** The loop of [has_new_data] over the new records. *)
Fixpoint any_unseen (existing_hashes : gset pyval)
    (new_data : list (gmap string pyval)) : result bool :=
  match new_data with
  | [] => Ok false
  | item :: rest =>
      h ← subscript item "hash";
      if bool_decide (h ∉ existing_hashes) then Ok true
      else any_unseen existing_hashes rest
  end.

(** [DataDetector.has_new_data]. *)
Definition has_new_data (new_data existing_data : list (gmap string pyval))
  : result bool :=
  existing_hashes ← hashes_of existing_data;
  any_unseen existing_hashes new_data.

(** [a < b] on values: texts compare by their characters, integers by
    their value, anything else raises [TypeError]. *)
Definition py_lt (a b : pyval) : result bool :=
  match a, b with
  | PStr x, PStr y => Ok (String.ltb x y)
  | PInt x, PInt y => Ok (x <? y)
  | _, _ => Raise TypeError
  end.

(** The loop of [min] (with [better := a < b]) and of [max] (with
    [better := b < a]) over the check times of the records after the
    first: the next record is subscripted, then compared with the best so
    far. *)
Fixpoint best_time (better : pyval → pyval → result bool) (best : pyval)
    (items : list (gmap string pyval)) : result pyval :=
  match items with
  | [] => Ok best
  | item :: rest =>
      t ← subscript item "check_time";
      better t best ≫= λ b : bool,
      best_time better (if b then t else best) rest
  end.

(** [min(item['check_time'] for item in new_items)] and the like, on a
    list that is not empty. *)
Definition extreme_time (better : pyval → pyval → result bool)
    (items : list (gmap string pyval)) : result pyval :=
  match items with
  | [] => Raise ValueError
  | item :: rest =>
      t ← subscript item "check_time";
      best_time better t rest
  end.

(** The loop that counts the records of each source. *)
Definition count_types (new_items : list (gmap string pyval)) : gmap pyval Z :=
  fold_left
    (λ (type_count : gmap pyval Z) item,
       let item_type := get_or item "source" (PStr "unknown") in
       <[item_type := default 0 (type_count !! item_type) + 1]> type_count)
    new_items ∅.

(** The dictionary [get_changes_summary] returns; the two times are
    absent from the summary of an empty list. *)
Record summary := Summary {
  count : Z;
  types : gmap pyval Z;
  first_check_time : option pyval;
  latest_check_time : option pyval
}.

(** [DataDetector.get_changes_summary]. *)
Definition get_changes_summary (new_items : list (gmap string pyval))
  : result summary :=
  match new_items with
  | [] => Ok (Summary 0 ∅ None None)
  | _ =>
      let type_count := count_types new_items in
      first ← extreme_time py_lt new_items;
      latest ← extreme_time (λ a b, py_lt b a) new_items;
      Ok (Summary (Z.of_nat (length new_items)) type_count (Some first) (Some latest))
  end.

End Changes.

(** ** smart_parser.py: the page pattern *)

Module PagePattern.

Import Text Re.

(** [(pg=|page=)(\d+)] *)
Definition param_re : regex :=
  Seq (Grp 1 (Alt (Lit "pg=") (Lit "page="))) (Grp 2 (digits 1 None)).

(** [/(\d+)\.html] *)
Definition html_re : regex := seqs [Lit "/"; Grp 1 (digits 1 None); Lit ".html"].

(** [\?p=(\d+)] *)
Definition p_re : regex := Seq (Lit "?p=") (Grp 1 (digits 1 None)).

(** [&pg=(\d+)] *)
Definition amp_pg_re : regex := Seq (Lit "&pg=") (Grp 1 (digits 1 None)).

(** The table of [_detect_page_pattern]: each pattern with the text
    returned for it. *)
Definition patterns : list (regex * string) :=
  [ (param_re, "\1{page}");
    (html_re, "/{page}.html");
    (p_re, "?p={page}");
    (amp_pg_re, "&pg={page}") ].

(** The loop over the table: the text of the first pattern found in the
    address. *)
Fixpoint first_found (ps : list (regex * string)) (base_url : string) : string :=
  match ps with
  | [] => "pg={page}"
  | (pattern, replacement) :: rest =>
      match search pattern base_url with
      | Some _ => replacement
      | None => first_found rest base_url
      end
  end.

(** [SmartParser._detect_page_pattern]. *)
Definition _detect_page_pattern (base_url : string) : string :=
  if String.eqb base_url "" then "pg={page}"
  else first_found patterns base_url.

End PagePattern.

(** * Sample inputs

    Concrete records, pages and collaborators on which the properties
    below are exercised. *)

Module Samples.

Import Text Re Bs4 Urllib.

(** A fresh record and a persisted record with the same title, both with
    the empty string as date. *)
Definition fresh_undated : gmap string pyval :=
  {[ "title" := PStr "A"; "date" := PStr "" ]}.

Definition stored_undated : gmap string pyval :=
  {[ "活動名稱" := PStr "A"; "起日" := PStr "" ]}.

(** A fresh record and the persisted record of the same event. *)
Definition fresh_event : gmap string pyval :=
  {[ "title" := PStr "Event X"; "link" := PStr "detail.aspx?nid=AB12";
     "nid" := PStr "AB12"; "date" := PStr "2024-05-01" ]}.

Definition stored_event : gmap string pyval :=
  {[ "活動名稱" := PStr "Event X"; "起日" := PStr "2024-05-01" ]}.

(** Two records with distinct nids and one content hash. *)
Definition rec_a : gmap string pyval := {[ "nid" := PStr "A"; "hash" := PStr "H" ]}.
Definition rec_b : gmap string pyval := {[ "nid" := PStr "B"; "hash" := PStr "H" ]}.

(** *** A selector engine for the samples

    The fragment of CSS the sources write: type, class, id and attribute
    selectors, compounds of them, the descendant combinator and selector
    lists.  Text outside the fragment is refused with the exception
    soupsieve raises on text that is no selector. *)

Inductive simple : Type :=
  | SAny                              (* [*] *)
  | STag (nm : string)                (* [tag] *)
  | SClass (c : string)               (* [.c] *)
  | SId (i : string)                  (* [#i] *)
  | SAttr (a : string)                (* [[a]] *)
  | SAttrEq (a v : string)            (* [[a="v"]] *)
  | SAttrSub (a v : string).          (* [[a*="v"]] *)

Definition ident_char (c : ascii) : bool :=
  is_alpha c || is_digit c || has_char c "-_".

(** The longest run of characters of a class at the head of a text, and
    the rest. *)
Fixpoint span (p : ascii → bool) (s : string) : string * string :=
  match s with
  | EmptyString => (EmptyString, EmptyString)
  | String c s' =>
      if p c then let '(a, b) := span p s' in (String c a, b)
      else (EmptyString, s)
  end.

(** The inside of an attribute selector, after the bracket. *)
Definition parse_attr (s : string) : option (simple * string) :=
  let '(a, rest) := span ident_char s in
  if String.eqb a "" then None
  else if startswith "]" rest then Some (SAttr a, str_drop 1 rest)
  else
    let quoted (tail : string) (mk : string → simple) :=
      if startswith SmartParser.dq tail then
        let '(v, rest') := span (λ c, negb (Ascii.eqb c "034")) (str_drop 1 tail) in
        if startswith (SmartParser.dq ++ "]") rest'
        then Some (mk v, str_drop 2 rest') else None
      else None in
    if startswith "*=" rest then quoted (str_drop 2 rest) (SAttrSub a)
    else if startswith "=" rest then quoted (str_drop 1 rest) (SAttrEq a)
    else None.

(** One compound selector; [fuel] bounds the number of its parts. *)
Fixpoint parse_compound (fuel : nat) (s : string) : option (list simple) :=
  match fuel with
  | O => None
  | S fuel' =>
      match s with
      | EmptyString => Some []
      | String c s' =>
          let continue (x : simple) (rest : string) :=
            cons x <$> parse_compound fuel' rest in
          if Ascii.eqb c "*" then continue SAny s'
          else if Ascii.eqb c "." then
            let '(a, rest) := span ident_char s' in
            if String.eqb a "" then None else continue (SClass a) rest
          else if Ascii.eqb c "#" then
            let '(a, rest) := span ident_char s' in
            if String.eqb a "" then None else continue (SId a) rest
          else if Ascii.eqb c "[" then
            match parse_attr s' with
            | Some (x, rest) => continue x rest
            | None => None
            end
          else if ident_char c then
            let '(a, rest) := span ident_char s in continue (STag (lower a)) rest
          else None
      end
  end.

(** A selector list: complex selectors between commas, each a chain of
    compounds from the outermost ancestor to the subject. *)
Definition parse_selector (s : string) : option (list (list (list simple))) :=
  mapM (λ part,
          match words part with
          | [] => None
          | ws => mapM (λ w, match parse_compound (S (String.length w)) w with
                             | Some [] => None
                             | r => r
                             end) ws
          end)
       (split "," s).

Definition matches_simple (n : node) (x : simple) : bool :=
  match x with
  | SAny => is_tag n
  | STag nm => named nm n
  | SClass c => attr_has_token "class" c n
  | SId i => attr_is "id" i n
  | SAttr a => has_attr a n
  | SAttrEq a v => attr_is a v n
  | SAttrSub a v =>
      match attr n a with
      | Some x => negb (String.eqb v "") && contains v x
      | None => false
      end
  end.

Definition matches_compound (n : node) (c : list simple) : bool :=
  forallb (matches_simple n) c.

(** [chain] is read from the subject outwards, [ancestors] from the parent
    outwards. *)
Fixpoint matches_ancestors (ancestors : list node) (chain : list (list simple)) : bool :=
  match chain with
  | [] => true
  | c :: chain' =>
      match ancestors with
      | [] => false
      | a :: ancestors' =>
          (matches_compound a c && matches_ancestors ancestors' chain')
          || matches_ancestors ancestors' chain
      end
  end.

Definition matches_complex (n : node) (ancestors : list node)
    (cx : list (list simple)) : bool :=
  match rev cx with
  | [] => false
  | subject :: chain => matches_compound n subject && matches_ancestors ancestors chain
  end.

(** The tags below an element with their ancestors, in document order. *)
Fixpoint below (ancestors : list node) (n : node) : list (node * list node) :=
  match n with
  | NavigableString _ => []
  | Tag _ _ cs =>
      (fix go (l : list node) : list (node * list node) :=
         match l with
         | [] => []
         | c :: l' => (((c, n :: ancestors) :: below (n :: ancestors) c) ++ go l')%list
         end) cs
  end.

(** [Tag.select] on the fragment. *)
Definition css_select (n : node) (selector : string) : result (list node) :=
  match parse_selector selector with
  | None => Raise SelectorSyntaxError
  | Some sel =>
      Ok (fst <$> List.filter
                    (λ na, is_tag na.1
                           && existsb (matches_complex na.1 na.2) sel)
                    (below [] n))
  end.


(** *** A listing of two pages *)

(** The row of the specification:
    <tr><td><a href=detail.aspx?nid=AB12>Event X</a></td><td>2024-05-01</td></tr> *)
Definition row_event : node :=
  Tag "tr" []
    [ Tag "td" [] [Tag "a" [("href", "detail.aspx?nid=AB12")] [NavigableString "Event X"]];
      Tag "td" [] [NavigableString "2024-05-01"] ].


(** Rows whose links carry no nid. *)
Definition row_plain : node :=
  Tag "tr" []
    [ Tag "td" [] [Tag "a" [("href", "detail.aspx?id=12")] [NavigableString "Event Y"]];
      Tag "td" [] [NavigableString "2024-05-02"] ].

Definition row_plain2 : node :=
  Tag "tr" []
    [ Tag "td" [] [Tag "a" [("href", "detail.aspx?id=13")] [NavigableString "Event Z"]];
      Tag "td" [] [NavigableString "2024-05-03"] ].

Definition plain_event : gmap string pyval :=
  {[ "title" := PStr "Event Y"; "link" := PStr "detail.aspx?id=12";
     "date" := PStr "2024-05-02" ]}.

Definition plain_event2 : gmap string pyval :=
  {[ "title" := PStr "Event Z"; "link" := PStr "detail.aspx?id=13";
     "date" := PStr "2024-05-03" ]}.

Definition site_url : string := "https://site/x.aspx?spid=XYZ".

(** The first page: two rows and a link to page 2. *)
Definition page1 : node :=
  Tag "html" []
    [ Tag "body" []
        [ Tag "table" [] [row_event; row_plain];
          Tag "a" [("href", "x.aspx?pg=2&spid=XYZ")] [NavigableString "2"] ] ].

(** The second page: one row. *)
Definition page2 : node :=
  Tag "html" [] [ Tag "body" [] [ Tag "table" [] [row_plain2] ] ].





(** A page that names page 0 everywhere: in its og:url address, in a link
    and in its active indicator. *)
Definition page_zero : node :=
  Tag "html" []
    [ Tag "head" []
        [ Tag "meta" [("property", "og:url"); ("content", "https://site/x.aspx?pg=0")] [] ];
      Tag "body" []
        [ Tag "a" [("href", "x.aspx?pg=0")] [NavigableString "first"];
          Tag "span" [("class", "active")] [NavigableString "0"] ] ].

(** A page whose active indicator reads 0, without an address hint. *)
Definition page_active_zero : node :=
  Tag "html" []
    [ Tag "body" [] [ Tag "span" [("class", "active")] [NavigableString "0"] ] ].

(** What pagination detection finds on [page1]. *)
Definition page1_info : gmap string pyval :=
  {[ "total_pages" := PInt 2;
     "current_page" := PInt 1;
     "page_pattern" := PStr "pg={page}";
     "base_url" := PStr "detail.aspx?nid=AB12";
     "pagination_selector" := PNone ]}.

(** A crawler over a fixed set of pages. *)
Definition fetch_from (pages : list (string * node)) (url : string) : option node :=
  snd <$> List.find (λ p, String.eqb (fst p) url) pages.

Definition two_pages : list (string * node) :=
  [ ("https://site/x.aspx?spid=XYZ", page1);
    ("https://site/x.aspx?pg=2&spid=XYZ", page2) ].

(** [urlparse] on the sample addresses. *)
Definition urlparse_ok (url : string) : result ParseResult := Ok (urlparse_plain url).

(** *** A site with detail pages *)

(** A listing of one page with the row of the specification. *)
Definition listing_page : node :=
  Tag "html" [] [ Tag "body" [] [ Tag "table" [] [row_event] ] ].

(** A detail page whose time paragraph gives a range that starts a month
    after the date of the list. *)
Definition detail_page_range : node :=
  Tag "html" []
    [ Tag "body" []
        [ Tag "div" [("class", "clsDtlDes")]
            [ Tag "p" [] [NavigableString "時間：2024/06/01 ~ 2024/06/03"];
              Tag "p" [] [NavigableString "地點：Room 1"];
              Tag "p" [] [NavigableString "主辦單位：教發中心"] ] ] ].


Definition detail_url : string := "https://site/detail.aspx?nid=AB12".

Definition site_rewriting : list (string * node) :=
  [ (site_url, listing_page); (detail_url, detail_page_range) ].


Definition site : Main.site_config :=
  Main.SiteConfig "site" site_url "tr" true true 10 100 ∅.

(** [urljoin] of a relative reference without dot segments: the reference
    replaces the last segment of the path of the base. *)
Fixpoint directory (p : string) : string :=
  match p with
  | EmptyString => EmptyString
  | String c p' =>
      if has_char "/" p' then String c (directory p')
      else if Ascii.eqb c "/" then String c EmptyString else EmptyString
  end.

Definition urljoin_sibling (base link : string) : string :=
  let b := urlparse_plain base in
  scheme b ++ "://" ++ netloc b ++ directory (path b) ++ link.

(** [dateutil.parser.parse] on a date written year, month, day with two
    digits for the month and the day: the same date with dashes.  Other
    texts are refused. *)
Definition date_parse_ymd (fuzzy : bool) (text : string) : result string :=
  match match_at (seqs [Grp 1 (digits 4 (Some 4%nat)); one_of "/-";
                        Grp 2 (digits 2 (Some 2%nat)); one_of "/-";
                        Grp 3 (digits 2 (Some 2%nat)); Eos]) text with
  | Some m =>
      Ok (default "" (group m 1) ++ "-" ++ default "" (group m 2) ++ "-"
          ++ default "" (group m 3))
  | None => Raise ParserError
  end.

Definition clock : string := "2026-01-01 00:00:00".

(** The normal form of a start date on cells that hold a date written
    [dddd-dd-dd] (kept) or nothing (kept empty). *)
Definition normalize_iso (v : pyval) : pyval :=
  match v with
  | PStr s =>
      match match_at (Seq SmartParser.date_re Eos) s with
      | Some _ => v
      | None => PNone
      end
  | _ => PNone
  end.

(** The order of [sort_values] on rows with normal dates: by date, rows
    without a date last. *)
Definition date_leb (r1 r2 : gmap string pyval) : bool :=
  match get r1 "起日", get r2 "起日" with
  | PStr a, PStr b => String.leb a b
  | PStr _, _ => true
  | _, PStr _ => false
  | _, _ => true
  end.

Definition date_le (r1 r2 : gmap string pyval) : Prop := date_leb r1 r2 = true.

#[global] Instance date_le_dec : RelDecision date_le.
Proof. intros r1 r2. unfold date_le. apply _. Defined.

Definition sort_rows (rows : list (gmap string pyval)) : list (gmap string pyval) :=
  merge_sort date_le rows.

(** A row persisted by an earlier run. *)
Definition stored_old : gmap string pyval :=
  {[ "活動名稱" := PStr "Old event"; "主辦單位" := PStr "教發中心";
     "地點" := PStr "Room 2"; "起日" := PStr "2024-01-10";
     "迄日" := PStr "2024-01-10"; "抓取時間" := PStr "2025-12-01 00:00:00" ]}.

(** What the detail pages add to the record of the list. *)
Definition stored_rewritten : gmap string pyval :=
  {[ "活動名稱" := PStr "Event X"; "主辦單位" := PStr "教發中心";
     "地點" := PStr "Room 1"; "起日" := PStr "2024-06-01";
     "迄日" := PStr "2024-06-03"; "抓取時間" := PStr clock ]}.


(** One run of the orchestrator over a fixed set of pages. *)
Definition run_site (pages : list (string * node))
    (store : list (gmap string pyval)) : Main.run :=
  Main.monitor_site css_select urlparse_ok (fetch_from pages) urljoin_sibling
    date_parse_ymd clock normalize_iso sort_rows site store.

End Samples.

(** * Further sample inputs *)

Module MoreSamples.

(** Three changes: two from the news source, one without a source. *)
Definition change1 : gmap string pyval :=
  {[ "source" := PStr "news"; "check_time" := PStr "2026-01-02 10:00:00" ]}.
Definition change2 : gmap string pyval :=
  {[ "check_time" := PStr "2026-01-01 09:00:00" ]}.
Definition change3 : gmap string pyval :=
  {[ "source" := PStr "news"; "check_time" := PStr "2026-01-03 08:00:00" ]}.

Definition changes_summary : Changes.summary :=
  Changes.Summary 3 {[ PStr "news" := 2; PStr "unknown" := 1 ]}
    (Some (PStr "2026-01-01 09:00:00")) (Some (PStr "2026-01-03 08:00:00")).

End MoreSamples.

(** * The properties: their vocabulary

    The notions the properties below are stated with, each in the words of
    the specification as the code narrows them. *)

Local Open Scope list_scope.
Set Warnings "-clear-no-such-hyp".

(** The persisted records that block a fresh record, in the words of the
    specification as the code narrows them: a stored record blocks when its
    name and its start date are both non-empty and equal the title and the
    date of the fresh record. *)
Definition blocked (existing_data : list (gmap string pyval))
    (item : gmap string pyval) : bool :=
  existsb (λ s, Detector.store_guard s
                && bool_decide (Detector.store_key s = Detector.fresh_key item))
          existing_data.

(** The test a record passes to be kept, in the words of the
    specification as the code narrows them: its identifier (the nid, or the
    hash when it has no nid) is non-empty and is neither the nid nor the
    hash of a record kept so far. *)
Definition keeps (kept : list (gmap string pyval)) (item : gmap string pyval) : bool :=
  truthy (Paginator.identifier item)
  && forallb (λ k, negb (bool_decide (Paginator.identifier item = get k "nid"))
                   && negb (bool_decide (Paginator.identifier item = get k "hash")))
             kept.

(** The two sets hold the nids and the hashes of the records kept. *)
Definition dedup_inv (st : Paginator.dedup_state) : Prop :=
  Paginator.seen_nids st
    = list_to_set ((λ r, get r "nid") <$> Paginator.unique_data st)
  ∧ Paginator.seen_hashes st
    = list_to_set ((λ r, get r "hash") <$> Paginator.unique_data st).

(** The records of a list that carry the nid [n]. *)
Definition with_nid (n : pyval) (l : list (gmap string pyval))
  : list (gmap string pyval) :=
  List.filter (λ r, bool_decide (get r "nid" = n)) l.










(** The number of bytes of the character a byte opens in UTF-8, and 0
    for a byte that opens none. *)
Definition char_width (c : ascii) : nat :=
  if (Text.code c <? 128)%nat then 1%nat
  else if Text.between 194 223 c then 2%nat
  else if Text.between 224 239 c then 3%nat
  else if Text.between 240 244 c then 4%nat
  else 0%nat.

(** A text made of whole characters, as every [str] is: each opening
    byte is followed by the continuation bytes it announces. *)
Fixpoint wellformed (s : string) : bool :=
  match s with
  | EmptyString => true
  | String c s1 =>
      match char_width c with
      | 1%nat => wellformed s1
      | 2%nat =>
          match s1 with
          | String d s2 => Text.is_cont d && wellformed s2
          | _ => false
          end
      | 3%nat =>
          match s1 with
          | String d (String e s3) => Text.is_cont d && Text.is_cont e && wellformed s3
          | _ => false
          end
      | 4%nat =>
          match s1 with
          | String d (String e (String f s4)) =>
              Text.is_cont d && Text.is_cont e && Text.is_cont f && wellformed s4
          | _ => false
          end
      | _ => false
      end
  end.

(** A text that starts with a whole character that is no whitespace. *)
Definition starts_solid (s : string) : bool :=
  match s with
  | EmptyString => false
  | String c s1 =>
      match char_width c with
      | 1%nat => negb (Text.is_space c)
      | 2%nat =>
          match s1 with
          | String d _ => Text.is_cont d && negb (Text.is_space2 c d)
          | _ => false
          end
      | 3%nat =>
          match s1 with
          | String d (String e _) =>
              Text.is_cont d && Text.is_cont e && negb (Text.is_space3 c d e)
          | _ => false
          end
      | 4%nat =>
          match s1 with
          | String d (String e (String f _)) =>
              Text.is_cont d && Text.is_cont e && Text.is_cont f
          | _ => false
          end
      | _ => false
      end
  end.

(** A text that is empty or starts with a character that is no space. *)
Definition clean_start (t : string) : Prop := t = "" ∨ starts_solid t = true.

(** The texts of a page are made of whole characters. *)
Fixpoint wellformed_node (n : Bs4.node) : bool :=
  match n with
  | Bs4.NavigableString s => wellformed s
  | Bs4.Tag _ _ cs => forallb wellformed_node cs
  end.

(** Induction on an element with the property at hand for each of its
    contents. *)
Fixpoint node_nested_ind (P : Bs4.node → Prop)
    (Hstring : ∀ s, P (Bs4.NavigableString s))
    (Htag : ∀ nm attrs cs, Forall P cs → P (Bs4.Tag nm attrs cs))
    (n : Bs4.node) : P n :=
  match n with
  | Bs4.NavigableString s => Hstring s
  | Bs4.Tag nm attrs cs =>
      Htag nm attrs cs
        ((fix go (l : list Bs4.node) : Forall P l :=
            match l with
            | [] => List.Forall_nil P
            | c :: l' =>
                @List.Forall_cons _ P c l' (node_nested_ind P Hstring Htag c) (go l')
            end) cs)
  end.

(** The selector engine hands out elements from below the element it is
    asked about, as [Tag.select] does. *)
Definition selects_below (select : Bs4.node → string → result (list Bs4.node)) : Prop :=
  ∀ n s elements, select n s = Ok elements → Forall (λ e, e ∈ Bs4.descendants n) elements.





(** The title of a record, when it has one, is a text with a clean
    start. *)
Definition title_clean (r : gmap string pyval) : Prop :=
  ∀ v, r !! "title" = Some v → ∃ t, v = PStr t ∧ clean_start t.

(** The records extracted from a page before validation. *)
Definition extracted (select : Bs4.node → string → result (list Bs4.node))
    (soup : option Bs4.node) (container_selector : string)
    (table_mode : option bool) : result (list (gmap string pyval)) :=
  match soup with
  | None => Ok []
  | Some soup =>
      containers ← select soup container_selector;
      if default false table_mode || SmartParser._is_table_mode container_selector
      then Ok (SmartParser._parse_table_mode containers)
      else SmartParser._parse_general_mode select containers
  end.

(** The selectors of the field patterns. *)
Definition field_selectors : list string :=
  concat (concat (SmartParser.fp_groups <$> SmartParser.field_patterns)).



(** * Further vocabulary *)

(** The hashes of a list of records. *)
Definition hash_values (l : list (gmap string pyval)) : list pyval :=
  (λ item, get item "hash") <$> l.

(** The number of records of a list that come from one source. *)
Definition from_source (k : pyval) (l : list (gmap string pyval)) : nat :=
  length (List.filter (λ item, bool_decide (get_or item "source" (PStr "unknown") = k)) l).

(** The sum of the counts of a table of counts. *)
Definition total_count (m : gmap pyval Z) : Z :=
  map_fold (λ _ v acc, v + acc) 0 m.

(** The check times of the records that have one. *)
Definition check_times (l : list (gmap string pyval)) : list pyval :=
  omap (λ item : gmap string pyval, item !! "check_time") l.


(** The keys a record of the parser can have. *)
Definition record_keys : gset string := {[ "title"; "link"; "date"; "nid" ]}.


(** What a detail record of [item] looks like: the six columns and no
    other key, the name [title], the time of the fetch, the dates either
    both the date of the list or both texts [date_parse] returned, and a
    place and an organizer that are [None] or a stripped text. *)
Definition detail_record (date_parse : bool → string → result string) (now : string)
    (item : gmap string pyval) (title : string) (d : gmap string pyval) : Prop :=
  dom d = {[ "活動名稱"; "主辦單位"; "地點"; "起日"; "迄日"; "抓取時間" ]}
  ∧ d !! "活動名稱" = Some (PStr title)
  ∧ d !! "抓取時間" = Some (PStr now)
  ∧ ((d !! "起日" = Some (get item "date") ∧ d !! "迄日" = Some (get item "date"))
     ∨ ∃ start_date end_date,
         d !! "起日" = Some (PStr start_date) ∧ d !! "迄日" = Some (PStr end_date)
         ∧ (∃ fuzzy text, date_parse fuzzy text = Ok start_date)
         ∧ (∃ fuzzy text, date_parse fuzzy text = Ok end_date))
  ∧ (d !! "地點" = Some PNone ∨ ∃ t, d !! "地點" = Some (PStr (Text.strip t)))
  ∧ (d !! "主辦單位" = Some PNone ∨ ∃ t, d !! "主辦單位" = Some (PStr (Text.strip t))).
(** * Properties *)


(** ** C1: the new-record detector *)

Lemma truthy_PStr s : truthy (PStr s) = true ↔ s ≠ "".
Proof.
  simpl. rewrite negb_true_iff. split.
  - intros H ->. discriminate.
  - intros H. destruct (String.eqb_spec s ""); congruence.
Qed.

Lemma elem_of_existing_keys existing_data k :
  k ∈ Detector.existing_keys existing_data ↔
  ∃ s, s ∈ existing_data ∧ Detector.store_guard s = true ∧ Detector.store_key s = k.
Proof.
  unfold Detector.existing_keys.
  rewrite elem_of_list_to_set, list_elem_of_fmap.
  split.
  - intros (s & -> & Hs). apply list_elem_of_filter in Hs as [Hg Hin]. eauto.
  - intros (s & Hin & Hg & <-). exists s. split; [done|].
    apply list_elem_of_filter. done.
Qed.

Lemma blocked_spec existing_data item :
  blocked existing_data item = true ↔
  Detector.fresh_key item ∈ Detector.existing_keys existing_data.
Proof.
  unfold blocked. rewrite elem_of_existing_keys, existsb_exists.
  split.
  - intros (s & Hin & Hs). apply andb_true_iff in Hs as [Hg Hk].
    apply bool_decide_eq_true in Hk. exists s.
    rewrite list_elem_of_In. done.
  - intros (s & Hin & Hg & Hk). exists s. rewrite <- list_elem_of_In.
    split; [done|]. rewrite Hg. simpl. by apply bool_decide_eq_true.
Qed.

Lemma filter_as_List_filter {A} (P : A → Prop) `{!∀ x, Decision (P x)}
    (f : A → bool) (l : list A) :
  (∀ x, f x = true ↔ P x) → filter P l = List.filter f l.
Proof.
  intros Hf. induction l as [|x l IH]; [done|].
  rewrite filter_cons. simpl. rewrite IH.
  destruct (decide (P x)) as [HP|HP].
  - apply Hf in HP. by rewrite HP.
  - destruct (f x) eqn:E; [|done]. apply Hf in E. done.
Qed.

Lemma detect_new_data_filter new_data existing_data :
  Detector.detect_new_data new_data existing_data
  = List.filter (λ item, negb (blocked existing_data item)) new_data.
Proof.
  unfold Detector.detect_new_data.
  destruct new_data as [|x l]; [done|].
  apply filter_as_List_filter. intros item.
  rewrite negb_true_iff, <- not_true_iff_false, blocked_spec. done.
Qed.

(** C1, as the code has it.  The detector returns, in input order, exactly
    the fresh records that no persisted record blocks, where only persisted
    records with a non-empty name and a non-empty start date block; so a
    fresh record whose (title, date) equals the (name, start date) of such
    a persisted record is never new; and an empty input gives an empty
    result whatever the persisted set is. *)
Theorem detect_new_data_blocked :
  (∀ new_data existing_data,
     Detector.detect_new_data new_data existing_data
     = List.filter (λ item, negb (blocked existing_data item)) new_data)
  ∧ (∀ new_data existing_data s,
       s ∈ existing_data →
       Detector.store_guard s = true →
       Forall (λ item, Detector.fresh_key item ≠ Detector.store_key s)
              (Detector.detect_new_data new_data existing_data))
  ∧ (∀ existing_data, Detector.detect_new_data [] existing_data = []).
Proof.
  split; [exact detect_new_data_filter|]. split; [|done].
  intros new_data existing_data s Hin Hg.
  apply Forall_forall. intros item.
  rewrite detect_new_data_filter, list_elem_of_In, filter_In, negb_true_iff.
  intros [_ Hb] Hk. apply not_true_iff_false in Hb. apply Hb.
  apply blocked_spec, elem_of_existing_keys. eauto.
Qed.

(** The blocking clause of C1 at a concrete store: the persisted Event X
    of 2024-05-01 blocks the fresh record of the same title and date. *)
Lemma detect_new_data_blocked_witness :
  Forall (λ item, Detector.fresh_key item ≠ Detector.store_key Samples.stored_event)
         (Detector.detect_new_data [Samples.fresh_event] [Samples.stored_event]).
Proof.
  apply (proj1 (proj2 detect_new_data_blocked)
           [Samples.fresh_event] [Samples.stored_event] Samples.stored_event).
  - apply list_elem_of_here.
  - vm_compute. reflexivity.
Defined.

(** C1 as stated fails: the persisted record carries the very key of the
    fresh record, (A, empty date), and the fresh record is still new. *)
Lemma detect_new_data_undated_counterexample :
  Detector.store_key Samples.stored_undated = Detector.fresh_key Samples.fresh_undated
  ∧ Detector.detect_new_data [Samples.fresh_undated] [Samples.stored_undated]
    = [Samples.fresh_undated].
Proof. split; vm_compute; reflexivity. Qed.

(** ** C4: the aggregation-deduplication pass *)

Lemma dedup_step_keeps st item :
  dedup_inv st →
  dedup_inv (Paginator.dedup_step st item)
  ∧ Paginator.unique_data (Paginator.dedup_step st item)
    = Paginator.unique_data st
      ++ (if keeps (Paginator.unique_data st) item then [item] else []).
Proof.
  intros [Hn Hh]. unfold Paginator.dedup_step, keeps.
  destruct (truthy (Paginator.identifier item)) eqn:Ht; simpl;
    [|split; [done|by rewrite app_nil_r]].
  assert (Hiff :
    bool_decide (Paginator.identifier item ∉ Paginator.seen_nids st)
    && bool_decide (Paginator.identifier item ∉ Paginator.seen_hashes st)
    = forallb (λ k, negb (bool_decide (Paginator.identifier item = get k "nid"))
                    && negb (bool_decide (Paginator.identifier item = get k "hash")))
              (Paginator.unique_data st)).
  { rewrite Hn, Hh. clear. induction (Paginator.unique_data st) as [|k l IH]; [done|].
    simpl. rewrite <- IH. clear IH.
    set (i := Paginator.identifier item).
    destruct (decide (i = get k "nid")) as [E1|E1];
      destruct (decide (i = get k "hash")) as [E2|E2];
      repeat (first [rewrite (bool_decide_eq_true_2 (i = _)) by done
                    |rewrite (bool_decide_eq_false_2 (i = _)) by done]); simpl.
    - rewrite bool_decide_eq_false_2 by set_solver. done.
    - rewrite bool_decide_eq_false_2 by set_solver. done.
    - rewrite (bool_decide_eq_false_2 (i ∉ {[get k "hash"]} ∪ _)) by set_solver.
      by rewrite andb_false_r.
    - f_equal; apply bool_decide_ext; set_solver. }
  rewrite Hiff.
  destruct (forallb _ _); simpl; [|split; [done|by rewrite app_nil_r]].
  split; [|done]. split; simpl; rewrite fmap_app, list_to_set_app_L; simpl.
  - rewrite Hn. set_solver.
  - rewrite Hh. set_solver.
Qed.

Lemma dedup_fold_inv l st :
  dedup_inv st → dedup_inv (fold_left Paginator.dedup_step l st).
Proof.
  revert st. induction l as [|x l IH]; intros st H; [done|].
  simpl. apply IH. by apply dedup_step_keeps.
Qed.

Lemma dedup_init_inv : dedup_inv (Paginator.DedupState ∅ ∅ []).
Proof. split; reflexivity. Qed.

Lemma dedup_snoc l item :
  Paginator._deduplicate_data (l ++ [item])
  = Paginator._deduplicate_data l
    ++ (if keeps (Paginator._deduplicate_data l) item then [item] else []).
Proof.
  unfold Paginator._deduplicate_data. rewrite fold_left_app. simpl.
  apply dedup_step_keeps, dedup_fold_inv, dedup_init_inv.
Qed.

Lemma dedup_sublist l : sublist (Paginator._deduplicate_data l) l.
Proof.
  induction l as [|x l IH] using rev_ind; [constructor|].
  rewrite dedup_snoc. apply sublist_app; [done|].
  destruct (keeps _ _); [done|]. apply sublist_nil_l.
Qed.

Lemma dedup_identified l item :
  item ∈ Paginator._deduplicate_data l → truthy (Paginator.identifier item) = true.
Proof.
  induction l as [|x l IH] using rev_ind.
  - intros H. by apply elem_of_nil in H.
  - rewrite dedup_snoc, elem_of_app. intros [H|H]; [by apply IH|].
    destruct (keeps _ x) eqn:E; [|by apply elem_of_nil in H].
    apply list_elem_of_singleton in H as ->.
    unfold keeps in E. by apply andb_true_iff in E as [E _].
Qed.

Lemma identifier_of_nid item :
  truthy (get item "nid") = true → Paginator.identifier item = get item "nid".
Proof. intros H. unfold Paginator.identifier, por. by rewrite H. Qed.

Lemma keeps_fresh_nid kept item :
  keeps kept item = true → truthy (get item "nid") = true →
  with_nid (get item "nid") kept = [].
Proof.
  unfold keeps. intros H Ht. apply andb_true_iff in H as [_ H].
  rewrite identifier_of_nid in H by done.
  induction kept as [|k kept IH]; [done|].
  simpl in H. apply andb_true_iff in H as [Hk H].
  apply andb_true_iff in Hk as [Hk _]. apply negb_true_iff in Hk.
  apply bool_decide_eq_false in Hk.
  unfold with_nid. simpl. rewrite bool_decide_eq_false_2 by congruence.
  by apply IH.
Qed.

Lemma dedup_nid_at_most_once l n :
  truthy n = true → (length (with_nid n (Paginator._deduplicate_data l)) ≤ 1)%nat.
Proof.
  intros Hn. induction l as [|x l IH] using rev_ind; [simpl; lia|].
  rewrite dedup_snoc. unfold with_nid in *. rewrite List.filter_app, length_app.
  destruct (keeps _ x) eqn:E; simpl; [|lia].
  destruct (decide (get x "nid" = n)) as [<-|Hne].
  - rewrite bool_decide_eq_true_2 by done.
    pose proof (keeps_fresh_nid _ _ E Hn) as H0. unfold with_nid in H0.
    rewrite H0. simpl. lia.
  - rewrite bool_decide_eq_false_2 by done. simpl. lia.
Qed.

Lemma dedup_app_prefix l1 l2 :
  ∃ rest, Paginator._deduplicate_data (l1 ++ l2) = Paginator._deduplicate_data l1 ++ rest.
Proof.
  induction l2 as [|x l2 [rest IH]] using rev_ind.
  - exists []. by rewrite !app_nil_r.
  - rewrite app_assoc, dedup_snoc, IH, <- app_assoc. eauto.
Qed.

Lemma keeps_unseen kept item :
  truthy (get item "nid") = true →
  Forall (λ k, get k "nid" ≠ get item "nid" ∧ get k "hash" ≠ get item "nid") kept →
  keeps kept item = true.
Proof.
  intros Ht Hall. unfold keeps. rewrite identifier_of_nid by done.
  rewrite Ht. simpl. apply forallb_forall. intros k Hk.
  rewrite Forall_forall in Hall. apply list_elem_of_In, Hall in Hk as [H1 H2].
  rewrite !bool_decide_eq_false_2 by congruence. done.
Qed.

Lemma with_nid_split n l :
  with_nid n l ≠ [] →
  ∃ l1 r l2, l = l1 ++ r :: l2 ∧ get r "nid" = n ∧ Forall (λ k, get k "nid" ≠ n) l1.
Proof.
  induction l as [|x l IH]; [done|].
  unfold with_nid. simpl. destruct (decide (get x "nid" = n)) as [E|E].
  - intros _. exists [], x, l. by repeat split.
  - rewrite bool_decide_eq_false_2 by done. intros H.
    destruct (IH H) as (l1 & r & l2 & -> & Hr & Hl1).
    exists (x :: l1), r, l2. repeat split; [done|]. by constructor.
Qed.

Lemma dedup_nid_once l n :
  truthy n = true → with_nid n l ≠ [] → Forall (λ r, get r "hash" ≠ n) l →
  length (with_nid n (Paginator._deduplicate_data l)) = 1%nat.
Proof.
  intros Hn Hsome Hhash.
  destruct (with_nid_split n l Hsome) as (l1 & r & l2 & -> & Hr & Hl1).
  pose proof (dedup_nid_at_most_once (l1 ++ r :: l2) n Hn) as Hle.
  destruct (dedup_app_prefix (l1 ++ [r]) l2) as [rest Hrest].
  rewrite <- app_assoc in Hrest. simpl in Hrest.
  assert (Hk : keeps (Paginator._deduplicate_data l1) r = true).
  { apply keeps_unseen; rewrite Hr; [done|].
    apply Forall_forall. intros k Hk.
    assert (Hin : k ∈ l1)
      by (eapply elem_of_submseteq; [done|apply sublist_submseteq, dedup_sublist]).
    split.
    - rewrite Forall_forall in Hl1. by apply Hl1.
    - rewrite Forall_forall in Hhash. apply Hhash. apply elem_of_app. by left. }
  rewrite Hrest, dedup_snoc, Hk in *.
  unfold with_nid in *. rewrite !List.filter_app, !length_app in *. simpl in *.
  rewrite bool_decide_eq_true_2 in * by done. simpl in *. lia.
Qed.

(** C4, as the code has it.  Going through the list in order, the pass
    keeps a record exactly when its identifier (its nid, or its hash when
    it has no nid) is non-empty and is neither the nid nor the hash of a
    record kept before it; the result is a subsequence of the input, so the
    order of first occurrence is preserved; a record with neither
    identifier is never kept; of the records carrying one non-empty nid at
    most one is kept, and exactly one when that value is no record's hash. *)
Theorem deduplicate_by_identifier :
  (∀ l item,
     Paginator._deduplicate_data (l ++ [item])
     = Paginator._deduplicate_data l
       ++ (if keeps (Paginator._deduplicate_data l) item then [item] else []))
  ∧ (∀ l, sublist (Paginator._deduplicate_data l) l)
  ∧ (∀ l, Forall (λ item, truthy (Paginator.identifier item) = true)
                 (Paginator._deduplicate_data l))
  ∧ (∀ l n, truthy n = true →
            (length (with_nid n (Paginator._deduplicate_data l)) ≤ 1)%nat)
  ∧ (∀ l n, truthy n = true → with_nid n l ≠ [] →
            Forall (λ r, get r "hash" ≠ n) l →
            length (with_nid n (Paginator._deduplicate_data l)) = 1%nat).
Proof.
  split; [exact dedup_snoc|].
  split; [exact dedup_sublist|].
  split; [|split; [exact dedup_nid_at_most_once|exact dedup_nid_once]].
  intros l. apply Forall_forall. intros item. apply dedup_identified.
Qed.

(** The uniqueness clauses of C4 on two copies of the record A. *)
Lemma deduplicate_by_identifier_witness :
  (length (with_nid (PStr "A")
             (Paginator._deduplicate_data [Samples.rec_a; Samples.rec_a])) ≤ 1)%nat
  ∧ length (with_nid (PStr "A")
              (Paginator._deduplicate_data [Samples.rec_a; Samples.rec_a])) = 1%nat.
Proof.
  split.
  - apply (proj1 (proj2 (proj2 (proj2 deduplicate_by_identifier)))
             [Samples.rec_a; Samples.rec_a] (PStr "A")).
    reflexivity.
  - apply (proj2 (proj2 (proj2 (proj2 deduplicate_by_identifier)))
             [Samples.rec_a; Samples.rec_a] (PStr "A")).
    + reflexivity.
    + vm_compute. discriminate.
    + repeat constructor; vm_compute; discriminate.
Defined.

(** C4 as stated fails: the second record shares the hash of the first,
    which was kept, and is kept too. *)
Lemma deduplicate_shared_hash_counterexample :
  get Samples.rec_a "hash" = get Samples.rec_b "hash"
  ∧ Paginator._deduplicate_data [Samples.rec_a; Samples.rec_b]
    = [Samples.rec_a; Samples.rec_b].
Proof. split; vm_compute; reflexivity. Qed.

(** ** C3: the page addresses *)

(** The page parameter is computed and never used: the addresses are the
    same whatever the analyzer inferred and whatever the caller
    overrides. *)
Lemma generate_page_urls_param_unused urlparse base_url total_pages info cfg :
  Paginator._generate_page_urls urlparse base_url total_pages info cfg
  = Paginator._generate_page_urls urlparse base_url total_pages ∅ None.
Proof. reflexivity. Qed.

(** The example of the specification, where the parameter is pg. *)
Lemma generate_page_urls_pg_example :
  Paginator._generate_page_urls Samples.urlparse_ok "https://site/x.aspx?spid=XYZ" 3
    ∅ (Some {[ "page_param" := PStr "pg" ]})
  = Ok [ "https://site/x.aspx?spid=XYZ";
         "https://site/x.aspx?pg=2&spid=XYZ";
         "https://site/x.aspx?pg=3&spid=XYZ" ].
Proof. vm_compute. reflexivity. Qed.

(** C3 on the code: with the caller's override [page_param = page] the
    second address still carries pg=2, where the claim asks for page=2. *)
Theorem generate_page_urls_override_ignored :
  Paginator._generate_page_urls Samples.urlparse_ok "https://site/x.aspx?spid=XYZ" 2
    ∅ (Some {[ "page_param" := PStr "page" ]})
  = Ok [ "https://site/x.aspx?spid=XYZ"; "https://site/x.aspx?pg=2&spid=XYZ" ]
  ∧ Paginator._generate_page_urls Samples.urlparse_ok "https://site/x.aspx?spid=XYZ" 2
      ∅ (Some {[ "page_param" := PStr "page" ]})
    ≠ Ok [ "https://site/x.aspx?spid=XYZ"; "https://site/x.aspx?page=2&spid=XYZ" ].
Proof. split; vm_compute; [reflexivity|discriminate]. Qed.


(** ** C6: table-mode extraction *)

Lemma search_match_at r s m :
  Re.search r s = Some m → ∃ s', Re.match_at r s' = Some m.
Proof.
  induction s as [|c s IH]; simpl.
  - destruct (Re.match_at r "") eqn:E; [|done]. intros [= <-]. eauto.
  - destruct (Re.match_at r (String c s)) eqn:E; [intros [= <-]; eauto|]. exact IH.
Qed.



(** The cases of the two date sources of a row, with the record reduced
    in each. *)
Ltac table_cases title_cell rest :=
  destruct (Bs4.find (λ n, Bs4.named "span" n && _) title_cell) as [?|]; simpl;
  [destruct (Re.search SmartParser.date_re _) as [?|]; simpl|];
  (destruct rest as [|? ?]; [|destruct (negb _ && bool_decide _)]);
  unfold get; simplify_map_eq.


(** A row without cells, without an anchor in its first cell, or whose
    anchor has no text, gives no record. *)
Lemma extract_table_row_untitled row :
  match Bs4.find_all (λ n, Bs4.named "td" n || Bs4.named "th" n) row with
  | [] => True
  | title_cell :: _ =>
      match Bs4.find (Bs4.named "a") title_cell with
      | Some a => Bs4.get_text_strip a = ""
      | None => True
      end
  end →
  SmartParser._extract_table_row row = None.
Proof.
  unfold SmartParser._extract_table_row.
  destruct (Bs4.find_all _ row) as [|title_cell rest]; [done|].
  destruct (Bs4.find (Bs4.named "a") title_cell) as [a|].
  - intros ->.
    destruct (Re.search SmartParser.nid_re _) as [m|]; simpl;
      table_cases title_cell rest; done.
  - intros _. table_cases title_cell rest; done.
Qed.

(** The row of the specification extracts to the record of the
    specification. *)
Lemma extract_table_row_example :
  SmartParser._extract_table_row Samples.row_event = Some Samples.fresh_event.
Proof. vm_compute. reflexivity. Qed.



(** ** C8: the total page count *)










(** ** C9: the floors of pagination detection *)

Lemma is_digit_code c : Text.is_digit c = true → (48 ≤ Text.code c)%nat.
Proof.
  unfold Text.is_digit, Text.between. intros H.
  apply andb_true_iff in H as [H _]. by apply Nat.leb_le in H.
Qed.

Lemma int_acc_nonneg s acc :
  Text.forallb_str Text.is_digit s = true → 0 ≤ acc → 0 ≤ Text.int_acc acc s.
Proof.
  revert acc. induction s as [|c s IH]; intros acc Hs Hacc; simpl; [done|].
  simpl in Hs. apply andb_true_iff in Hs as [Hc Hs].
  apply IH; [done|]. apply is_digit_code in Hc. lia.
Qed.

Lemma int_of_digits_nonneg s :
  Text.forallb_str Text.is_digit s = true → 0 ≤ Text.int_of_digits s.
Proof. intros H. by apply int_acc_nonneg. Qed.

Lemma str_take_forallb p n s :
  Text.forallb_str p s = true → Text.forallb_str p (Text.str_take n s) = true.
Proof.
  revert n. induction s as [|c s IH]; intros [|n] H; simpl in *; try done.
  apply andb_true_iff in H as [-> H]. simpl. by apply IH.
Qed.

(** A repetition hands over a rest such that what it consumed is in the
    class. *)
Lemma rep_consumed {A} p lo hi s (k : string → option A) x :
  Re.rep p lo hi s k = Some x →
  ∃ rest, k rest = Some x ∧ Text.forallb_str p (Re.consumed s rest) = true.
Proof.
  revert lo hi. induction s as [|c s IH]; intros lo hi; simpl.
  - destruct lo; [|done]. intros H. exists "". done.
  - assert (Hstop : match lo with O => k (String c s) | S _ => None end = Some x →
              ∃ rest, k rest = Some x
                      ∧ Text.forallb_str p (Re.consumed (String c s) rest) = true).
    { destruct lo; [|done]. intros H. exists (String c s). split; [done|].
      unfold Re.consumed. by rewrite Nat.sub_diag. }
    destruct (p c) eqn:Hp; simpl; [|done].
    destruct (match hi with Some 0%nat => false | _ => true end); [|done].
    destruct (Re.rep p (Nat.pred lo) (Nat.pred <$> hi) s k) eqn:E; [|done].
    intros [= <-]. apply IH in E as (rest & Hk & Hall).
    exists rest. split; [done|]. unfold Re.consumed in *. simpl.
    destruct (decide (String.length rest ≤ String.length s)%nat) as [Hle|Hgt].
    + replace (S (String.length s) - String.length rest)%nat
        with (S (String.length s - String.length rest)) by lia.
      simpl. by rewrite Hp, Hall.
    + replace (S (String.length s) - String.length rest)%nat with 0%nat by lia.
      done.
Qed.

(** The page number [page_re] captures is made of digits. *)
Lemma page_re_group s m :
  Re.search SmartParser.page_re s = Some m →
  Text.forallb_str Text.is_digit (default "" (Re.group m 1)) = true.
Proof.
  intros H. apply search_match_at in H as [s' H].
  unfold Re.match_at, SmartParser.page_re, Re.digits in H. cbn [Re.run] in H.
  assert (Hgrp : ∀ t,
    Re.rep Text.is_digit 1 None t
      (λ rest, Some (Re.Mtch (Re.consumed s' rest) [(1%nat, Re.consumed t rest)] rest))
    = Some m →
    Text.forallb_str Text.is_digit (default "" (Re.group m 1)) = true).
  { intros t Ht. apply rep_consumed in Ht as (rest & [= <-] & Hall). done. }
  destruct (Text.startswith "pg=" s').
  - destruct (Re.rep _ _ _ _ _) eqn:E in H.
    + injection H as ->. by eapply Hgrp.
    + destruct (Text.startswith "page=" s'); [by eapply Hgrp|done].
  - destruct (Text.startswith "page=" s'); [by eapply Hgrp|done].
Qed.

Lemma isdigit_forallb s :
  Text.isdigit s = true → Text.forallb_str Text.is_digit s = true.
Proof. unfold Text.isdigit. intros H. by apply andb_true_iff in H as [_ H]. Qed.

Lemma current_from_indicators_nonneg select soup indicators c :
  SmartParser.current_from_indicators select soup indicators = Ok c → 0 ≤ c.
Proof.
  induction indicators as [|sel rest IH]; simpl.
  - intros [= <-]. lia.
  - unfold SmartParser.select_one. destruct (select soup sel) as [elements|e]; [|done].
    simpl. destruct (head elements) as [current_elem|]; [|exact IH].
    destruct (Text.isdigit _) eqn:E; [|exact IH].
    intros [= <-]. by apply int_of_digits_nonneg, isdigit_forallb.
Qed.

Lemma extract_current_page_nonneg select soup c :
  SmartParser._extract_current_page select soup = Ok c → 0 ≤ c.
Proof.
  unfold SmartParser._extract_current_page.
  match goal with
  | |- context [mbind _ ?u] => destruct u as [current_url|e]; [|done]
  end.
  cbn -[SmartParser.current_from_indicators Re.search].
  destruct (Re.search SmartParser.page_re current_url) as [m|] eqn:E.
  - intros [= <-]. by eapply int_of_digits_nonneg, page_re_group.
  - apply current_from_indicators_nonneg.
Qed.

(** C9.  Whenever pagination detection returns, the total page count and
    the current page of the result are integers not below 1. *)
Theorem detect_pagination_at_least_1 select soup common_selectors info :
  SmartParser.detect_pagination select soup common_selectors = Ok info →
  ∃ total current,
    info !! "total_pages" = Some (PInt total) ∧ 1 ≤ total
    ∧ info !! "current_page" = Some (PInt current) ∧ 1 ≤ current.
Proof.
  unfold SmartParser.detect_pagination.
  destruct (SmartParser.find_pagination select soup _) as [found|e]; [|done].
  simpl.
  set (total := SmartParser._extract_total_pages_from_pagination soup (snd <$> found)).
  destruct (SmartParser._extract_current_page select soup) as [current|e] eqn:Hc; [|done].
  apply extract_current_page_nonneg in Hc.
  simpl. intros [= <-].
  exists (if 1 <? total then total else 1), (if current =? 0 then 1 else current).
  assert (Ht : 1 ≤ (if 1 <? total then total else 1))
    by (destruct (Z.ltb_spec 1 total); lia).
  assert (Hcur : 1 ≤ (if current =? 0 then 1 else current))
    by (destruct (Z.eqb_spec current 0); lia).
  split; [|split; [done|split; [|done]]].
  - destruct (negb (String.eqb (SmartParser._get_base_url soup) ""));
      destruct (negb (current =? 0)); destruct (1 <? total); destruct found as [[? ?]|];
      by simplify_map_eq.
  - destruct (negb (String.eqb (SmartParser._get_base_url soup) ""));
      destruct (current =? 0); destruct (1 <? total); destruct found as [[? ?]|];
      by simplify_map_eq.
Qed.

(** C9 on the first sample page. *)
Lemma detect_pagination_at_least_1_witness :
  ∃ total current,
    Samples.page1_info !! "total_pages" = Some (PInt total) ∧ 1 ≤ total
    ∧ Samples.page1_info !! "current_page" = Some (PInt current) ∧ 1 ≤ current.
Proof.
  apply (detect_pagination_at_least_1 Samples.css_select Samples.page1 None).
  vm_compute. reflexivity.
Defined.

(** A page that names page 0 in its address, in a link and in its active
    indicator is detected as page 1 of 1. *)
Lemma detect_pagination_page_zero :
  (λ info : gmap string pyval, (info !! "total_pages", info !! "current_page"))
    <$> [ value_or ∅ (SmartParser.detect_pagination
                        Samples.css_select Samples.page_zero None);
          value_or ∅ (SmartParser.detect_pagination
                        Samples.css_select Samples.page_active_zero None) ]
  = [ (Some (PInt 1), Some (PInt 1)); (Some (PInt 1), Some (PInt 1)) ].
Proof. vm_compute. reflexivity. Qed.

Lemma find_pagination_returns select soup selectors :
  (∀ s, returns (select soup s)) →
  returns (SmartParser.find_pagination select soup selectors).
Proof.
  intros Hsel. induction selectors as [|s selectors IH]; simpl; [by eexists|].
  unfold SmartParser.select_one. destruct (Hsel s) as [elements ->].
  cbn -[SmartParser.find_pagination]. by destruct (head elements); [eexists|].
Qed.

Lemma current_from_indicators_returns select soup indicators :
  (∀ s, returns (select soup s)) →
  returns (SmartParser.current_from_indicators select soup indicators).
Proof.
  intros Hsel. induction indicators as [|s indicators IH]; simpl; [by eexists|].
  unfold SmartParser.select_one. destruct (Hsel s) as [elements ->].
  cbn -[SmartParser.current_from_indicators].
  destruct (head elements); [|done]. by destruct (Text.isdigit _); [eexists|].
Qed.

(** Pagination detection returns when the selector engine accepts every
    selector on the page and the og:url or canonical element, if there is
    one, has a [content] attribute. *)
Lemma detect_pagination_returns select soup common_selectors :
  (∀ s, returns (select soup s)) →
  match match Bs4.find (λ n, Bs4.named "meta" n && Bs4.attr_is "property" "og:url" n) soup with
        | Some e => Some e
        | None => Bs4.find (λ n, Bs4.named "link" n
                                 && Bs4.attr_has_token "rel" "canonical" n) soup
        end with
  | Some e => is_Some (Bs4.attr e "content")
  | None => True
  end →
  returns (SmartParser.detect_pagination select soup common_selectors).
Proof.
  intros Hsel Hurl. unfold SmartParser.detect_pagination.
  destruct (find_pagination_returns select soup
              (default SmartParser.common_selectors_default common_selectors) Hsel)
    as [found ->].
  cbn -[SmartParser._extract_current_page SmartParser._extract_total_pages_from_pagination
        SmartParser._get_base_url].
  assert (Hcur : returns (SmartParser._extract_current_page select soup)).
  { unfold SmartParser._extract_current_page.
    destruct (match Bs4.find _ soup with Some e => Some e | None => _ end) as [e|].
    - destruct Hurl as [u ->].
      cbn -[SmartParser.current_from_indicators Re.search].
      destruct (Re.search _ _); [by eexists|].
      by apply current_from_indicators_returns.
    - cbn -[SmartParser.current_from_indicators Re.search].
      destruct (Re.search _ _); [by eexists|].
      by apply current_from_indicators_returns. }
  destruct Hcur as [current ->]. by eexists.
Qed.

(** ** C7: valid titles and the item limit *)

(** *** Bytes and characters *)

(** The comparisons of byte codes, split one at a time. *)
Ltac byte_split :=
  match goal with
  | H : context [(?a =? ?b)%nat] |- _ => destruct (Nat.eqb_spec a b)
  | H : context [(?a <=? ?b)%nat] |- _ => destruct (Nat.leb_spec a b)
  | H : context [(?a <? ?b)%nat] |- _ => destruct (Nat.ltb_spec a b)
  | |- context [(?a =? ?b)%nat] => destruct (Nat.eqb_spec a b)
  | |- context [(?a <=? ?b)%nat] => destruct (Nat.leb_spec a b)
  | |- context [(?a <? ?b)%nat] => destruct (Nat.ltb_spec a b)
  end.

Ltac byte_cases :=
  unfold Text.is_space, Text.is_space2, Text.is_space3, Text.is_cont, char_width,
    Text.between in *;
  repeat (byte_split; cbn [andb orb negb] in *; try done; try (exfalso; lia)).

Lemma is_space_width c : Text.is_space c = true → char_width c = 1%nat.
Proof. intros H. byte_cases. Qed.

Lemma is_space2_width c d :
  Text.is_space2 c d = true → char_width c = 2%nat ∧ Text.is_cont d = true.
Proof. intros H. split; byte_cases. Qed.

Lemma is_space3_width c d e :
  Text.is_space3 c d e = true →
  char_width c = 3%nat ∧ Text.is_cont d = true ∧ Text.is_cont e = true.
Proof. intros H. repeat split; byte_cases. Qed.

Lemma is_cont_width c : Text.is_cont c = true → char_width c = 0%nat.
Proof. intros H. byte_cases. Qed.

Lemma not_space1 c : char_width c ≠ 1%nat → Text.is_space c = false.
Proof.
  intros H. destruct (Text.is_space c) eqn:E; [|done].
  by apply is_space_width in E.
Qed.

Lemma not_space2 c d : char_width c ≠ 2%nat → Text.is_space2 c d = false.
Proof.
  intros H. destruct (Text.is_space2 c d) eqn:E; [|done].
  by apply is_space2_width in E as [E _].
Qed.

Lemma not_space3 c d e : char_width c ≠ 3%nat → Text.is_space3 c d e = false.
Proof.
  intros H. destruct (Text.is_space3 c d e) eqn:E; [|done].
  by apply is_space3_width in E as [E _].
Qed.

(** *** Stripping *)

Lemma lstrip_length s : (String.length (Text.lstrip s) ≤ String.length s)%nat.
Proof.
  assert (H : ∀ n s, (String.length s ≤ n)%nat →
                     (String.length (Text.lstrip s) ≤ String.length s)%nat).
  { clear s. induction n as [|n IH]; intros s Hn.
    - destruct s; [done|]. simpl in Hn. lia.
    - destruct s as [|c [|d [|e s]]]; simpl in *.
      + done.
      + destruct (Text.is_space c); simpl; lia.
      + destruct (Text.is_space c).
        * specialize (IH (String d "")). simpl in IH. etrans; [apply IH; lia|lia].
        * destruct (Text.is_space2 c d); simpl; lia.
      + destruct (Text.is_space c).
        * etrans; [apply (IH (String d (String e s))); simpl; lia|simpl; lia].
        * destruct (Text.is_space2 c d).
          -- etrans; [apply (IH (String e s)); simpl; lia|simpl; lia].
          -- destruct (Text.is_space3 c d e).
             ++ etrans; [apply (IH s); lia|lia].
             ++ simpl. lia. }
  by apply (H (String.length s)).
Qed.

(** Where [lstrip] stops: no whitespace character opens the text. *)
Lemma lstrip_stop c s1 :
  Text.is_space c = false →
  (∀ d, Text.is_space2 c d = false) →
  (∀ d e, Text.is_space3 c d e = false) →
  Text.lstrip (String c s1) = String c s1.
Proof.
  intros H1 H2 H3. destruct s1 as [|d [|e s3]]; simpl; rewrite H1, ?H2, ?H3; done.
Qed.

Lemma lstrip_stop2 c d s2 :
  Text.is_space c = false →
  Text.is_space2 c d = false →
  (∀ e, Text.is_space3 c d e = false) →
  Text.lstrip (String c (String d s2)) = String c (String d s2).
Proof.
  intros H1 H2 H3. destruct s2 as [|e s3]; simpl; rewrite H1, H2, ?H3; done.
Qed.

Lemma lstrip_stop3 c d e s3 :
  Text.is_space c = false →
  Text.is_space2 c d = false →
  Text.is_space3 c d e = false →
  Text.lstrip (String c (String d (String e s3))) = String c (String d (String e s3)).
Proof. intros H1 H2 H3. simpl. by rewrite H1, H2, H3. Qed.

(** A text [lstrip] leaves as it is starts with no whitespace
    character. *)
Lemma lstrip_fixed c s1 :
  Text.lstrip (String c s1) = String c s1 →
  Text.is_space c = false
  ∧ (∀ d s2, s1 = String d s2 → Text.is_space2 c d = false)
  ∧ (∀ d e s3, s1 = String d (String e s3) → Text.is_space3 c d e = false).
Proof.
  intros H.
  assert (Hc : Text.is_space c = false).
  { destruct (Text.is_space c) eqn:E; [|done].
    assert (Text.lstrip (String c s1) = Text.lstrip s1) as E'.
    { destruct s1 as [|d [|e s]]; simpl; by rewrite E. }
    pose proof (lstrip_length s1) as Hl. rewrite <- E', H in Hl. simpl in Hl. lia. }
  split; [done|]. split.
  - intros d s2 ->. destruct (Text.is_space2 c d) eqn:E; [|done].
    assert (Text.lstrip (String c (String d s2)) = Text.lstrip s2) as E'.
    { destruct s2 as [|e s]; simpl; by rewrite Hc, E. }
    pose proof (lstrip_length s2) as Hl. rewrite <- E', H in Hl. simpl in Hl. lia.
  - intros d e s3 ->. destruct (Text.is_space3 c d e) eqn:E; [|done].
    destruct (Text.is_space2 c d) eqn:E2.
    + apply is_space2_width in E2 as [E2 _]. apply is_space3_width in E as [E _].
      congruence.
    + assert (Text.lstrip (String c (String d (String e s3))) = Text.lstrip s3) as E'.
      { simpl. by rewrite Hc, E2, E. }
      pose proof (lstrip_length s3) as Hl. rewrite <- E', H in Hl. simpl in Hl. lia.
Qed.

Lemma lstrip_cont d s : Text.is_cont d = true → Text.lstrip (String d s) = String d s.
Proof.
  intros H. apply is_cont_width in H.
  apply lstrip_stop; intros; [apply not_space1|apply not_space2|apply not_space3];
    rewrite H; done.
Qed.

Lemma starts_solid_lstrip s : starts_solid s = true → Text.lstrip s = s.
Proof.
  destruct s as [|c s1]; [done|]. unfold starts_solid.
  destruct (char_width c) as [|[|[|[|[|?]]]]] eqn:W; try done.
  - intros H. apply negb_true_iff in H.
    apply lstrip_stop; [done|intros; apply not_space2|intros; apply not_space3];
      rewrite W; done.
  - destruct s1 as [|d s2]; [done|]. intros H.
    apply andb_true_iff in H as [_ H]. apply negb_true_iff in H.
    apply lstrip_stop2; [apply not_space1|done|intros; apply not_space3];
      rewrite W; done.
  - destruct s1 as [|d [|e s3]]; try done. intros H.
    apply andb_true_iff in H as [_ H]. apply negb_true_iff in H.
    apply lstrip_stop3; [apply not_space1|apply not_space2|done]; rewrite W; done.
  - intros _. apply lstrip_stop; intros;
      [apply not_space1|apply not_space2|apply not_space3]; rewrite W; done.
Qed.

Lemma starts_solid_app s r : starts_solid s = true → starts_solid (s +:+ r) = true.
Proof.
  destruct s as [|c s1]; [done|].
  destruct s1 as [|d [|e [|f s]]]; simpl;
    destruct (char_width c) as [|[|[|[|[|?]]]]]; done.
Qed.

Lemma rstrip_keep c s :
  Text.lstrip (String c s) = String c s →
  Text.rstrip (String c s) = String c (Text.rstrip s).
Proof. intros H. cbn [Text.rstrip]. by rewrite H. Qed.

Lemma starts_solid_rstrip s : starts_solid s = true → starts_solid (Text.rstrip s) = true.
Proof.
  intros H. pose proof (starts_solid_lstrip s H) as Hfix.
  destruct s as [|c s1]; [done|]. rewrite (rstrip_keep _ _ Hfix).
  unfold starts_solid in *.
  destruct (char_width c) as [|[|[|[|[|?]]]]] eqn:W; try done.
  - destruct s1 as [|d s2]; [done|].
    pose proof H as H'. apply andb_true_iff in H' as [Hd _].
    by rewrite (rstrip_keep _ _ (lstrip_cont d s2 Hd)).
  - destruct s1 as [|d [|e s3]]; try done.
    pose proof H as H'. apply andb_true_iff in H' as [H' _].
    apply andb_true_iff in H' as [Hd He].
    rewrite (rstrip_keep _ _ (lstrip_cont d _ Hd)).
    by rewrite (rstrip_keep _ _ (lstrip_cont e _ He)).
  - destruct s1 as [|d [|e [|f s4]]]; try done.
    pose proof H as H'. apply andb_true_iff in H' as [H' Hf].
    apply andb_true_iff in H' as [Hd He].
    rewrite (rstrip_keep _ _ (lstrip_cont d _ Hd)).
    rewrite (rstrip_keep _ _ (lstrip_cont e _ He)).
    by rewrite (rstrip_keep _ _ (lstrip_cont f _ Hf)).
Qed.

Lemma starts_solid_strip s : starts_solid s = true → Text.strip s ≠ "".
Proof.
  intros H. unfold Text.strip. rewrite (starts_solid_lstrip s H).
  apply starts_solid_rstrip in H. by destruct (Text.rstrip s).
Qed.

Lemma starts_solid_take n s :
  starts_solid s = true → starts_solid (Text.take_chars (S n) s) = true.
Proof.
  destruct s as [|c s1]; [done|]. unfold starts_solid.
  destruct (char_width c) as [|[|[|[|[|?]]]]] eqn:W; try done.
  all: assert (Hc : Text.is_cont c = false)
         by (destruct (Text.is_cont c) eqn:E; [|done];
             apply is_cont_width in E; congruence).
  all: cbn [Text.take_chars]; rewrite Hc, W.
  - done.
  - destruct s1 as [|d s2]; [done|]. intros H.
    pose proof H as H'. apply andb_true_iff in H' as [Hd _].
    cbn [Text.take_chars]. by rewrite Hd.
  - destruct s1 as [|d [|e s3]]; try done. intros H.
    pose proof H as H'. apply andb_true_iff in H' as [H' _].
    apply andb_true_iff in H' as [Hd He].
    cbn [Text.take_chars]. rewrite Hd. cbn [Text.take_chars]. by rewrite He.
  - destruct s1 as [|d [|e [|f s4]]]; try done. intros H.
    pose proof H as H'. apply andb_true_iff in H' as [H' Hf].
    apply andb_true_iff in H' as [Hd He].
    cbn [Text.take_chars]. rewrite Hd. cbn [Text.take_chars]. rewrite He.
    cbn [Text.take_chars]. by rewrite Hf.
Qed.

(** What [lstrip] leaves of a text of whole characters is empty or
    starts with a whole character that is no whitespace. *)
Lemma wellformed_lstrip s :
  wellformed s = true → Text.lstrip s = "" ∨ starts_solid (Text.lstrip s) = true.
Proof.
  assert (H : ∀ n s, (String.length s ≤ n)%nat → wellformed s = true →
                     Text.lstrip s = "" ∨ starts_solid (Text.lstrip s) = true).
  { clear s. induction n as [|n IH]; intros s Hn Hwf.
    { destruct s; [by left|]. simpl in Hn. lia. }
    destruct s as [|c s1]; [by left|].
    destruct (Text.is_space c) eqn:E1.
    { pose proof (is_space_width c E1) as W.
      assert (Text.lstrip (String c s1) = Text.lstrip s1) as ->.
      { destruct s1 as [|d [|e s]]; simpl; by rewrite E1. }
      apply IH; [simpl in Hn; lia|]. simpl in Hwf. by rewrite W in Hwf. }
    destruct s1 as [|d s2].
    { right. simpl. rewrite E1. simpl in *.
      destruct (char_width c) as [|[|[|[|[|?]]]]]; try done. by rewrite E1. }
    destruct (Text.is_space2 c d) eqn:E2.
    { pose proof (is_space2_width c d E2) as [W Hd].
      assert (Text.lstrip (String c (String d s2)) = Text.lstrip s2) as ->.
      { destruct s2 as [|e s]; simpl; by rewrite E1, E2. }
      apply IH; [simpl in Hn; lia|]. simpl in Hwf. rewrite W, Hd in Hwf. done. }
    destruct s2 as [|e s3].
    { right. simpl Text.lstrip. rewrite E1, E2. simpl in *.
      destruct (char_width c) as [|[|[|[|[|?]]]]]; try done.
      - by rewrite E1.
      - rewrite E2. apply andb_true_iff in Hwf as [-> _]. done. }
    destruct (Text.is_space3 c d e) eqn:E3.
    { pose proof (is_space3_width c d e E3) as (W & Hd & He).
      assert (Text.lstrip (String c (String d (String e s3))) = Text.lstrip s3) as ->.
      { simpl. by rewrite E1, E2, E3. }
      apply IH; [simpl in Hn; lia|]. simpl in Hwf. rewrite W, Hd, He in Hwf. done. }
    right. rewrite lstrip_stop3 by done. simpl in *.
    destruct (char_width c) as [|[|[|[|[|?]]]]]; try done.
    - by rewrite E1.
    - rewrite E2. apply andb_true_iff in Hwf as [-> _]. done.
    - rewrite E3. apply andb_true_iff in Hwf as [Hwf _]. by rewrite Hwf.
    - destruct s3 as [|f s4]; [done|].
      apply andb_true_iff in Hwf as [Hwf _]. by rewrite Hwf. }
  by apply (H (String.length s)).
Qed.

Lemma strip_clean s : wellformed s = true → clean_start (Text.strip s).
Proof.
  intros Hwf. unfold Text.strip.
  destruct (wellformed_lstrip s Hwf) as [->|H]; [by left|].
  right. by apply starts_solid_rstrip.
Qed.

Lemma clean_start_strip t : clean_start t → t ≠ "" → Text.strip t ≠ "".
Proof. intros [->|H] Hne; [done|]. by apply starts_solid_strip. Qed.

Lemma join_clean (l : list string) :
  Forall (λ s, clean_start s ∧ s ≠ "") l → clean_start (Text.join l).
Proof.
  destruct 1 as [|s l [[->|Hs] Hne] _]; [by left|done|].
  right. simpl. by apply starts_solid_app.
Qed.

Lemma take_chars_clean n t : clean_start t → clean_start (Text.take_chars (S n) t).
Proof. intros [->|H]; [by left|]. right. by apply starts_solid_take. Qed.

(** *** The texts below an element *)

(** The contents of a tag, level by level. *)
Lemma descendants_tag nm attrs cs :
  Bs4.descendants (Bs4.Tag nm attrs cs)
  = flat_map (λ c, c :: Bs4.descendants c) cs.
Proof.
  simpl. induction cs as [|c cs IH]; [done|]. simpl. by rewrite IH.
Qed.

Lemma descendants_wellformed n d :
  wellformed_node n = true → d ∈ Bs4.descendants n → wellformed_node d = true.
Proof.
  revert d. induction n as [s|nm attrs cs IH] using node_nested_ind; intros d Hwf Hd.
  - by apply elem_of_nil in Hd.
  - rewrite descendants_tag in Hd. simpl in Hwf.
    apply list_elem_of_In, in_flat_map in Hd as (c & Hc & Hd).
    rewrite forallb_forall in Hwf. pose proof (Hwf c Hc) as Hwc.
    rewrite Forall_forall in IH.
    destruct Hd as [<-|Hd]; [done|].
    apply (IH c); [by apply list_elem_of_In|done|by apply list_elem_of_In].
Qed.

Lemma strings_wellformed n :
  wellformed_node n = true → Forall (λ s, wellformed s = true) (Bs4.strings n).
Proof.
  intros Hwf. destruct n as [s|nm attrs cs].
  - simpl. by constructor.
  - unfold Bs4.strings. apply Forall_forall. intros s Hs.
    apply list_elem_of_omap in Hs as (d & Hd & Hs).
    destruct d as [s'|]; [|done]. injection Hs as ->.
    by apply (descendants_wellformed _ _ Hwf Hd).
Qed.

Lemma find_all_below p n d : d ∈ Bs4.find_all p n → d ∈ Bs4.descendants n.
Proof.
  unfold Bs4.find_all. intros H.
  apply list_elem_of_In, filter_In in H as [H _]. by apply list_elem_of_In.
Qed.

Lemma find_below p n d : Bs4.find p n = Some d → d ∈ Bs4.descendants n.
Proof.
  unfold Bs4.find. intros H. apply (find_all_below p).
  destruct (Bs4.find_all p n) as [|x l]; [done|].
  injection H as ->. apply list_elem_of_here.
Qed.

Lemma get_text_strip_clean n :
  wellformed_node n = true → clean_start (Bs4.get_text_strip n).
Proof.
  intros Hwf. apply strings_wellformed in Hwf. rewrite Forall_forall in Hwf.
  unfold Bs4.get_text_strip. apply join_clean, Forall_forall.
  intros s Hs. apply list_elem_of_In, filter_In in Hs as [Hin Hne].
  split.
  - apply list_elem_of_In, list_elem_of_fmap in Hin as (s0 & -> & Hs0).
    by apply strip_clean, Hwf.
  - intros ->. done.
Qed.

(** *** The titles of the records *)

Lemma title_clean_empty : title_clean ∅.
Proof. intros v H. by rewrite lookup_empty in H. Qed.

Lemma title_clean_insert_other k v r :
  k ≠ "title" → title_clean r → title_clean (<[k := v]> r).
Proof. intros Hk Hr w. rewrite lookup_insert_ne by done. apply Hr. Qed.

Lemma title_clean_insert k t r :
  clean_start t → title_clean r → title_clean (<[k := PStr t]> r).
Proof.
  intros Ht Hr w. destruct (decide (k = "title")) as [->|Hk].
  - rewrite lookup_insert_eq. intros [= <-]. eauto.
  - rewrite lookup_insert_ne by done. apply Hr.
Qed.

Lemma extract_table_row_title_clean row r :
  wellformed_node row = true →
  SmartParser._extract_table_row row = Some r → title_clean r.
Proof.
  intros Hwf. unfold SmartParser._extract_table_row.
  destruct (Bs4.find_all _ row) as [|title_cell rest] eqn:Hcells; [done|].
  assert (Hcell : wellformed_node title_cell = true).
  { apply (descendants_wellformed row); [done|].
    eapply find_all_below. rewrite Hcells. apply list_elem_of_here. }
  clear Hcells.
  match goal with
  | |- (if truthy (get ?d "title") then _ else _) = _ → _ =>
      assert (H : title_clean d); [|destruct (truthy (get d "title")); [|done];
                                    by intros [= <-]]
  end.
  assert (H1 : title_clean
    match Bs4.find (Bs4.named "a") title_cell with
    | Some title_link =>
        match Re.search SmartParser.nid_re (default "" (Bs4.attr title_link "href")) with
        | Some nid_match =>
            <["nid" := from_option PStr PNone (Re.group nid_match 1)]>
              (<["link" := PStr (default "" (Bs4.attr title_link "href"))]>
                 (<["title" := PStr (Bs4.get_text_strip title_link)]> ∅))
        | None =>
            <["link" := PStr (default "" (Bs4.attr title_link "href"))]>
              (<["title" := PStr (Bs4.get_text_strip title_link)]> ∅)
        end
    | None => ∅
    end).
  { destruct (Bs4.find (Bs4.named "a") title_cell) as [a|] eqn:Ha;
      [|apply title_clean_empty].
    assert (Hwa : wellformed_node a = true).
    { apply (descendants_wellformed title_cell); [done|by eapply find_below]. }
    assert (H0 : title_clean
                   (<["link" := PStr (default "" (Bs4.attr a "href"))]>
                      (<["title" := PStr (Bs4.get_text_strip a)]> ∅))).
    { apply title_clean_insert_other; [done|].
      apply title_clean_insert; [by apply get_text_strip_clean|].
      apply title_clean_empty. }
    destruct (Re.search _ _); [|done].
    by apply title_clean_insert_other. }
  repeat match goal with
         | |- title_clean (match ?x with _ => _ end) => destruct x
         | |- title_clean (if ?x then _ else _) => destruct x
         | |- title_clean (<["date" := _]> _) => apply title_clean_insert_other; [done|]
         end; exact H1.
Qed.

Lemma general_field_title_clean select container row field :
  selects_below select → wellformed_node container = true →
  title_clean row → title_clean (SmartParser.general_field select container row field).
Proof.
  intros Hbelow Hwf Hrow. destruct field as [field_name selector].
  unfold SmartParser.general_field.
  destruct (String.eqb selector "*").
  { apply title_clean_insert; [|done]. by apply take_chars_clean, get_text_strip_clean. }
  destruct (select container selector) as [[|element elements]|e] eqn:Hsel; try done.
  assert (Hwe : wellformed_node element = true).
  { apply (descendants_wellformed container); [done|].
    apply Hbelow in Hsel. by apply Forall_cons in Hsel as [Hsel _]. }
  destruct (String.eqb_spec field_name "link") as [->|_].
  { assert (H : title_clean (<["link" := PStr (default "" (Bs4.attr element "href"))]> row))
      by (by apply title_clean_insert_other).
    destruct (Re.search _ _); [|done]. by apply title_clean_insert_other. }
  destruct (String.eqb_spec field_name "date") as [->|_].
  { destruct (Re.search _ _); [|done]. by apply title_clean_insert_other. }
  apply title_clean_insert; [|done]. by apply get_text_strip_clean.
Qed.

Lemma general_fields_title_clean select container fields row :
  selects_below select → wellformed_node container = true →
  title_clean row →
  title_clean (fold_left (SmartParser.general_field select container) fields row).
Proof.
  intros Hbelow Hwf. revert row. induction fields as [|f fields IH]; intros row H; [done|].
  simpl. by apply IH, general_field_title_clean.
Qed.

Lemma extract_general_row_title_clean select container detected r :
  selects_below select → wellformed_node container = true →
  SmartParser._extract_general_row select container detected = Some r → title_clean r.
Proof.
  intros Hbelow Hwf. unfold SmartParser._extract_general_row.
  pose proof (general_fields_title_clean select container detected ∅ Hbelow Hwf
                title_clean_empty) as H0.
  set (row0 := fold_left _ detected ∅) in *.
  match goal with
  | |- (if truthy (get ?d "title") then _ else _) = _ → _ =>
      assert (H : title_clean d); [|destruct (truthy (get d "title")); [|done];
                                    by intros [= <-]]
  end.
  destruct (any_values row0); [done|].
  destruct (String.eqb _ ""); [done|].
  apply title_clean_insert; [|done]. by apply take_chars_clean, get_text_strip_clean.
Qed.

Lemma parse_table_mode_title_clean containers :
  Forall (λ c, wellformed_node c = true) containers →
  Forall title_clean (SmartParser._parse_table_mode containers).
Proof.
  intros Hwf. rewrite Forall_forall in Hwf.
  apply Forall_forall. intros r Hr.
  apply list_elem_of_In, in_concat in Hr as (rs & Hrs & Hr).
  apply list_elem_of_In, list_elem_of_fmap in Hrs as (row & -> & Hrow).
  unfold SmartParser.table_step in Hr.
  destruct (negb _); [done|].
  destruct (SmartParser._extract_table_row row) as [d|] eqn:E; [|done].
  destruct (any_values d); [|done].
  destruct Hr as [<-|[]]. eapply extract_table_row_title_clean; [|done]. by apply Hwf.
Qed.

Lemma parse_general_mode_title_clean select containers data_list :
  selects_below select →
  Forall (λ c, wellformed_node c = true) containers →
  SmartParser._parse_general_mode select containers = Ok data_list →
  Forall title_clean data_list.
Proof.
  intros Hbelow Hwf. rewrite Forall_forall in Hwf.
  unfold SmartParser._parse_general_mode, SmartParser._parse_general_mode_with.
  match goal with
  | |- context [mbind _ ?u] => destruct u as [detected|e]; [|done]
  end.
  cbn -[concat]. intros [= <-].
  apply Forall_forall. intros r Hr.
  apply list_elem_of_In, in_concat in Hr as (rs & Hrs & Hr).
  apply list_elem_of_In, list_elem_of_fmap in Hrs as (row & -> & Hrow).
  unfold SmartParser.general_step in Hr.
  destruct (SmartParser._extract_general_row select row detected) as [d|] eqn:E; [|done].
  destruct (any_values d); [|done].
  destruct Hr as [<-|[]]. eapply extract_general_row_title_clean; [done| |done].
  by apply Hwf.
Qed.

Lemma validate_data_title item :
  item ∈ SmartParser.validate_data [item] →
  ∃ v, item !! "title" = Some v ∧ truthy v = true.
Proof.
  unfold SmartParser.validate_data. simpl.
  destruct (truthy (get _ "title")) eqn:E; [|by intros H; apply elem_of_nil in H].
  intros _. unfold get in E.
  destruct (filter _ item !! "title") as [v|] eqn:L; [|done].
  apply map_lookup_filter_Some in L as [L _]. eauto.
Qed.

Lemma validate_data_elem item data_list :
  item ∈ SmartParser.validate_data data_list →
  item ∈ data_list ∧ ∃ v, item !! "title" = Some v ∧ truthy v = true.
Proof.
  intros H. unfold SmartParser.validate_data in H.
  apply list_elem_of_In, filter_In in H as [Hin Ht].
  split; [by apply list_elem_of_In|].
  apply validate_data_title. unfold SmartParser.validate_data. simpl.
  rewrite Ht. apply list_elem_of_here.
Qed.

Lemma List_filter_sublist {A} (f : A → bool) l : sublist (List.filter f l) l.
Proof.
  induction l as [|x l IH]; [constructor|].
  simpl. destruct (f x); by constructor.
Qed.

Lemma slice_to_sublist {A} n (l : list A) : sublist (SmartParser.slice_to n l) l.
Proof. unfold SmartParser.slice_to. destruct (0 <=? n); apply sublist_take. Qed.

Lemma parse_extracted select max_items soup container_selector table_mode out :
  SmartParser.parse select max_items soup container_selector table_mode = Ok out →
  ∃ data_list,
    extracted select soup container_selector table_mode = Ok data_list
    ∧ out = SmartParser.slice_to max_items (SmartParser.validate_data data_list).
Proof.
  unfold SmartParser.parse, SmartParser.parse_with, extracted.
  assert (Hnil : ([] : list (gmap string pyval))
                 = SmartParser.slice_to max_items (SmartParser.validate_data [])).
  { unfold SmartParser.slice_to. simpl.
    destruct (0 <=? max_items); [by rewrite take_nil|done]. }
  destruct soup as [soup|].
  2:{ intros [= <-]. exists []. split; [done|exact Hnil]. }
  destruct (select soup container_selector) as [containers|e]; [|done].
  cbn -[SmartParser._parse_table_mode_with SmartParser._parse_general_mode_with
        SmartParser._parse_general_mode SmartParser._parse_table_mode
        SmartParser.validate_data SmartParser._is_table_mode].
  destruct containers as [|c containers].
  { intros [= <-].
    destruct (default false table_mode || _); (exists []; split; [done|exact Hnil]). }
  destruct (default false table_mode || _).
  - cbn -[SmartParser._parse_table_mode_with SmartParser.validate_data].
    intros [= <-]. eexists. split; [reflexivity|done].
  - fold (SmartParser._parse_general_mode select (c :: containers)).
    destruct (SmartParser._parse_general_mode select (c :: containers))
      as [data_list|e] eqn:E; [|done].
    cbn -[SmartParser.validate_data]. intros [= <-].
    exists data_list. split; done.
Qed.

(** On a page of whole characters, every title extracted is empty or
    starts with a character that is no whitespace. *)
Lemma extracted_title_clean select soup container_selector table_mode data_list :
  selects_below select →
  from_option wellformed_node true soup = true →
  extracted select soup container_selector table_mode = Ok data_list →
  Forall title_clean data_list.
Proof.
  intros Hbelow Hwf. unfold extracted.
  destruct soup as [soup|]; [|intros [= <-]; constructor]. simpl in Hwf.
  destruct (select soup container_selector) as [containers|e] eqn:Hsel; [|done].
  assert (Hcs : Forall (λ c, wellformed_node c = true) containers).
  { apply Hbelow in Hsel. eapply Forall_impl; [exact Hsel|].
    intros c Hc. by apply (descendants_wellformed soup). }
  cbn -[SmartParser._parse_table_mode SmartParser._parse_general_mode
        SmartParser._is_table_mode].
  destruct (default false table_mode || _).
  - intros [= <-]. by apply parse_table_mode_title_clean.
  - by apply parse_general_mode_title_clean.
Qed.

(** C7.  The texts of a page are made of whole characters and the
    selector engine hands out elements of the page.  Then, whenever
    [parse] returns, every record of the output has a title that is
    non-empty after trimming, whatever the item limit; the output is the
    slice [[:max_items]] of the validated list of the extracted records,
    which for a non-negative limit is its first [max_items] records; and
    the order of extraction is kept. *)
Theorem parse_valid_and_limited select max_items soup container_selector table_mode out :
  selects_below select →
  from_option wellformed_node true soup = true →
  SmartParser.parse select max_items soup container_selector table_mode = Ok out →
  Forall (λ r, ∃ t, r !! "title" = Some (PStr t) ∧ Text.strip t ≠ "") out
  ∧ ∃ data_list,
      extracted select soup container_selector table_mode = Ok data_list
      ∧ out = SmartParser.slice_to max_items (SmartParser.validate_data data_list)
      ∧ (0 ≤ max_items →
         out = take (Z.to_nat max_items) (SmartParser.validate_data data_list))
      ∧ sublist out data_list.
Proof.
  intros Hbelow Hwf Hparse.
  apply parse_extracted in Hparse as (data_list & Hdata & ->).
  pose proof (extracted_title_clean _ _ _ _ _ Hbelow Hwf Hdata) as Hclean.
  assert (Hsub : sublist (SmartParser.slice_to max_items
                            (SmartParser.validate_data data_list))
                         (SmartParser.validate_data data_list))
    by apply slice_to_sublist.
  split.
  - apply Forall_forall. intros r Hr.
    assert (Hv : r ∈ SmartParser.validate_data data_list).
    { eapply elem_of_submseteq; [done|]. by apply sublist_submseteq. }
    apply validate_data_elem in Hv as (Hin & v & Hv & Ht).
    rewrite Forall_forall in Hclean.
    destruct (Hclean r Hin v Hv) as (t & -> & Hstart).
    exists t. split; [done|]. apply clean_start_strip; [done|].
    by apply truthy_PStr.
  - exists data_list. split; [done|]. split; [done|]. split.
    + intros Hmax. unfold SmartParser.slice_to.
      destruct (Z.leb_spec 0 max_items); [done|lia].
    + etrans; [exact Hsub|]. apply List_filter_sublist.
Qed.

(** The sample engine selects among the elements below. *)
Lemma below_descendants ancestors n :
  fst <$> Samples.below ancestors n = Bs4.descendants n.
Proof.
  revert ancestors. induction n as [s|nm attrs cs IH] using node_nested_ind;
    intros ancestors; [done|].
  simpl. set (up := Bs4.Tag nm attrs cs :: ancestors). clearbody up.
  induction IH as [|c l Hc _ IHl]; [done|].
  rewrite fmap_cons, fmap_app, Hc, IHl. done.
Qed.

Lemma css_select_below : selects_below Samples.css_select.
Proof.
  intros n s elements. unfold Samples.css_select.
  destruct (Samples.parse_selector s) as [sel|]; [|done].
  intros [= <-]. apply Forall_forall. intros e He.
  apply list_elem_of_fmap in He as ([e' anc] & -> & He).
  apply list_elem_of_In, filter_In in He as [He _].
  rewrite <- (below_descendants [] n).
  apply list_elem_of_fmap. exists (e', anc). split; [done|]. by apply list_elem_of_In.
Qed.

(** C7 on the first sample page, under the limit of 100 items. *)
Lemma parse_valid_and_limited_witness :
  Forall (λ r, ∃ t, r !! "title" = Some (PStr t) ∧ Text.strip t ≠ "")
         [Samples.fresh_event; Samples.plain_event]
  ∧ ∃ data_list,
      extracted Samples.css_select (Some Samples.page1) "tr" None = Ok data_list
      ∧ [Samples.fresh_event; Samples.plain_event]
        = SmartParser.slice_to 100 (SmartParser.validate_data data_list)
      ∧ (0 ≤ 100 →
         [Samples.fresh_event; Samples.plain_event]
         = take (Z.to_nat 100) (SmartParser.validate_data data_list))
      ∧ sublist [Samples.fresh_event; Samples.plain_event] data_list.
Proof.
  apply (parse_valid_and_limited Samples.css_select 100 (Some Samples.page1) "tr" None).
  - exact css_select_below.
  - vm_compute. reflexivity.
  - vm_compute. reflexivity.
Defined.

(** With a limit of one item the output is the first valid record; a row
    whose anchor holds only spaces gives no record. *)
Lemma parse_limit_example :
  SmartParser.parse Samples.css_select 1 (Some Samples.page1) "tr" None
  = Ok [Samples.fresh_event]
  ∧ SmartParser.parse Samples.css_select 100
      (Some (Bs4.Tag "table" []
               [ Bs4.Tag "tr" []
                   [ Bs4.Tag "td" []
                       [Bs4.Tag "a" [("href", "detail.aspx?nid=AB12")]
                          [Bs4.NavigableString "   "]];
                     Bs4.Tag "td" [] [Bs4.NavigableString "2024-05-01"] ] ]))
      "tr" None
    = Ok [].
Proof. split; vm_compute; reflexivity. Qed.

(** ** C10: when [parse] returns *)

Lemma scan_group_returns select sample validator cur pattern :
  (∀ s, s ∈ pattern → returns (select sample s)) →
  returns (SmartParser.scan_group select sample validator cur pattern).
Proof.
  revert cur. induction pattern as [|s pattern IH]; intros cur Hsel; simpl.
  - by exists cur.
  - destruct (Hsel s) as [elements ->]; [apply list_elem_of_here|].
    cbn -[SmartParser.scan_group].
    destruct (existsb _ elements); [by eexists|].
    destruct cur; [by eexists|].
    apply IH. intros s' Hs'. apply Hsel. by apply list_elem_of_further.
Qed.

Lemma scan_groups_returns select sample validator cur groups :
  (∀ s, s ∈ concat groups → returns (select sample s)) →
  returns (SmartParser.scan_groups select sample validator cur groups).
Proof.
  revert cur. induction groups as [|g groups IH]; intros cur Hsel; simpl.
  - by exists cur.
  - destruct (scan_group_returns select sample validator cur g) as [cur' ->].
    { intros s Hs. apply Hsel. simpl. apply elem_of_app. by left. }
    cbn -[SmartParser.scan_groups]. apply IH.
    intros s Hs. apply Hsel. simpl. apply elem_of_app. by right.
Qed.

Lemma detect_fields_returns select sample fps :
  (∀ s, s ∈ concat (concat (SmartParser.fp_groups <$> fps)) → returns (select sample s)) →
  returns (SmartParser.detect_fields select sample fps).
Proof.
  induction fps as [|fp fps IH]; intros Hsel; simpl.
  - by eexists.
  - destruct (scan_groups_returns select sample (SmartParser.fp_validator fp) None
                (SmartParser.fp_groups fp)) as [found ->].
    { intros s Hs. apply Hsel. simpl. rewrite concat_app. apply elem_of_app. by left. }
    cbn -[SmartParser.detect_fields].
    destruct IH as [others ->].
    { intros s Hs. apply Hsel. simpl. rewrite concat_app. apply elem_of_app. by right. }
    by eexists.
Qed.

Lemma auto_detect_fields_returns select sample :
  (∀ s, s ∈ field_selectors → returns (select sample s)) →
  returns (SmartParser._auto_detect_fields select sample).
Proof.
  intros Hsel. unfold SmartParser._auto_detect_fields.
  destruct (detect_fields_returns select sample SmartParser.field_patterns Hsel)
    as [detected ->].
  by eexists.
Qed.

Lemma parse_general_mode_with_returns select extract containers :
  (∀ n s, s ∈ field_selectors → returns (select n s)) →
  returns (SmartParser._parse_general_mode_with select extract containers).
Proof.
  intros Hsel. unfold SmartParser._parse_general_mode_with.
  destruct containers as [|sample rest]; [by eexists|].
  destruct (auto_detect_fields_returns select sample (Hsel sample)) as [detected ->].
  by eexists.
Qed.

Lemma table_step_skip extract row e :
  extract row = Raise e → SmartParser.table_step extract row = [].
Proof. intros H. unfold SmartParser.table_step. rewrite H. by destruct (negb _). Qed.

Lemma general_step_skip extract container e :
  extract container = Raise e → SmartParser.general_step extract container = [].
Proof. intros H. unfold SmartParser.general_step. by rewrite H. Qed.

(** C10, as the code has it, for any row extractors, raising or not.
    Without a page [parse] returns the empty list; a container selector
    that matches nothing gives the empty list; when the selector engine
    accepts the container selector and the selectors of the field patterns,
    [parse] returns; a container selector the engine rejects makes [parse]
    raise what the engine raised; and a container whose extraction raises
    adds nothing to the records while the containers before and after it
    add what they add without it. *)
Theorem parse_returns_on_accepted_selectors
    select extract_table extract_general max_items :
  (∀ selector table_mode,
     SmartParser.parse_with select extract_table extract_general max_items
       None selector table_mode = Ok [])
  ∧ (∀ soup selector table_mode,
       select soup selector = Ok [] →
       SmartParser.parse_with select extract_table extract_general max_items
         (Some soup) selector table_mode = Ok [])
  ∧ (∀ soup selector table_mode,
       returns (select soup selector) →
       (∀ n s, s ∈ field_selectors → returns (select n s)) →
       returns (SmartParser.parse_with select extract_table extract_general max_items
                  (Some soup) selector table_mode))
  ∧ (∀ soup selector table_mode e,
       select soup selector = Raise e →
       SmartParser.parse_with select extract_table extract_general max_items
         (Some soup) selector table_mode = Raise e)
  ∧ (∀ before row after e,
       extract_table row = Raise e →
       SmartParser._parse_table_mode_with extract_table (before ++ row :: after)
       = SmartParser._parse_table_mode_with extract_table before
         ++ SmartParser._parse_table_mode_with extract_table after)
  ∧ (∀ detected before container after e,
       extract_general detected container = Raise e →
       concat (SmartParser.general_step (extract_general detected)
                 <$> (before ++ container :: after))
       = concat (SmartParser.general_step (extract_general detected) <$> before)
         ++ concat (SmartParser.general_step (extract_general detected) <$> after)).
Proof.
  split; [done|].
  split; [intros soup selector table_mode H; unfold SmartParser.parse_with; by rewrite H|].
  split.
  { intros soup selector table_mode [containers Hc] Hsel.
    unfold SmartParser.parse_with. rewrite Hc.
    cbn -[SmartParser._parse_table_mode_with SmartParser._parse_general_mode_with
          SmartParser.validate_data SmartParser._is_table_mode].
    destruct containers as [|c containers]; [by eexists|].
    destruct (default false table_mode || _); [by eexists|].
    destruct (parse_general_mode_with_returns select extract_general (c :: containers) Hsel)
      as [data_list ->].
    by eexists. }
  split; [intros soup selector table_mode e H; unfold SmartParser.parse_with; by rewrite H|].
  split.
  - intros before row after e H. unfold SmartParser._parse_table_mode_with.
    rewrite fmap_app, concat_app. simpl. by rewrite (table_step_skip _ _ _ H).
  - intros detected before container after e H.
    rewrite fmap_app, concat_app. simpl. by rewrite (general_step_skip _ _ _ H).
Qed.

Lemma css_select_field_selectors n s :
  s ∈ field_selectors → returns (Samples.css_select n s).
Proof.
  assert (H : forallb (λ s, bool_decide (is_Some (Samples.parse_selector s)))
                      field_selectors = true).
  { vm_compute. reflexivity. }
  intros Hs. rewrite forallb_forall in H.
  apply list_elem_of_In, H, bool_decide_eq_true in Hs as [sel Hsel].
  unfold Samples.css_select. rewrite Hsel. by eexists.
Qed.

(** C10 on the first sample page: the sample engine accepts the selector
    [tr] and the selectors of the field patterns, and [parse] returns. *)
Lemma parse_returns_on_accepted_selectors_witness :
  returns (SmartParser.parse Samples.css_select 100 (Some Samples.page1) "tr" None).
Proof.
  apply (proj1 (proj2 (proj2
           (parse_returns_on_accepted_selectors Samples.css_select
              (λ row, Ok (SmartParser._extract_table_row row))
              (λ detected row,
                 Ok (SmartParser._extract_general_row Samples.css_select row detected))
              100)))
           Samples.page1 "tr" None).
  - eexists. vm_compute. reflexivity.
  - exact css_select_field_selectors.
Defined.

(** C10 as stated fails: on a page, with a container selector that is no
    CSS selector, [parse] raises the syntax error of the selector engine. *)
Lemma parse_raises_counterexample :
  SmartParser.parse Samples.css_select 100 (Some Samples.page1) "[" None
  = Raise SelectorSyntaxError.
Proof. vm_compute. reflexivity. Qed.

(** ** C2: a second run over an unchanged source *)






Section SecondRun.

Variable select : Bs4.node → string → result (list Bs4.node).
Variable urlparse : string → result Urllib.ParseResult.
Variable fetch : string → option Bs4.node.
Variable urljoin : string → string → string.
Variable date_parse : bool → string → result string.
Variable now : string.
Variable normalize_date : pyval → pyval.
Variable sort_by_date : list (gmap string pyval) → list (gmap string pyval).







End SecondRun.


(** C2 on the code.  The detail page of Event X moves its start date
    from the 2024-05-01 of the list to 2024-06-01.  The first run persists
    the record under the new date; the second run over the same pages finds
    no stored row under the key of the list, classifies the record as new
    again, fetches its detail page again and returns the same record
    again, where the claim asks for no new record. *)
Theorem second_run_rewritten_date_new_again :
  Main.run_new_items (Samples.run_site Samples.site_rewriting [Samples.stored_old])
  = [Samples.fresh_event]
  ∧ Main.run_store (Samples.run_site Samples.site_rewriting [Samples.stored_old])
    = [Samples.stored_old; Samples.stored_rewritten]
  ∧ Detector.fresh_key Samples.fresh_event = (PStr "Event X", PStr "2024-05-01")
  ∧ Detector.store_key Samples.stored_rewritten = (PStr "Event X", PStr "2024-06-01")
  ∧ Main.run_new_items
      (Samples.run_site Samples.site_rewriting
         [Samples.stored_old; Samples.stored_rewritten])
    = [Samples.fresh_event]
  ∧ Main.run_result
      (Samples.run_site Samples.site_rewriting
         [Samples.stored_old; Samples.stored_rewritten])
    = [Samples.stored_rewritten]
  ∧ Main.run_store
      (Samples.run_site Samples.site_rewriting
         [Samples.stored_old; Samples.stored_rewritten])
    = [Samples.stored_old; Samples.stored_rewritten].
Proof. repeat split; vm_compute; reflexivity. Qed.

(** ** C5: records without an nid *)

(** Neither extraction mode writes a hash. *)
Lemma extract_table_row_no_hash row r :
  SmartParser._extract_table_row row = Some r → r !! "hash" = None.
Proof.
  unfold SmartParser._extract_table_row.
  destruct (Bs4.find_all _ row) as [|title_cell rest]; [done|].
  repeat (match goal with
          | |- context [match ?x with _ => _ end] => destruct x
          end; try done);
    intros [= <-]; by simplify_map_eq.
Qed.

Lemma general_field_no_hash select container row field :
  field.1 ≠ "hash" → row !! "hash" = None →
  SmartParser.general_field select container row field !! "hash" = None.
Proof.
  destruct field as [field_name selector]. simpl. intros Hname Hrow.
  unfold SmartParser.general_field.
  destruct (String.eqb selector "*"); [by rewrite lookup_insert_ne|].
  destruct (select container selector) as [[|element elements]|e]; try done.
  destruct (String.eqb field_name "link").
  { destruct (Re.search _ _); by rewrite ?lookup_insert_ne. }
  destruct (String.eqb field_name "date").
  { destruct (Re.search _ _); by rewrite ?lookup_insert_ne. }
  by rewrite lookup_insert_ne.
Qed.

Lemma extract_general_row_no_hash select container detected r :
  Forall (λ f, f.1 ≠ "hash") detected →
  SmartParser._extract_general_row select container detected = Some r →
  r !! "hash" = None.
Proof.
  intros Hnames. unfold SmartParser._extract_general_row.
  assert (H0 : ∀ row : gmap string pyval, row !! "hash" = None →
            fold_left (SmartParser.general_field select container) detected row
              !! "hash" = None).
  { induction Hnames as [|f fs Hf _ IH]; intros row Hrow; [done|].
    simpl. by apply IH, general_field_no_hash. }
  specialize (H0 ∅ (lookup_empty _)).
  set (row0 := fold_left _ detected ∅) in *.
  destruct (any_values row0).
  - destruct (truthy _); [|done]. by intros [= <-].
  - destruct (String.eqb _ "").
    + destruct (truthy _); [|done]. by intros [= <-].
    + destruct (truthy _); [|done]. intros [= <-]. by rewrite lookup_insert_ne.
Qed.

Lemma detect_fields_names select sample fps detected :
  SmartParser.detect_fields select sample fps = Ok detected →
  Forall (λ f, f.1 ∈ SmartParser.fp_name <$> fps) detected.
Proof.
  revert detected. induction fps as [|fp fps IH]; intros detected; simpl.
  - intros [= <-]. constructor.
  - destruct (SmartParser.scan_groups select sample _ None _) as [found|e]; [|done].
    cbn -[SmartParser.detect_fields].
    destruct (SmartParser.detect_fields select sample fps) as [others|e]; [|done].
    cbn. intros [= <-].
    assert (Hothers : Forall (λ f, f.1 ∈ SmartParser.fp_name fp
                                         :: (SmartParser.fp_name <$> fps)) others).
    { eapply Forall_impl; [by apply IH|]. intros f Hf. by apply list_elem_of_further. }
    destruct found; [|done]. constructor; [apply list_elem_of_here|done].
Qed.

Lemma auto_detect_fields_names select sample detected :
  SmartParser._auto_detect_fields select sample = Ok detected →
  Forall (λ f, f.1 ≠ "hash") detected.
Proof.
  unfold SmartParser._auto_detect_fields.
  destruct (SmartParser.detect_fields select sample SmartParser.field_patterns)
    as [found|e] eqn:E; [|done].
  apply detect_fields_names in E. cbn. intros [= <-].
  destruct found as [|f fs]; [by repeat constructor|].
  eapply Forall_impl; [exact E|]. intros g Hg Heq. cbn in Hg. rewrite Heq in Hg.
  repeat (apply elem_of_cons in Hg as [Hg|Hg]; [discriminate|]).
  by apply elem_of_nil in Hg.
Qed.

(** No record of an extraction carries a hash. *)
Lemma extracted_no_hash select soup container_selector table_mode data_list :
  extracted select soup container_selector table_mode = Ok data_list →
  Forall (λ r, r !! "hash" = None) data_list.
Proof.
  unfold extracted. destruct soup as [soup|]; [|intros [= <-]; constructor].
  destruct (select soup container_selector) as [containers|e]; [|done].
  cbn -[SmartParser._parse_table_mode SmartParser._parse_general_mode
        SmartParser._is_table_mode].
  destruct (default false table_mode || _).
  - intros [= <-]. apply Forall_forall. intros r Hr.
    apply list_elem_of_In, in_concat in Hr as (rs & Hrs & Hr).
    apply list_elem_of_In, list_elem_of_fmap in Hrs as (row & -> & _).
    unfold SmartParser.table_step in Hr.
    destruct (negb _); [done|].
    destruct (SmartParser._extract_table_row row) as [d|] eqn:E; [|done].
    destruct (any_values d); [|done].
    destruct Hr as [<-|[]]. by eapply extract_table_row_no_hash.
  - unfold SmartParser._parse_general_mode, SmartParser._parse_general_mode_with.
    assert (Hdet : ∀ detected,
              match containers with
              | sample :: _ => SmartParser._auto_detect_fields select sample
              | [] => Ok []
              end = Ok detected → Forall (λ f, f.1 ≠ "hash") detected).
    { intros detected. destruct containers as [|sample rest].
      - intros [= <-]. constructor.
      - apply auto_detect_fields_names. }
    destruct (match containers with
              | sample :: _ => SmartParser._auto_detect_fields select sample
              | [] => Ok []
              end) as [detected|e]; [|done].
    specialize (Hdet detected eq_refl).
    cbn -[concat]. intros [= <-].
    apply Forall_forall. intros r Hr.
    apply list_elem_of_In, in_concat in Hr as (rs & Hrs & Hr).
    apply list_elem_of_In, list_elem_of_fmap in Hrs as (row & -> & _).
    unfold SmartParser.general_step in Hr.
    destruct (SmartParser._extract_general_row select row detected) as [d|] eqn:E; [|done].
    destruct (any_values d); [|done].
    destruct Hr as [<-|[]]. by eapply extract_general_row_no_hash.
Qed.

Lemma parse_no_hash select max_items soup container_selector table_mode out :
  SmartParser.parse select max_items soup container_selector table_mode = Ok out →
  Forall (λ r, r !! "hash" = None) out.
Proof.
  intros H. apply parse_extracted in H as (data_list & Hdata & ->).
  apply extracted_no_hash in Hdata. rewrite Forall_forall in Hdata.
  apply Forall_forall. intros r Hr. apply Hdata.
  eapply elem_of_submseteq; [done|]. apply sublist_submseteq.
  etrans; [apply slice_to_sublist|]. apply List_filter_sublist.
Qed.

(** C5 on the code.  No record [parse] returns carries a hash, so a
    record of [parse] without a non-empty nid is never in the result of the
    deduplication pass, whatever list it goes through; the sample row
    without an nid is extracted with its title and dropped, and of the
    three records of the two sample pages only the one with an nid is
    left. *)
Theorem records_without_nid_dropped :
  (∀ select max_items soup container_selector table_mode out r all_data,
     SmartParser.parse select max_items soup container_selector table_mode = Ok out →
     r ∈ out →
     truthy (get r "nid") = false →
     r ∉ Paginator._deduplicate_data all_data)
  ∧ SmartParser._parse_table_mode [Samples.row_plain] = [Samples.plain_event]
  ∧ Paginator.identifier Samples.plain_event = PNone
  ∧ Paginator._deduplicate_data [Samples.plain_event] = []
  ∧ Paginator.auto_fetch_all_pages Samples.css_select Samples.urlparse_ok
      (Samples.fetch_from Samples.two_pages) 100 Samples.site_url "tr"
      (Some 10) true (Some ∅)
    = Ok [Samples.fresh_event].
Proof.
  split; [|repeat split; vm_compute; reflexivity].
  intros select max_items soup container_selector table_mode out r all_data
         Hparse Hr Hnid Hkept.
  apply parse_no_hash in Hparse. rewrite Forall_forall in Hparse.
  apply dedup_identified in Hkept.
  unfold Paginator.identifier, por in Hkept. rewrite Hnid in Hkept.
  unfold get in Hkept at 1. by rewrite (Hparse r Hr) in Hkept.
Qed.

(** * Further properties of the code *)

(** ** detector.py *)

Lemma blocked_app ex1 ex2 item :
  blocked (ex1 ++ ex2) item = blocked ex1 item || blocked ex2 item.
Proof. unfold blocked. apply existsb_app. Qed.

Lemma List_filter_filter {A} (f g : A → bool) l :
  List.filter g (List.filter f l) = List.filter (λ x, f x && g x) l.
Proof.
  induction l as [|x l IH]; [done|]. simpl.
  destruct (f x); simpl; [destruct (g x)|]; by rewrite ?IH.
Qed.

(** X1.  What the detector returns is a subsequence of the fresh
    records; detecting again against the same persisted set changes
    nothing; detecting against two persisted sets put together is
    detecting against the first and then against the second, so adding
    persisted records never makes a record new. *)
Theorem detect_new_data_composes :
  (∀ new_data existing_data,
     sublist (Detector.detect_new_data new_data existing_data) new_data)
  ∧ (∀ new_data existing_data,
       Detector.detect_new_data
         (Detector.detect_new_data new_data existing_data) existing_data
       = Detector.detect_new_data new_data existing_data)
  ∧ (∀ new_data ex1 ex2,
       Detector.detect_new_data new_data (ex1 ++ ex2)
       = Detector.detect_new_data (Detector.detect_new_data new_data ex1) ex2)
  ∧ (∀ new_data ex1 ex2,
       sublist (Detector.detect_new_data new_data (ex1 ++ ex2))
               (Detector.detect_new_data new_data ex1)).
Proof.
  assert (H3 : ∀ new_data ex1 ex2,
       Detector.detect_new_data new_data (ex1 ++ ex2)
       = Detector.detect_new_data (Detector.detect_new_data new_data ex1) ex2).
  { intros. rewrite !detect_new_data_filter, List_filter_filter.
    apply filter_ext. intros item. by rewrite blocked_app, negb_orb. }
  assert (H1 : ∀ new_data existing_data,
     sublist (Detector.detect_new_data new_data existing_data) new_data).
  { intros. rewrite detect_new_data_filter. apply List_filter_sublist. }
  split; [exact H1|]. split; [|split; [exact H3|]].
  - intros. rewrite !detect_new_data_filter, List_filter_filter.
    apply filter_ext. intros item. by destruct (blocked _ _).
  - intros. rewrite H3. apply H1.
Qed.

Lemma existsb_pointwise {A} (f g : A → bool) l :
  (∀ x, f x = g x) → existsb f l = existsb g l.
Proof. intros H. induction l as [|x l IH]; [done|]. simpl. by rewrite H, IH. Qed.

Lemma hashes_of_hashed ex :
  Forall (λ item : gmap string pyval, is_Some (item !! "hash")) ex →
  Changes.hashes_of ex = Ok (list_to_set (hash_values ex)).
Proof.
  induction 1 as [|item ex [h Hh] _ IH]; [done|].
  simpl. unfold Changes.subscript. rewrite Hh. cbn -[Changes.hashes_of].
  rewrite IH. cbn. unfold get. by rewrite Hh.
Qed.

Lemma hashes_of_raises ex e : Changes.hashes_of ex = Raise e → e = KeyError.
Proof.
  induction ex as [|item ex IH]; [done|].
  simpl. unfold Changes.subscript. destruct (item !! "hash"); [|by intros [= <-]].
  cbn -[Changes.hashes_of]. destruct (Changes.hashes_of ex); [done|].
  cbn. intros [= <-]. by apply IH.
Qed.

Lemma any_unseen_hashed hs new_data :
  Forall (λ item : gmap string pyval, is_Some (item !! "hash")) new_data →
  Changes.any_unseen hs new_data
  = Ok (existsb (λ item, bool_decide (get item "hash" ∉ hs)) new_data).
Proof.
  induction 1 as [|item new_data [h Hh] _ IH]; [done|].
  simpl. unfold Changes.subscript, get. rewrite Hh. cbn -[Changes.any_unseen].
  destruct (bool_decide (h ∉ hs)); [done|]. exact IH.
Qed.

(** X2.  When every record carries a hash, the quick check returns
    whether some new record has a hash that no existing record has.  The
    new records are read in order and only up to the first such record:
    what follows it is not looked at, not even for a missing hash. *)
Theorem has_new_data_unseen_hash new_data existing_data :
  Forall (λ item : gmap string pyval, is_Some (item !! "hash")) existing_data →
  Forall (λ item : gmap string pyval, is_Some (item !! "hash")) new_data →
  Changes.has_new_data new_data existing_data
  = Ok (existsb (λ item, bool_decide (get item "hash" ∉ hash_values existing_data))
                new_data)
  ∧ ∀ item rest,
      is_Some (item !! "hash") →
      get item "hash" ∉ hash_values existing_data →
      Changes.has_new_data (new_data ++ item :: rest) existing_data = Ok true.
Proof.
  intros Hex Hnew. unfold Changes.has_new_data.
  rewrite (hashes_of_hashed _ Hex). cbn -[Changes.any_unseen]. split.
  - rewrite (any_unseen_hashed _ _ Hnew). f_equal. apply existsb_pointwise.
    intros item. apply bool_decide_ext. by rewrite elem_of_list_to_set.
  - intros item rest [h Hh] Hunseen.
    induction Hnew as [|x new_data [hx Hx] _ IH].
    + simpl. unfold Changes.subscript. rewrite Hh. cbn -[Changes.any_unseen].
      rewrite bool_decide_eq_true_2; [done|].
      rewrite elem_of_list_to_set. unfold get in Hunseen. by rewrite Hh in Hunseen.
    + simpl. unfold Changes.subscript. rewrite Hx. cbn -[Changes.any_unseen].
      destruct (bool_decide _); [done|]. exact IH.
Qed.

(** X2 on the two sample records that share the hash H: against a store
    that holds the first, the second is nothing new, and a record with
    another hash is, whatever follows it. *)
Lemma has_new_data_unseen_hash_witness :
  Changes.has_new_data [Samples.rec_b] [Samples.rec_a]
  = Ok (existsb (λ item, bool_decide (get item "hash" ∉ hash_values [Samples.rec_a]))
                [Samples.rec_b])
  ∧ ∀ item rest,
      is_Some (item !! "hash") →
      get item "hash" ∉ hash_values [Samples.rec_a] →
      Changes.has_new_data ([Samples.rec_b] ++ item :: rest) [Samples.rec_a] = Ok true.
Proof.
  apply (has_new_data_unseen_hash [Samples.rec_b] [Samples.rec_a]).
  - repeat constructor. by eexists.
  - repeat constructor. by eexists.
Defined.

(** X3.  The records [parse] returns carry no hash, so the quick check
    raises [KeyError] as soon as a non-empty output of [parse] is one of its
    two arguments. *)
Theorem has_new_data_on_parsed select max_items soup container_selector table_mode out :
  SmartParser.parse select max_items soup container_selector table_mode = Ok out →
  out ≠ [] →
  (∀ existing_data, Changes.has_new_data out existing_data = Raise KeyError)
  ∧ (∀ new_data, Changes.has_new_data new_data out = Raise KeyError).
Proof.
  intros Hparse Hne. apply parse_no_hash in Hparse.
  destruct out as [|item out]; [done|].
  apply Forall_cons in Hparse as [Hitem _].
  split.
  - intros existing_data. unfold Changes.has_new_data.
    destruct (Changes.hashes_of existing_data) as [hs|e] eqn:E.
    + cbn. unfold Changes.subscript. by rewrite Hitem.
    + apply hashes_of_raises in E as ->. done.
  - intros new_data. unfold Changes.has_new_data. simpl.
    unfold Changes.subscript. by rewrite Hitem.
Qed.

(** X3 on the records of the first sample page. *)
Lemma has_new_data_on_parsed_witness :
  (∀ existing_data,
     Changes.has_new_data [Samples.fresh_event; Samples.plain_event] existing_data
     = Raise KeyError)
  ∧ (∀ new_data,
       Changes.has_new_data new_data [Samples.fresh_event; Samples.plain_event]
       = Raise KeyError).
Proof.
  apply (has_new_data_on_parsed Samples.css_select 100 (Some Samples.page1) "tr" None).
  - vm_compute. reflexivity.
  - discriminate.
Defined.

Lemma total_count_insert_new (m : gmap pyval Z) k v :
  m !! k = None → total_count (<[k := v]> m) = v + total_count m.
Proof.
  intros H. unfold total_count.
  apply (map_fold_insert_L (λ _ v acc, v + acc)); [|done]. intros. lia.
Qed.

Lemma total_count_insert (m : gmap pyval Z) k v :
  total_count (<[k := v]> m) = total_count m - default 0 (m !! k) + v.
Proof.
  destruct (m !! k) as [old|] eqn:E; simpl.
  - rewrite <- (insert_delete_eq m k v).
    rewrite total_count_insert_new by apply lookup_delete_eq.
    rewrite <- (insert_delete_id m k old) at 2 by done.
    rewrite total_count_insert_new by apply lookup_delete_eq. lia.
  - rewrite total_count_insert_new by done. lia.
Qed.

Lemma count_types_snoc l item :
  Changes.count_types (l ++ [item])
  = <[get_or item "source" (PStr "unknown")
      := default 0 (Changes.count_types l !! get_or item "source" (PStr "unknown")) + 1]>
      (Changes.count_types l).
Proof. unfold Changes.count_types. by rewrite fold_left_app. Qed.

Lemma count_types_total l : total_count (Changes.count_types l) = Z.of_nat (length l).
Proof.
  induction l as [|x l IH] using rev_ind; [done|].
  rewrite count_types_snoc, total_count_insert, IH, length_app. simpl. lia.
Qed.

Lemma count_types_lookup l k :
  Changes.count_types l !! k
  = match from_source k l with
    | O => None
    | n => Some (Z.of_nat n)
    end.
Proof.
  induction l as [|x l IH] using rev_ind; [done|].
  rewrite count_types_snoc. unfold from_source in *.
  rewrite List.filter_app, length_app. simpl.
  destruct (decide (get_or x "source" (PStr "unknown") = k)) as [->|Hne].
  - rewrite lookup_insert_eq, IH, bool_decide_eq_true_2 by done. simpl.
    destruct (length _) as [|n]; simpl; f_equal; lia.
  - rewrite lookup_insert_ne, IH, bool_decide_eq_false_2 by done. simpl.
    by rewrite Nat.add_0_r.
Qed.

Lemma ascii_compare_lt_trans a b c :
  Ascii.compare a b = Lt → Ascii.compare b c = Lt → Ascii.compare a c = Lt.
Proof.
  unfold Ascii.compare. rewrite !N.compare_lt_iff. lia.
Qed.

Lemma ascii_compare_refl x : Ascii.compare x x = Eq.
Proof. unfold Ascii.compare. apply N.compare_refl. Qed.

Lemma string_compare_lt_trans a b c :
  String.compare a b = Lt → String.compare b c = Lt → String.compare a c = Lt.
Proof.
  revert b c. induction a as [|x a IH]; intros [|y b] [|z c]; simpl; try done.
  destruct (Ascii.compare x y) eqn:Exy; try done;
    destruct (Ascii.compare y z) eqn:Eyz; try done.
  - apply Ascii.compare_eq_iff in Exy as ->. apply Ascii.compare_eq_iff in Eyz as ->.
    rewrite ascii_compare_refl. apply IH.
  - apply Ascii.compare_eq_iff in Exy as ->. by rewrite Eyz.
  - apply Ascii.compare_eq_iff in Eyz as <-. by rewrite Exy.
  - by rewrite (ascii_compare_lt_trans _ _ _ Exy Eyz).
Qed.

Lemma string_compare_refl a : String.compare a a = Eq.
Proof. induction a as [|x a IH]; [done|]. simpl. by rewrite ascii_compare_refl. Qed.

Lemma py_lt_trans a b c :
  Changes.py_lt a b = Ok true → Changes.py_lt b c = Ok true → Changes.py_lt a c = Ok true.
Proof.
  destruct a as [|x|x], b as [|y|y], c as [|z|z]; simpl; try done.
  - unfold String.ltb. intros [= H1] [= H2]. f_equal.
    destruct (String.compare x y) eqn:E1; try done.
    destruct (String.compare y z) eqn:E2; try done.
    by rewrite (string_compare_lt_trans _ _ _ E1 E2).
  - intros [= H1] [= H2]. f_equal. lia.
Qed.

Lemma py_lt_irrefl a : Changes.py_lt a a ≠ Ok true.
Proof.
  destruct a as [|x|x]; simpl; try done.
  - unfold String.ltb. by rewrite string_compare_refl.
  - rewrite Z.ltb_irrefl. done.
Qed.

(** The best time of a loop is the start or a check time of the list, and
    nothing seen is better than it. *)
Lemma best_time_best (better : pyval → pyval → result bool) best items r :
  (∀ a, better a a ≠ Ok true) →
  (∀ a b c, better a b = Ok true → better b c = Ok true → better a c = Ok true) →
  Changes.best_time better best items = Ok r →
  (r = best ∨ r ∈ check_times items)
  ∧ length (check_times items) = length items
  ∧ (∀ t, better t best ≠ Ok true → better t r ≠ Ok true)
  ∧ Forall (λ t, better t r ≠ Ok true) (check_times items).
Proof.
  intros Hirr Htrans. revert best.
  induction items as [|item items IH]; intros best; simpl.
  - intros [= <-]. repeat split; [by left|done|constructor].
  - unfold Changes.subscript, check_times. simpl.
    destruct (item !! "check_time") as [t|] eqn:Et; [|done].
    cbn -[Changes.best_time].
    destruct (better t best) as [b|e] eqn:Eb; [|done].
    cbn -[Changes.best_time]. intros Hr.
    destruct (IH _ Hr) as (Hin & Hlen & Hkeep & Hall).
    fold (check_times items) in *.
    assert (Hstep : ∀ u, better u best ≠ Ok true →
                         better u (if b then t else best) ≠ Ok true).
    { intros u Hu. destruct b; [|done]. intros Hut. apply Hu.
      by apply (Htrans u t best). }
    assert (Ht : better t (if b then t else best) ≠ Ok true).
    { destruct b; [apply Hirr|]. by rewrite Eb. }
    split; [|split; [|split]].
    + destruct Hin as [->|Hin].
      * destruct b; [right; apply list_elem_of_here|by left].
      * right. by apply list_elem_of_further.
    + simpl. by rewrite Hlen.
    + intros u Hu. by apply Hkeep, Hstep.
    + constructor; [by apply Hkeep|done].
Qed.

Lemma extreme_time_best (better : pyval → pyval → result bool) items r :
  (∀ a, better a a ≠ Ok true) →
  (∀ a b c, better a b = Ok true → better b c = Ok true → better a c = Ok true) →
  Changes.extreme_time better items = Ok r →
  r ∈ check_times items
  ∧ length (check_times items) = length items
  ∧ Forall (λ t, better t r ≠ Ok true) (check_times items).
Proof.
  intros Hirr Htrans. destruct items as [|item items]; [done|].
  simpl. unfold Changes.subscript, check_times. simpl.
  destruct (item !! "check_time") as [t|] eqn:Et; [|done].
  cbn -[Changes.best_time]. intros Hr.
  destruct (best_time_best better t items r Hirr Htrans Hr) as (Hin & Hlen & Hkeep & Hall).
  fold (check_times items) in *.
  split; [|split].
  - destruct Hin as [->|Hin]; [apply list_elem_of_here|by apply list_elem_of_further].
  - simpl. by rewrite Hlen.
  - constructor; [apply Hkeep, Hirr|done].
Qed.

(** X4.  When the summary of a non-empty list of records is returned,
    its count is the number of records, the table of sources gives each
    source the number of its records (a record without a source counts as
    unknown) and nothing for a source without records, the counts of the
    table add up to the count, every record has a check time, and the
    first and the latest check time are check times of the list that no
    check time is earlier than, or later than. *)
Theorem get_changes_summary_counts new_items s :
  new_items ≠ [] →
  Changes.get_changes_summary new_items = Ok s →
  Changes.count s = Z.of_nat (length new_items)
  ∧ (∀ k, Changes.types s !! k = match from_source k new_items with
                                  | O => None
                                  | n => Some (Z.of_nat n)
                                  end)
  ∧ total_count (Changes.types s) = Changes.count s
  ∧ length (check_times new_items) = length new_items
  ∧ ∃ first latest,
      Changes.first_check_time s = Some first
      ∧ Changes.latest_check_time s = Some latest
      ∧ first ∈ check_times new_items
      ∧ latest ∈ check_times new_items
      ∧ Forall (λ t, Changes.py_lt t first ≠ Ok true
                     ∧ Changes.py_lt latest t ≠ Ok true)
               (check_times new_items).
Proof.
  intros Hne. unfold Changes.get_changes_summary.
  destruct new_items as [|x l]; [done|]. set (items := x :: l) in *.
  destruct (Changes.extreme_time Changes.py_lt items) as [first|e] eqn:E1; [|done].
  cbn -[Changes.extreme_time items].
  destruct (Changes.extreme_time (λ a b, Changes.py_lt b a) items) as [latest|e] eqn:E2;
    [|done].
  cbn -[items]. intros [= <-]. simpl.
  apply extreme_time_best in E1 as (Hf & Hlen & Hfall);
    [|apply py_lt_irrefl|apply py_lt_trans].
  apply extreme_time_best in E2 as (Hl & _ & Hlall);
    [|intros a; apply py_lt_irrefl|intros a b c H1 H2; by apply (py_lt_trans c b a)].
  split; [done|]. split; [apply count_types_lookup|].
  split; [apply count_types_total|]. split; [done|].
  exists first, latest. repeat split; try done.
  rewrite Forall_forall in Hfall, Hlall |- *. intros t Ht. split; auto.
Qed.

(** X4 on three changes, two of them from one source. *)
Lemma get_changes_summary_counts_witness :
  Changes.count MoreSamples.changes_summary = Z.of_nat 3
  ∧ (∀ k, Changes.types MoreSamples.changes_summary !! k
          = match from_source k
                    [MoreSamples.change1; MoreSamples.change2; MoreSamples.change3] with
            | O => None
            | n => Some (Z.of_nat n)
            end)
  ∧ total_count (Changes.types MoreSamples.changes_summary)
    = Changes.count MoreSamples.changes_summary
  ∧ length (check_times [MoreSamples.change1; MoreSamples.change2; MoreSamples.change3])
    = 3%nat
  ∧ ∃ first latest,
      Changes.first_check_time MoreSamples.changes_summary = Some first
      ∧ Changes.latest_check_time MoreSamples.changes_summary = Some latest
      ∧ first ∈ check_times [MoreSamples.change1; MoreSamples.change2; MoreSamples.change3]
      ∧ latest ∈ check_times [MoreSamples.change1; MoreSamples.change2; MoreSamples.change3]
      ∧ Forall (λ t, Changes.py_lt t first ≠ Ok true
                     ∧ Changes.py_lt latest t ≠ Ok true)
               (check_times [MoreSamples.change1; MoreSamples.change2; MoreSamples.change3]).
Proof.
  apply (get_changes_summary_counts
           [MoreSamples.change1; MoreSamples.change2; MoreSamples.change3]
           MoreSamples.changes_summary).
  - discriminate.
  - vm_compute. reflexivity.
Defined.

(** ** paginator.py *)

Lemma identifier_cases item :
  Paginator.identifier item = get item "nid" ∨ Paginator.identifier item = get item "hash".
Proof. unfold Paginator.identifier, por. destruct (truthy _); auto. Qed.

Lemma keeps_new_identifier kept item :
  keeps kept item = true → Paginator.identifier item ∉ Paginator.identifier <$> kept.
Proof.
  unfold keeps. intros H. apply andb_true_iff in H as [_ H].
  rewrite forallb_forall in H. intros Hin.
  apply list_elem_of_fmap in Hin as (k & Hk & Hin).
  apply list_elem_of_In, H, andb_true_iff in Hin as [H1 H2].
  apply negb_true_iff, bool_decide_eq_false in H1, H2.
  destruct (identifier_cases k); congruence.
Qed.

Lemma dedup_NoDup_identifier l :
  NoDup (Paginator.identifier <$> Paginator._deduplicate_data l).
Proof.
  induction l as [|x l IH] using rev_ind; [constructor|].
  rewrite dedup_snoc. destruct (keeps _ x) eqn:E; [|by rewrite app_nil_r].
  rewrite fmap_app. apply NoDup_app. split; [done|]. split.
  - intros i Hi Hx. simpl in Hx. apply list_elem_of_singleton in Hx as ->.
    by apply keeps_new_identifier in E.
  - simpl. apply NoDup_singleton.
Qed.

(** X5.  The deduplication pass leaves its own result unchanged, the
    identifiers of the records it keeps are pairwise distinct, and it
    never returns more records than it was given. *)
Theorem deduplicate_idempotent :
  (∀ l, Paginator._deduplicate_data (Paginator._deduplicate_data l)
        = Paginator._deduplicate_data l)
  ∧ (∀ l, NoDup (Paginator.identifier <$> Paginator._deduplicate_data l))
  ∧ (∀ l, (length (Paginator._deduplicate_data l) ≤ length l)%nat).
Proof.
  split; [|split].
  - induction l as [|x l IH] using rev_ind; [done|].
    rewrite dedup_snoc. destruct (keeps _ x) eqn:E.
    + by rewrite dedup_snoc, IH, E.
    + by rewrite app_nil_r.
  - apply dedup_NoDup_identifier.
  - intros l. apply sublist_length, dedup_sublist.
Qed.

(** *** The query strings of the page addresses *)




















(** *** The page loop *)

Lemma fetch_pages_from select fetch max_items container_selector table_mode
    page_urls all_data out :
  Paginator.fetch_pages select fetch max_items container_selector table_mode
    page_urls all_data = Ok out →
  ∀ r, r ∈ out →
    r ∈ all_data
    ∨ ∃ url page data,
        url ∈ page_urls ∧ fetch url = Some page
        ∧ SmartParser.parse select max_items (Some page) container_selector
            (Some table_mode) = Ok data
        ∧ r ∈ data.
Proof.
  revert all_data. induction page_urls as [|url rest IH]; intros all_data;
    cbn [Paginator.fetch_pages].
  - intros [= <-] r Hr. by left.
  - destruct (fetch url) as [page|] eqn:Hf.
    + destruct (SmartParser.parse select max_items (Some page) container_selector
                  (Some table_mode)) as [data|e] eqn:Hp;
        [|intros H; cbn in H; discriminate].
      cbn -[Paginator.fetch_pages]. intros H r Hr.
      destruct (IH _ H r Hr) as [Hin|(u & pg & d & Hu & Hfu & Hpu & Hrd)].
      * apply elem_of_app in Hin as [Hin|Hin]; [by left|].
        right. exists url, page, data. split; [apply list_elem_of_here|done].
      * right. exists u, pg, d. split; [by apply list_elem_of_further|done].
    + intros H r Hr.
      destruct (IH _ H r Hr) as [Hin|(u & pg & d & Hu & Hfu & Hpu & Hrd)]; [by left|].
      right. exists u, pg, d. split; [by apply list_elem_of_further|done].
Qed.

Lemma identifier_no_hash r :
  r !! "hash" = None → truthy (Paginator.identifier r) = true →
  truthy (get r "nid") = true ∧ Paginator.identifier r = get r "nid".
Proof.
  intros Hh. unfold Paginator.identifier, por.
  destruct (truthy (get r "nid")) eqn:E; [done|].
  unfold get at 1. by rewrite Hh.
Qed.

(** X8.  What [auto_fetch_all_pages] returns is either the output of
    [parse] on the first page as it is, or a list in which every record
    was parsed from a page the crawler returned, has a non-empty nid and no
    hash, and no two records have the same nid. *)
Theorem auto_fetch_all_pages_result select urlparse fetch max_items base_url
    container_selector max_pages table_mode pagination_config out :
  Paginator.auto_fetch_all_pages select urlparse fetch max_items base_url
    container_selector max_pages table_mode pagination_config = Ok out →
  (∃ first_page_soup,
     fetch base_url = Some first_page_soup
     ∧ SmartParser.parse select max_items (Some first_page_soup) container_selector
         (Some table_mode) = Ok out)
  ∨ (Forall (λ r, truthy (get r "nid") = true
                  ∧ r !! "hash" = None
                  ∧ ∃ url page data,
                      fetch url = Some page
                      ∧ SmartParser.parse select max_items (Some page)
                          container_selector (Some table_mode) = Ok data
                      ∧ r ∈ data) out
     ∧ NoDup ((λ r, get r "nid") <$> out)).
Proof.
  unfold Paginator.auto_fetch_all_pages.
  destruct (fetch base_url) as [first_page_soup|] eqn:Hfirst.
  2:{ intros [= <-]. right. split; constructor. }
  destruct (SmartParser.detect_pagination select first_page_soup None) as [info|e];
    [|done].
  cbn -[Paginator._generate_page_urls Paginator.fetch_pages SmartParser.parse].
  destruct (Paginator.int_of (get info "total_pages")) as [detected|e]; [|done].
  cbn -[Paginator._generate_page_urls Paginator.fetch_pages SmartParser.parse].
  destruct (Z.min detected _ =? 1).
  { intros H. left. eauto. }
  destruct (Paginator._generate_page_urls urlparse base_url _ info pagination_config)
    as [page_urls|e]; [|done].
  cbn -[Paginator.fetch_pages SmartParser.parse].
  destruct (Paginator.fetch_pages select fetch max_items container_selector table_mode
              page_urls []) as [all_data|e] eqn:Hall; [|done].
  cbn. intros [= <-]. right.
  assert (Hout : ∀ r, r ∈ Paginator._deduplicate_data all_data →
                      truthy (get r "nid") = true
                      ∧ Paginator.identifier r = get r "nid"
                      ∧ r !! "hash" = None
                      ∧ ∃ url page data,
                          fetch url = Some page
                          ∧ SmartParser.parse select max_items (Some page)
                              container_selector (Some table_mode) = Ok data
                          ∧ r ∈ data).
  { intros r Hr. pose proof (dedup_identified _ _ Hr) as Hid.
    assert (Hin : r ∈ all_data).
    { eapply elem_of_submseteq; [exact Hr|]. apply sublist_submseteq, dedup_sublist. }
    destruct (fetch_pages_from _ _ _ _ _ _ _ _ Hall r Hin)
      as [Hnil|(url & page & data & _ & Hf & Hp & Hrd)];
      [by apply elem_of_nil in Hnil|].
    pose proof (parse_no_hash _ _ _ _ _ _ Hp) as Hnh.
    rewrite Forall_forall in Hnh. specialize (Hnh r Hrd).
    destruct (identifier_no_hash r Hnh Hid) as [Ht Hi].
    split; [done|]. split; [done|]. split; [done|]. by exists url, page, data. }
  split.
  - apply Forall_forall. intros r Hr. destruct (Hout r Hr) as (? & _ & ? & ?). done.
  - rewrite <- (list_fmap_ext Paginator.identifier (λ r, get r "nid")
                  (Paginator._deduplicate_data all_data)).
    + apply dedup_NoDup_identifier.
    + intros i r Hr. apply list_elem_of_lookup_2 in Hr.
      by destruct (Hout r Hr) as (_ & ? & _).
Qed.

(** X8 on the two sample pages: of their three records the one with an
    nid is returned. *)
Lemma auto_fetch_all_pages_result_witness :
  (∃ first_page_soup,
     Samples.fetch_from Samples.two_pages Samples.site_url = Some first_page_soup
     ∧ SmartParser.parse Samples.css_select 100 (Some first_page_soup) "tr" (Some true)
       = Ok [Samples.fresh_event])
  ∨ (Forall (λ r, truthy (get r "nid") = true
                  ∧ r !! "hash" = None
                  ∧ ∃ url page data,
                      Samples.fetch_from Samples.two_pages url = Some page
                      ∧ SmartParser.parse Samples.css_select 100 (Some page) "tr"
                          (Some true) = Ok data
                      ∧ r ∈ data) [Samples.fresh_event]
     ∧ NoDup ((λ r, get r "nid") <$> [Samples.fresh_event])).
Proof.
  apply (auto_fetch_all_pages_result Samples.css_select Samples.urlparse_ok
           (Samples.fetch_from Samples.two_pages) 100 Samples.site_url "tr"
           (Some 10) true (Some ∅)).
  vm_compute. reflexivity.
Defined.

(** ** smart_parser.py: the records of [parse] *)

Lemma extract_table_row_keys row r :
  SmartParser._extract_table_row row = Some r → dom r ⊆ record_keys.
Proof.
  unfold SmartParser._extract_table_row, record_keys.
  destruct (Bs4.find_all _ row) as [|title_cell rest]; [done|].
  repeat (match goal with
          | |- context [match ?x with _ => _ end] => destruct x
          end; try done);
    intros [= <-]; rewrite ?dom_insert_L, ?dom_empty_L; set_solver.
Qed.

Lemma general_field_keys select container row field :
  field.1 ∈ ["title"; "link"; "date"] → dom row ⊆ record_keys →
  dom (SmartParser.general_field select container row field) ⊆ record_keys.
Proof.
  destruct field as [field_name selector]. simpl. intros Hname Hrow.
  assert (Hn : field_name ∈ record_keys).
  { unfold record_keys.
    repeat (apply elem_of_cons in Hname as [->|Hname]; [set_solver|]).
    by apply elem_of_nil in Hname. }
  assert (Hnid : "nid" ∈ record_keys) by (unfold record_keys; set_solver).
  unfold SmartParser.general_field.
  destruct (String.eqb selector "*"); [rewrite dom_insert_L; set_solver|].
  destruct (select container selector) as [[|element elements]|e]; try done.
  destruct (String.eqb field_name "link").
  { destruct (Re.search _ _); rewrite ?dom_insert_L; set_solver. }
  destruct (String.eqb field_name "date").
  { destruct (Re.search _ _); rewrite ?dom_insert_L; set_solver. }
  rewrite dom_insert_L. set_solver.
Qed.

Lemma extract_general_row_keys select container detected r :
  Forall (λ f, f.1 ∈ ["title"; "link"; "date"]) detected →
  SmartParser._extract_general_row select container detected = Some r →
  dom r ⊆ record_keys.
Proof.
  intros Hnames. unfold SmartParser._extract_general_row.
  assert (H0 : ∀ row : gmap string pyval, dom row ⊆ record_keys →
            dom (fold_left (SmartParser.general_field select container) detected row)
            ⊆ record_keys).
  { induction Hnames as [|f fs Hf _ IH]; intros row Hrow; [done|].
    simpl. by apply IH, general_field_keys. }
  assert (He : dom (∅ : gmap string pyval) ⊆ record_keys) by (rewrite dom_empty_L; set_solver).
  specialize (H0 ∅ He).
  set (row0 := fold_left _ detected ∅) in *.
  destruct (any_values row0).
  - destruct (truthy _); [|done]. by intros [= <-].
  - destruct (String.eqb _ "").
    + destruct (truthy _); [|done]. by intros [= <-].
    + destruct (truthy _); [|done]. intros [= <-]. rewrite dom_insert_L.
      unfold record_keys in *. set_solver.
Qed.

Lemma auto_detect_fields_field_names select sample detected :
  SmartParser._auto_detect_fields select sample = Ok detected →
  Forall (λ f, f.1 ∈ ["title"; "link"; "date"]) detected.
Proof.
  unfold SmartParser._auto_detect_fields.
  destruct (SmartParser.detect_fields select sample SmartParser.field_patterns)
    as [found|e] eqn:E; [|done].
  apply detect_fields_names in E. cbn. intros [= <-].
  destruct found as [|f fs]; [|exact E].
  repeat constructor.
Qed.

Lemma table_step_length extract row :
  (length (SmartParser.table_step extract row) ≤ 1)%nat.
Proof.
  unfold SmartParser.table_step. destruct (negb _); [simpl; lia|].
  destruct (extract row) as [[d|]|e]; simpl; try lia.
  destruct (any_values d); simpl; lia.
Qed.

Lemma general_step_length extract row :
  (length (SmartParser.general_step extract row) ≤ 1)%nat.
Proof.
  unfold SmartParser.general_step.
  destruct (extract row) as [[d|]|e]; simpl; try lia.
  destruct (any_values d); simpl; lia.
Qed.

Lemma concat_steps_length {A B} (f : A → list B) l :
  (∀ x, (length (f x) ≤ 1)%nat) → (length (concat (f <$> l)) ≤ length l)%nat.
Proof.
  intros Hf. induction l as [|x l IH]; [done|].
  rewrite fmap_cons. cbn [concat]. rewrite length_app. cbn [length].
  specialize (Hf x). lia.
Qed.

Lemma extracted_shape select page container_selector table_mode containers data_list :
  select page container_selector = Ok containers →
  extracted select (Some page) container_selector table_mode = Ok data_list →
  Forall (λ r, dom r ⊆ record_keys) data_list
  ∧ (length data_list ≤ length containers)%nat
  ∧ ((default false table_mode || SmartParser._is_table_mode container_selector) = true →
     Forall (λ c, Bs4.named "tr" c = false) containers → data_list = []).
Proof.
  intros Hsel. unfold extracted. rewrite Hsel.
  cbn -[SmartParser._parse_table_mode SmartParser._parse_general_mode
        SmartParser._is_table_mode].
  destruct (default false table_mode || _).
  - intros [= <-]. split; [|split].
    + apply Forall_forall. intros r Hr.
      apply list_elem_of_In, in_concat in Hr as (rs & Hrs & Hr).
      apply list_elem_of_In, list_elem_of_fmap in Hrs as (row & -> & _).
      unfold SmartParser.table_step in Hr.
      destruct (negb _); [done|].
      destruct (SmartParser._extract_table_row row) as [d|] eqn:E; [|done].
      destruct (any_values d); [|done].
      destruct Hr as [<-|[]]. by eapply extract_table_row_keys.
    + apply concat_steps_length, table_step_length.
    + intros _ Hall. unfold SmartParser._parse_table_mode,
        SmartParser._parse_table_mode_with.
      clear Hsel. induction Hall as [|c cs Hc _ IH]; [done|].
      rewrite fmap_cons. cbn [concat]. unfold SmartParser.table_step at 1.
      rewrite Hc. exact IH.
  - unfold SmartParser._parse_general_mode, SmartParser._parse_general_mode_with.
    assert (Hdet : ∀ detected,
              match containers with
              | sample :: _ => SmartParser._auto_detect_fields select sample
              | [] => Ok []
              end = Ok detected →
              Forall (λ f, f.1 ∈ ["title"; "link"; "date"]) detected).
    { intros detected. destruct containers as [|sample rest].
      - intros [= <-]. constructor.
      - apply auto_detect_fields_field_names. }
    destruct (match containers with
              | sample :: _ => SmartParser._auto_detect_fields select sample
              | [] => Ok []
              end) as [detected|e]; [|done].
    specialize (Hdet detected eq_refl).
    cbn -[concat]. intros [= <-]. split; [|split].
    + apply Forall_forall. intros r Hr.
      apply list_elem_of_In, in_concat in Hr as (rs & Hrs & Hr).
      apply list_elem_of_In, list_elem_of_fmap in Hrs as (row & -> & _).
      unfold SmartParser.general_step in Hr.
      destruct (SmartParser._extract_general_row select row detected) as [d|] eqn:E;
        [|done].
      destruct (any_values d); [|done].
      destruct Hr as [<-|[]]. by eapply extract_general_row_keys.
    + apply concat_steps_length, general_step_length.
    + done.
Qed.

(** X9.  Of a page on which the container selector finds [containers],
    [parse] returns at most one record per container; every record has no
    key beyond title, link, date and nid; and in table mode, which the
    selector text alone can switch on, containers that are not [tr]
    elements give no record at all. *)
Theorem parse_record_shape select max_items page container_selector table_mode
    containers out :
  select page container_selector = Ok containers →
  SmartParser.parse select max_items (Some page) container_selector table_mode = Ok out →
  Forall (λ r, dom r ⊆ record_keys) out
  ∧ (length out ≤ length containers)%nat
  ∧ ((default false table_mode || SmartParser._is_table_mode container_selector) = true →
     Forall (λ c, Bs4.named "tr" c = false) containers → out = []).
Proof.
  intros Hsel H. apply parse_extracted in H as (data_list & Hdata & ->).
  destruct (extracted_shape _ _ _ _ _ _ Hsel Hdata) as (Hkeys & Hlen & Htr).
  assert (Hsub : sublist (SmartParser.slice_to max_items
                            (SmartParser.validate_data data_list)) data_list).
  { etrans; [apply slice_to_sublist|]. apply List_filter_sublist. }
  split; [|split].
  - rewrite Forall_forall in Hkeys. apply Forall_forall. intros r Hr. apply Hkeys.
    eapply elem_of_submseteq; [done|]. by apply sublist_submseteq.
  - apply sublist_length in Hsub. lia.
  - intros Hmode Hall. rewrite (Htr Hmode Hall) in Hsub |- *.
    by apply sublist_nil_r.
Qed.

(** X9 on the first sample page, whose [tr] containers give two records,
    and whose [td] containers, still in table mode, give none. *)
Lemma parse_record_shape_witness :
  (Forall (λ r, dom r ⊆ record_keys) [Samples.fresh_event; Samples.plain_event]
   ∧ (length [Samples.fresh_event; Samples.plain_event] ≤ 2)%nat
   ∧ ((default false None || SmartParser._is_table_mode "tr") = true →
      Forall (λ c, Bs4.named "tr" c = false) [Samples.row_event; Samples.row_plain] →
      [Samples.fresh_event; Samples.plain_event] = []))
  ∧ SmartParser.parse Samples.css_select 100 (Some Samples.page1) "td" None = Ok [].
Proof.
  split.
  - apply (parse_record_shape Samples.css_select 100 Samples.page1 "tr" None
             [Samples.row_event; Samples.row_plain]).
    + vm_compute. reflexivity.
    + vm_compute. reflexivity.
  - vm_compute. reflexivity.
Defined.

(** ** smart_parser.py: what pagination detection reports *)

Lemma find_pagination_found select soup selectors s n :
  SmartParser.find_pagination select soup selectors = Ok (Some (s, n)) →
  s ∈ selectors ∧ SmartParser.select_one select soup s = Ok (Some n).
Proof.
  induction selectors as [|x selectors IH]; simpl; [done|].
  destruct (SmartParser.select_one select soup x) as [[p|]|e] eqn:E;
    cbn -[SmartParser.find_pagination]; [| |done].
  - intros [= <- <-]. split; [apply list_elem_of_here|done].
  - intros H. destruct (IH H) as [Hin Hs]. split; [by apply list_elem_of_further|done].
Qed.

(** X10.  Whenever pagination detection returns, its result has exactly
    the keys total_pages, current_page, page_pattern, base_url and
    pagination_selector; the page pattern is pg={page} whatever the
    page looks like, and there is no page_param, so that reading it with
    the default pg gives pg; the base address is the one [_get_base_url]
    finds, or [None] when that is empty; and the pagination selector is
    [None] or one of the selectors tried, one that selects something on
    the page. *)
Theorem detect_pagination_shape select soup common_selectors info :
  SmartParser.detect_pagination select soup common_selectors = Ok info →
  dom info = {[ "total_pages"; "current_page"; "page_pattern"; "base_url";
                "pagination_selector" ]}
  ∧ info !! "page_pattern" = Some (PStr "pg={page}")
  ∧ get_or info "page_param" (PStr "pg") = PStr "pg"
  ∧ info !! "base_url"
    = Some (if String.eqb (SmartParser._get_base_url soup) "" then PNone
            else PStr (SmartParser._get_base_url soup))
  ∧ (info !! "pagination_selector" = Some PNone
     ∨ ∃ s n,
         s ∈ default SmartParser.common_selectors_default common_selectors
         ∧ SmartParser.select_one select soup s = Ok (Some n)
         ∧ info !! "pagination_selector" = Some (PStr s)).
Proof.
  unfold SmartParser.detect_pagination.
  destruct (SmartParser.find_pagination select soup _) as [found|e] eqn:Hfound; [|done].
  simpl.
  set (total := SmartParser._extract_total_pages_from_pagination soup (snd <$> found)).
  destruct (SmartParser._extract_current_page select soup) as [current|e]; [|done].
  simpl. intros [= <-].
  assert (Hsel : found = None
                 ∨ ∃ s n, found = Some (s, n)
                          ∧ s ∈ default SmartParser.common_selectors_default
                                  common_selectors
                          ∧ SmartParser.select_one select soup s = Ok (Some n)).
  { destruct found as [[s n]|]; [|by left]. right. exists s, n.
    apply find_pagination_found in Hfound. by destruct Hfound. }
  clear Hfound.
  split; [|split; [|split; [|split]]].
  - destruct (negb (String.eqb (SmartParser._get_base_url soup) ""));
      destruct (negb (current =? 0)); destruct (1 <? total); destruct found as [[? ?]|];
      rewrite ?dom_insert_L, ?dom_singleton_L; set_solver.
  - destruct (negb (String.eqb (SmartParser._get_base_url soup) ""));
      destruct (negb (current =? 0)); destruct (1 <? total); destruct found as [[? ?]|];
      by simplify_map_eq.
  - unfold get_or.
    destruct (negb (String.eqb (SmartParser._get_base_url soup) ""));
      destruct (negb (current =? 0)); destruct (1 <? total); destruct found as [[? ?]|];
      by simplify_map_eq.
  - destruct (String.eqb (SmartParser._get_base_url soup) ""); simpl;
      destruct (negb (current =? 0)); destruct (1 <? total); destruct found as [[? ?]|];
      by simplify_map_eq.
  - destruct Hsel as [->|(s & n & -> & Hin & Hs)].
    + left.
      destruct (negb (String.eqb (SmartParser._get_base_url soup) ""));
        destruct (negb (current =? 0)); destruct (1 <? total);
        by simplify_map_eq.
    + right. exists s, n. split; [done|]. split; [done|].
      destruct (negb (String.eqb (SmartParser._get_base_url soup) ""));
        destruct (negb (current =? 0)); destruct (1 <? total);
        by simplify_map_eq.
Qed.

(** X10 on the first sample page. *)
Lemma detect_pagination_shape_witness :
  dom Samples.page1_info = {[ "total_pages"; "current_page"; "page_pattern"; "base_url";
                              "pagination_selector" ]}
  ∧ Samples.page1_info !! "page_pattern" = Some (PStr "pg={page}")
  ∧ get_or Samples.page1_info "page_param" (PStr "pg") = PStr "pg"
  ∧ Samples.page1_info !! "base_url"
    = Some (if String.eqb (SmartParser._get_base_url Samples.page1) "" then PNone
            else PStr (SmartParser._get_base_url Samples.page1))
  ∧ (Samples.page1_info !! "pagination_selector" = Some PNone
     ∨ ∃ s n,
         s ∈ default SmartParser.common_selectors_default None
         ∧ SmartParser.select_one Samples.css_select Samples.page1 s = Ok (Some n)
         ∧ Samples.page1_info !! "pagination_selector" = Some (PStr s)).
Proof.
  apply (detect_pagination_shape Samples.css_select Samples.page1 None).
  vm_compute. reflexivity.
Defined.

(** ** smart_parser.py: the page pattern of an address *)

Lemma rep_is_Some_mono {A B} p lo hi s (k1 : string → option A) (k2 : string → option B) :
  (∀ x, is_Some (k1 x) → is_Some (k2 x)) →
  is_Some (Re.rep p lo hi s k1) → is_Some (Re.rep p lo hi s k2).
Proof.
  intros Hk. revert lo hi. induction s as [|c s IH]; intros lo hi; simpl.
  - destruct lo; [apply Hk|done].
  - destruct (p c && _).
    + specialize (IH (Nat.pred lo) (Nat.pred <$> hi)).
      destruct (Re.rep p (Nat.pred lo) (Nat.pred <$> hi) s k1).
      * intros _. destruct IH as [x ->]; [by eexists|]. by eexists.
      * intros Hstop. destruct (Re.rep p (Nat.pred lo) (Nat.pred <$> hi) s k2);
          [by eexists|]. destruct lo; [by apply Hk|done].
    + destruct lo; [apply Hk|done].
Qed.

(** An address in which [&pg=N] is found at the start has [pg=N] right
    after its first character. *)
Lemma amp_pg_match_param c s :
  is_Some (Re.match_at PagePattern.amp_pg_re (String c s)) →
  is_Some (Re.match_at PagePattern.param_re s).
Proof.
  unfold Re.match_at, PagePattern.amp_pg_re, PagePattern.param_re, Re.digits.
  cbn [Re.run].
  destruct (Text.startswith "&pg=" (String c s)) eqn:E; [|by intros [? [=]]].
  assert (E' : Text.startswith "pg=" s = true).
  { simpl in E. by apply andb_true_iff in E as [_ E]. }
  rewrite E'. change (Text.str_drop (String.length "&pg=") (String c s))
    with (Text.str_drop (String.length "pg=") s).
  intros H.
  match goal with
  | |- is_Some (match ?r with Some x => Some x | None => _ end) =>
      assert (Hr : is_Some r); [|by destruct Hr as [x ->]; eexists]
  end.
  eapply rep_is_Some_mono; [|exact H]. intros x _. by eexists.
Qed.

Lemma search_amp_pg_param s :
  Re.search PagePattern.param_re s = None → Re.search PagePattern.amp_pg_re s = None.
Proof.
  induction s as [|c s IH].
  - intros _. vm_compute. reflexivity.
  - cbn [Re.search].
    destruct (Re.match_at PagePattern.param_re (String c s)); [done|].
    intros H. specialize (IH H).
    destruct (Re.match_at PagePattern.amp_pg_re (String c s)) as [m|] eqn:E; [|done].
    assert (Hs : is_Some (Re.match_at PagePattern.param_re s)).
    { apply (amp_pg_match_param c). rewrite E. by eexists. }
    destruct Hs as [m' Hm']. destruct s; cbn [Re.search] in H; by rewrite Hm' in H.
Qed.

(** X11.  [_detect_page_pattern] returns one of four texts: the default
    pg={page}, the replacement text of the first pattern with its
    backreference as written, /{page}.html or ?p={page}.  The text of
    the fourth pattern is never returned: an address in which &pg=N is
    found is one in which the first pattern is found. *)
Theorem detect_page_pattern_results base_url :
  PagePattern._detect_page_pattern base_url
    ∈ ["pg={page}"; "\1{page}"; "/{page}.html"; "?p={page}"]
  ∧ PagePattern._detect_page_pattern base_url ≠ "&pg={page}"
  ∧ (is_Some (Re.search PagePattern.amp_pg_re base_url) →
     PagePattern._detect_page_pattern base_url = "\1{page}").
Proof.
  assert (H : PagePattern._detect_page_pattern base_url
                ∈ ["pg={page}"; "\1{page}"; "/{page}.html"; "?p={page}"]
              ∧ (is_Some (Re.search PagePattern.amp_pg_re base_url) →
                 PagePattern._detect_page_pattern base_url = "\1{page}")).
  { unfold PagePattern._detect_page_pattern.
    destruct (String.eqb base_url "") eqn:E.
    { apply String.eqb_eq in E as ->. split; [set_solver|].
      intros [m Hm]. vm_compute in Hm. discriminate. }
    unfold PagePattern.patterns. cbn [PagePattern.first_found].
    destruct (Re.search PagePattern.param_re base_url) eqn:E1.
    { split; [set_solver|done]. }
    rewrite (search_amp_pg_param _ E1).
    split; [|by intros [? [=]]].
    destruct (Re.search PagePattern.html_re base_url); [set_solver|].
    destruct (Re.search PagePattern.p_re base_url); set_solver. }
  destruct H as [H1 H2]. split; [done|]. split; [|done].
  intros Heq. rewrite Heq in H1. set_solver.
Qed.

(** ** smart_parser.py: the detected fields *)






(** ** main.py: the detail record *)

Lemma detail_record_dates date_parse now item title d start_date end_date :
  detail_record date_parse now item title d →
  (∃ fuzzy text, date_parse fuzzy text = Ok start_date) →
  (∃ fuzzy text, date_parse fuzzy text = Ok end_date) →
  detail_record date_parse now item title
    (<["迄日" := PStr end_date]> (<["起日" := PStr start_date]> d)).
Proof.
  intros (Hdom & Hname & Htime & _ & Hplace & Horg) Hs He.
  split; [rewrite !dom_insert_L, Hdom; set_solver|].
  split; [by simplify_map_eq|]. split; [by simplify_map_eq|].
  split; [right; exists start_date, end_date; by simplify_map_eq|].
  split; [destruct Hplace as [?|[t ?]]; [left|right; exists t]; by simplify_map_eq|].
  destruct Horg as [?|[t ?]]; [left|right; exists t]; by simplify_map_eq.
Qed.

Lemma detail_dates_record date_parse now item title time_text d d' :
  Main.detail_dates date_parse time_text d = Ok d' →
  detail_record date_parse now item title d →
  detail_record date_parse now item title d'.
Proof.
  unfold Main.detail_dates. intros H Hd.
  destruct (Re.search Main.range_re time_text) as [m|].
  - destruct (date_parse false (default "" (Re.group m 1))) as [s|e1] eqn:E1.
    + cbn in H.
      destruct (date_parse false (default "" (Re.group m 2))) as [en|e2] eqn:E2.
      * cbn in H. injection H as <-. apply detail_record_dates; eauto.
      * cbn in H. destruct e2; try discriminate; by injection H as <-.
    + cbn in H. destruct e1; try discriminate; by injection H as <-.
  - destruct (date_parse true time_text) as [s|e1] eqn:E1.
    + cbn in H. injection H as <-. apply detail_record_dates; eauto.
    + cbn in H. destruct e1; try discriminate; by injection H as <-.
Qed.

Lemma detail_record_place date_parse now item title d t :
  detail_record date_parse now item title d →
  detail_record date_parse now item title (<["地點" := PStr (Text.strip t)]> d).
Proof.
  intros (Hdom & Hname & Htime & Hdates & _ & Horg).
  split; [rewrite !dom_insert_L, Hdom; set_solver|].
  split; [by simplify_map_eq|]. split; [by simplify_map_eq|].
  split.
  { destruct Hdates as [[? ?]|(s & e & ? & ? & ?)]; [left|right; exists s, e];
      by simplify_map_eq. }
  split; [right; exists t; by simplify_map_eq|].
  destruct Horg as [?|[t' ?]]; [left|right; exists t']; by simplify_map_eq.
Qed.

Lemma detail_record_organizer date_parse now item title d t :
  detail_record date_parse now item title d →
  detail_record date_parse now item title (<["主辦單位" := PStr (Text.strip t)]> d).
Proof.
  intros (Hdom & Hname & Htime & Hdates & Hplace & _).
  split; [rewrite !dom_insert_L, Hdom; set_solver|].
  split; [by simplify_map_eq|]. split; [by simplify_map_eq|].
  split.
  { destruct Hdates as [[? ?]|(s & e & ? & ? & ?)]; [left|right; exists s, e];
      by simplify_map_eq. }
  split; [|right; exists t; by simplify_map_eq].
  destruct Hplace as [?|[t' ?]]; [left|right; exists t']; by simplify_map_eq.
Qed.

Lemma bind_Ok {A B} (m : result A) (f : A → result B) b :
  m ≫= f = Ok b → ∃ a, m = Ok a ∧ f a = Ok b.
Proof. destruct m as [a|e]; [|done]. intros H. by exists a. Qed.

Lemma parse_detail_record select date_parse now soup item d :
  Main.parse_detail select date_parse now soup item = Ok (Some d) →
  ∃ title,
    get_or item "title" (PStr "") = PStr title
    ∧ Text.strip title ≠ ""
    ∧ detail_record date_parse now item (Text.strip title) d.
Proof.
  unfold Main.parse_detail. intros H.
  apply bind_Ok in H as (stripped & Htitle & H).
  assert (Ht : ∃ title, get_or item "title" (PStr "") = PStr title
                        ∧ stripped = Text.strip title).
  { destruct (get_or item "title" (PStr "")) as [|title|]; [done| |done].
    injection Htitle as <-. by exists title. }
  destruct Ht as (title & Hget & ->). clear Htitle.
  exists title. split; [done|].
  cbv beta zeta in H.
  apply bind_Ok in H as (found & _ & H). cbv beta zeta in H.
  set (container := default soup found) in H. clearbody container.
  apply bind_Ok in H as (time_elem & _ & H). cbv beta in H.
  apply bind_Ok in H as (d1 & Hd1 & H). cbv beta zeta in H.
  set (d0 := ({[ "活動名稱" := PStr (Text.strip title); "抓取時間" := PStr now;
                 "主辦單位" := PNone; "地點" := PNone; "起日" := get item "date";
                 "迄日" := get item "date" ]} : gmap string pyval)) in Hd1.
  assert (H0 : detail_record date_parse now item (Text.strip title) d0).
  { unfold d0. split; [rewrite !dom_insert_L, dom_singleton_L; set_solver|].
    split; [by simplify_map_eq|]. split; [by simplify_map_eq|].
    split; [left; by simplify_map_eq|]. split; left; by simplify_map_eq. }
  clearbody d0.
  assert (H1 : detail_record date_parse now item (Text.strip title) d1).
  { destruct time_elem as [time_elem|].
    - by eapply detail_dates_record.
    - by injection Hd1 as <-. }
  clear Hd1 H0 d0.
  match type of H with
  | context [truthy (get ?x _)] => set (d3 := x) in H
  end.
  assert (H3 : detail_record date_parse now item (Text.strip title) d3).
  { unfold d3.
    destruct (Bs4.find (λ n, Bs4.named "p" n
                             && Main.string_starts Main.organizer_label_re n) container);
      destruct (Bs4.find (λ n, Bs4.named "p" n
                               && Main.string_starts Main.location_label_re n) container);
      repeat first [apply detail_record_organizer | apply detail_record_place];
      exact H1. }
  clearbody d3.
  destruct (truthy (get d3 "活動名稱")) eqn:Ht; [|done].
  injection H as <-. split; [|done].
  destruct H3 as (_ & Hname & _). unfold get in Ht. rewrite Hname in Ht.
  simpl in Ht. intros Hempty. by rewrite Hempty in Ht.
Qed.

Lemma detail_attempts_record select fetch date_parse now attempts detail_url item d :
  Main.detail_attempts select fetch date_parse now attempts detail_url item = Some d →
  ∃ soup, fetch detail_url = Some soup
          ∧ Main.parse_detail select date_parse now soup item = Ok (Some d).
Proof.
  induction attempts as [|n IH]; simpl; [done|].
  destruct (fetch detail_url) as [soup|] eqn:Hf; [|exact IH].
  destruct (Main.parse_detail select date_parse now soup item) as [r|e] eqn:Hp;
    [|exact IH].
  intros ->. by exists soup.
Qed.

(** X13.  A record [fetch_detail_page] returns comes from an item with
    a non-empty text link whose detail page the crawler returned; it has
    exactly the six columns of the workbook; its name is the stripped
    title of the item, which is not empty; its fetch time is the time of
    the call; its two dates are either both the date of the list or both
    texts [date_parse] returned; and its place and its organizer are
    [None] or a stripped text. *)
Theorem fetch_detail_page_record select fetch urljoin date_parse now base_url item
    max_retries d :
  Main.fetch_detail_page select fetch urljoin date_parse now base_url item max_retries
  = Ok (Some d) →
  ∃ link title soup,
    item !! "link" = Some (PStr link)
    ∧ link ≠ ""
    ∧ fetch (urljoin base_url link) = Some soup
    ∧ get_or item "title" (PStr "") = PStr title
    ∧ Text.strip title ≠ ""
    ∧ detail_record date_parse now item (Text.strip title) d.
Proof.
  unfold Main.fetch_detail_page, get_or.
  destruct (item !! "link") as [[|link|z]|] eqn:Hlink; simpl; try done.
  - destruct (negb (String.eqb link "")) eqn:Hne; simpl; [|done].
    intros [= H]. apply detail_attempts_record in H as (soup & Hf & Hp).
    apply parse_detail_record in Hp as (title & Ht & Hs & Hd).
    exists link, title, soup. repeat split; try done.
    + intros ->. done.
    + by destruct Hd.
    + by destruct Hd as (_ & ? & _).
    + by destruct Hd as (_ & _ & ? & _).
    + by destruct Hd as (_ & _ & _ & ? & _).
    + by destruct Hd as (_ & _ & _ & _ & ? & _).
    + by destruct Hd as (_ & _ & _ & _ & _ & ?).
  - destruct (negb (z =? 0)); simpl; done.
Qed.

(** X13 on the sample event and its detail page with a range of dates. *)
Lemma fetch_detail_page_record_witness :
  ∃ link title soup,
    Samples.fresh_event !! "link" = Some (PStr link)
    ∧ link ≠ ""
    ∧ Samples.fetch_from Samples.site_rewriting
        (Samples.urljoin_sibling Samples.site_url link) = Some soup
    ∧ get_or Samples.fresh_event "title" (PStr "") = PStr title
    ∧ Text.strip title ≠ ""
    ∧ detail_record Samples.date_parse_ymd Samples.clock Samples.fresh_event
        (Text.strip title) Samples.stored_rewritten.
Proof.
  apply (fetch_detail_page_record Samples.css_select
           (Samples.fetch_from Samples.site_rewriting) Samples.urljoin_sibling
           Samples.date_parse_ymd Samples.clock Samples.site_url Samples.fresh_event 3).
  vm_compute. reflexivity.
Defined.

(** ** main.py: the organizer filter *)

(** X15.  The organizer filter returns a subsequence of its input, leaves
    its own result unchanged and goes through a concatenation part by
    part; for a site other than the one it is written for it returns the
    input as it is, and for that site every record it keeps is non-empty
    and has one of the two names of the centre as its organizer. *)
Theorem filter_data_by_organizer_filter :
  (∀ data cfg, sublist (Main.filter_data_by_organizer data cfg) data)
  ∧ (∀ data cfg,
       Main.filter_data_by_organizer (Main.filter_data_by_organizer data cfg) cfg
       = Main.filter_data_by_organizer data cfg)
  ∧ (∀ data1 data2 cfg,
       Main.filter_data_by_organizer (data1 ++ data2) cfg
       = Main.filter_data_by_organizer data1 cfg
         ++ Main.filter_data_by_organizer data2 cfg)
  ∧ (∀ data cfg,
       Main.sc_url cfg
       ≠ "https://sprout.tku.edu.tw/DeepNews.aspx?spid=76E2C6DA-A2BA-410D-8BA0-CBFB22C84AEA" →
       Main.filter_data_by_organizer data cfg = data)
  ∧ (∀ data cfg item,
       Main.sc_url cfg
       = "https://sprout.tku.edu.tw/DeepNews.aspx?spid=76E2C6DA-A2BA-410D-8BA0-CBFB22C84AEA" →
       item ∈ Main.filter_data_by_organizer data cfg →
       item ≠ ∅
       ∧ (item !! "主辦單位" = Some (PStr "教師教學發展中心")
          ∨ item !! "主辦單位" = Some (PStr "教發中心"))).
Proof.
  split; [|split; [|split; [|split]]].
  - intros data cfg. unfold Main.filter_data_by_organizer.
    destruct (negb _); [done|]. apply List_filter_sublist.
  - intros data cfg. unfold Main.filter_data_by_organizer.
    destruct (negb _); [done|].
    rewrite List_filter_filter. apply filter_ext. intros item. by rewrite andb_diag.
  - intros data1 data2 cfg. unfold Main.filter_data_by_organizer.
    destruct (negb _); [done|]. apply List.filter_app.
  - intros data cfg Hne. unfold Main.filter_data_by_organizer.
    destruct (String.eqb_spec (Main.sc_url cfg)
      "https://sprout.tku.edu.tw/DeepNews.aspx?spid=76E2C6DA-A2BA-410D-8BA0-CBFB22C84AEA");
      done.
  - intros data cfg item Heq. unfold Main.filter_data_by_organizer.
    rewrite Heq, String.eqb_refl. cbn [negb]. intros H.
    apply list_elem_of_In, filter_In in H as [_ H].
    apply andb_true_iff in H as [H1 H2].
    apply negb_true_iff, bool_decide_eq_false in H1.
    apply bool_decide_eq_true in H2. split; [done|].
    unfold get_or in H2. destruct (item !! "主辦單位") as [v|]; simpl in H2.
    + apply elem_of_cons in H2 as [->|H2]; [by left|].
      apply elem_of_cons in H2 as [->|H2]; [by right|]. by apply elem_of_nil in H2.
    + apply elem_of_cons in H2 as [[=]|H2].
      apply elem_of_cons in H2 as [[=]|H2]. by apply elem_of_nil in H2.
Qed.
